(** * BridgeCon, [data_download/fetch_articles.py]

    A shallow embedding of the OpenAlex downloader: the record flattener
    [enhance_work_data] and the cursor pager [fetch_and_save_articles],
    together with the part of the Python runtime both rely on (dynamic
    values, truthiness, [dict.get], iteration, [set], [sorted],
    [str.join], true division, [round]). *)

From Stdlib Require Import ZArith String Ascii List Bool Lia DecimalString DecimalZ.
From Stdlib Require Import Floats.SpecFloat.
From stdpp Require Import base tactics option list list_numbers sorting strings gmap.

Local Open Scope Z_scope.
Set Warnings "-register-all,-clear-no-such-hyp".

(* ===================================================================== *)
(** * Python values and exceptions *)
(* ===================================================================== *)

(** What [json.loads] can produce.  A [str] is a Rocq [string]: the
    sequence of its characters, compared character by character as Python
    compares code points; characters beyond the 8-bit range are out of reach
    (the one literal of the program that has one, the check mark of the last
    line it prints, is spelled by its UTF-8 bytes).  A [float] is an IEEE
    binary64 value ([spec_float] at precision 53).  A [dict] keeps its items in
    insertion order. *)
Inductive value : Type :=
  | VNone
  | VBool (b : bool)
  | VInt (n : Z)
  | VFloat (x : spec_float)
  | VStr (s : string)
  | VList (l : list value)
  | VDict (d : list (string * value)).

Abbreviation dict := (list (string * value)).

Inductive exn : Type :=
  | AttributeError
  | TypeError
  | KeyError
  | ZeroDivisionError
  | OverflowError.

Inductive result (A : Type) : Type :=
  | Ok (a : A)
  | Raise (e : exn).
Arguments Ok {A} a.
Arguments Raise {A} e.

Definition bind {A B} (c : result A) (k : A -> result B) : result B :=
  match c with
  | Ok a => k a
  | Raise e => Raise e
  end.

Notation "x <- c ;; k" := (bind c (fun x => k))
  (at level 100, c at next level, right associativity,
   format "'[v' x  <-  c  ;;  '/' k ']'").

(** [[f(x) for x in xs]], stopping at the first exception. *)
Fixpoint mapM {A B} (f : A -> result B) (xs : list A) : result (list B) :=
  match xs with
  | [] => Ok []
  | x :: xs' => y <- f x ;; ys <- mapM f xs' ;; Ok (y :: ys)
  end.

(** [[f(x) for x in xs if c(x)]]. *)
Fixpoint filter_mapM {A B} (c : A -> result bool) (f : A -> result B)
    (xs : list A) : result (list B) :=
  match xs with
  | [] => Ok []
  | x :: xs' =>
      b <- c x ;;
      if (b : bool)
      then y <- f x ;; ys <- filter_mapM c f xs' ;; Ok (y :: ys)
      else filter_mapM c f xs'
  end.

(** A [for] loop threading its local variables. *)
Fixpoint foldM {A S} (f : S -> A -> result S) (xs : list A) (s : S) : result S :=
  match xs with
  | [] => Ok s
  | x :: xs' => s' <- f s x ;; foldM f xs' s'
  end.

(* ===================================================================== *)
(** * Floats *)
(* ===================================================================== *)

Definition prec : Z := 53.
Definition emax : Z := 1024.

Definition float_zero : spec_float := S754_zero false.

(** An integer as an exact (not yet rounded) operand. *)
Definition exact_of_Z (n : Z) : spec_float :=
  match n with
  | Z0 => S754_zero false
  | Zpos p => S754_finite false p 0
  | Zneg p => S754_finite true p 0
  end.

(** [0.0 <= x]; false on NaN. *)
Definition float_nonneg (x : spec_float) : bool :=
  SFleb float_zero x.

Definition float_is_zero (x : spec_float) : bool :=
  match x with S754_zero _ => true | _ => false end.

(** Rounding to nearest even overflows exactly from the midpoint between the
    largest double and [2^1024] on. *)
Definition overflow_threshold : Z := 2 ^ 1024 - 2 ^ 970.

(** [float(n)]: nearest double, [OverflowError] when there is none. *)
Definition float_of_int (n : Z) : result spec_float :=
  if overflow_threshold <=? Z.abs n then Raise OverflowError
  else Ok (binary_normalize prec emax n 0 false).

(** [a / b] on two [int]s: the correctly rounded quotient. *)
Definition int_true_divide (a b : Z) : result spec_float :=
  if b =? 0 then Raise ZeroDivisionError
  else if overflow_threshold * Z.abs b <=? Z.abs a then Raise OverflowError
  else Ok (SFdiv prec emax (exact_of_Z a) (exact_of_Z b)).

(** [a / b] on two [float]s. *)
Definition float_true_divide (a b : spec_float) : result spec_float :=
  if float_is_zero b then Raise ZeroDivisionError
  else Ok (SFdiv prec emax a b).

(** The integer nearest to [m * 2^e * 1000], ties to even. *)
Definition round_thousandths (m : positive) (e : Z) : Z :=
  match e with
  | Zneg p =>
      let den := 2 ^ Zpos p in
      let num := Zpos m * 1000 in
      let q := num / den in
      let r := num mod den in
      match 2 * r ?= den with
      | Lt => q
      | Gt => q + 1
      | Eq => if Z.even q then q else q + 1
      end
  | _ => Zpos m * 2 ^ e * 1000
  end.

(** [round(x, 3)] on a [float]: the decimal with three fractional digits
    nearest to [x] (ties to even), read back as the nearest double; the sign
    is kept, and non-finite values round to themselves. *)
Definition float_round3 (x : spec_float) : spec_float :=
  match x with
  | S754_finite s m e =>
      match e with
      | Zneg _ =>
          match round_thousandths m e with
          | Zpos k => SFdiv prec emax (S754_finite s k 0) (S754_finite false 1000 0)
          | _ => S754_zero s
          end
      | _ => x
      end
  | _ => x
  end.

(* ===================================================================== *)
(** * The Python operations the program uses *)
(* ===================================================================== *)

(** [bool(v)]. *)
Definition truthy (v : value) : bool :=
  match v with
  | VNone => false
  | VBool b => b
  | VInt n => negb (n =? 0)
  | VFloat x => negb (float_is_zero x)
  | VStr s => negb (String.eqb s EmptyString)
  | VList l => match l with [] => false | _ => true end
  | VDict d => match d with [] => false | _ => true end
  end.

(** [a or b]. *)
Definition py_or (a b : value) : value := if truthy a then a else b.

Fixpoint dict_lookup (k : string) (d : dict) : option value :=
  match d with
  | [] => None
  | (k', v) :: d' => if String.eqb k k' then Some v else dict_lookup k d'
  end.

(** [d[k] = v]: overwrite in place, or add at the end. *)
Fixpoint dict_set (k : string) (v : value) (d : dict) : dict :=
  match d with
  | [] => [(k, v)]
  | (k', v') :: d' =>
      if String.eqb k k' then (k, v) :: d' else (k', v') :: dict_set k v d'
  end.

Definition dict_get (d : dict) (k : string) (default : value) : value :=
  match dict_lookup k d with Some v => v | None => default end.

(** [o.get(k, default)]; only a [dict] has the method. *)
Definition py_get_default (o : value) (k : string) (default : value) : result value :=
  match o with
  | VDict d => Ok (dict_get d k default)
  | _ => Raise AttributeError
  end.

(** [o.get(k)]. *)
Definition py_get (o : value) (k : string) : result value :=
  py_get_default o k VNone.

(** [o[k]] with a [str] key. *)
Definition py_getitem (o : value) (k : string) : result value :=
  match o with
  | VDict d => match dict_lookup k d with Some v => Ok v | None => Raise KeyError end
  | _ => Raise TypeError
  end.

Fixpoint chars (s : string) : list value :=
  match s with
  | EmptyString => []
  | String c s' => VStr (String c EmptyString) :: chars s'
  end.

(** [for x in o]: the elements of a [list], the characters of a [str], the
    keys of a [dict]. *)
Definition py_iter (o : value) : result (list value) :=
  match o with
  | VList l => Ok l
  | VStr s => Ok (chars s)
  | VDict d => Ok (map (fun kv => VStr (fst kv)) d)
  | _ => Raise TypeError
  end.

(** [len(o)]. *)
Definition py_len (o : value) : result Z :=
  match o with
  | VList l => Ok (Z.of_nat (length l))
  | VStr s => Ok (Z.of_nat (String.length s))
  | VDict d => Ok (Z.of_nat (length d))
  | _ => Raise TypeError
  end.

(** ** Numbers: comparison across [bool], [int] and [float] is exact *)

Definition Z_of_bool (b : bool) : Z := if b then 1 else 0.

(** [n ? x] for an [int] and a [float]; [None] on NaN. *)
Definition compare_int_float (n : Z) (x : spec_float) : option comparison :=
  match x with
  | S754_nan => None
  | S754_infinity s => Some (if s then Gt else Lt)
  | S754_zero _ => Some (n ?= 0)
  | S754_finite s m e =>
      let sm := if s then Zneg m else Zpos m in
      Some (match e with
            | Zneg p => n * 2 ^ Zpos p ?= sm
            | _ => n ?= sm * 2 ^ e
            end)
  end.

Definition opt_CompOpp (c : option comparison) : option comparison :=
  match c with Some c => Some (CompOpp c) | None => None end.

(** The order of two numbers; [None] when one is not a number,
    [Some None] when a NaN is involved. *)
Definition compare_numbers (a b : value) : option (option comparison) :=
  let as_int v :=
    match v with VBool b => Some (Z_of_bool b) | VInt n => Some n | _ => None end in
  match as_int a, as_int b, a, b with
  | Some m, Some n, _, _ => Some (Some (m ?= n))
  | Some m, None, _, VFloat y => Some (compare_int_float m y)
  | None, Some n, VFloat x, _ => Some (opt_CompOpp (compare_int_float n x))
  | None, None, VFloat x, VFloat y => Some (SFcompare x y)
  | _, _, _, _ => None
  end.

(** [a == b] on hashable values. *)
Definition py_eq (a b : value) : bool :=
  match a, b with
  | VNone, VNone => true
  | VStr s, VStr t => String.eqb s t
  | _, _ =>
      match compare_numbers a b with
      | Some (Some Eq) => true
      | _ => false
      end
  end.

(** [a < b]: defined between two strings and between two numbers. *)
Definition py_lt (a b : value) : result bool :=
  match a, b with
  | VStr s, VStr t => Ok (String.ltb s t)
  | _, _ =>
      match compare_numbers a b with
      | Some (Some Lt) => Ok true
      | Some _ => Ok false
      | None => Raise TypeError
      end
  end.

(** ** Sets *)

Definition hashable (v : value) : bool :=
  match v with VList _ | VDict _ => false | _ => true end.

(** Whether a [set] takes [a] and [b] for one member: the same object, or
    equal ones.  The decoder hands out one object for every NaN it reads, so
    two NaNs are one member although [NaN != NaN]. *)
Definition same_member (a b : value) : bool :=
  match a, b with
  | VFloat S754_nan, VFloat S754_nan => true
  | _, _ => py_eq a b
  end.

(** A [set] is kept as the list of its members in order of first insertion;
    the order a [set] is iterated in is not specified, and [sorted] below
    does not depend on it for members in a strict total order.
    [s.add(v)]. *)
Definition set_add (s : list value) (v : value) : result (list value) :=
  if hashable v
  then Ok (if existsb (same_member v) s then s else s ++ [v])
  else Raise TypeError.

(** [set(xs)]. *)
Definition py_set (xs : list value) : result (list value) :=
  foldM set_add xs [].

(** ** [sorted] *)

(** Insertion of [x], which came before every member of [l], into a list
    already in order: [x] goes in front of the first member that is not
    smaller than it. *)
Fixpoint insert_sorted (x : value) (l : list value) : result (list value) :=
  match l with
  | [] => Ok [x]
  | y :: l' =>
      lt <- py_lt y x ;;
      if (lt : bool) then r <- insert_sorted x l' ;; Ok (y :: r)
      else Ok (x :: y :: l')
  end.

(** [sorted(xs)]: ascending and stable; [TypeError] as soon as two members
    that have to be compared cannot be, which is the case of any list mixing
    strings with other values. *)
Fixpoint py_sorted (xs : list value) : result (list value) :=
  match xs with
  | [] => Ok []
  | x :: xs' => s <- py_sorted xs' ;; insert_sorted x s
  end.

(** ** [sep.join(xs)] *)

Fixpoint join_strings (sep : string) (ss : list string) : string :=
  match ss with
  | [] => EmptyString
  | [s] => s
  | s :: ss' => String.append s (String.append sep (join_strings sep ss'))
  end.

Definition as_str (v : value) : result string :=
  match v with VStr s => Ok s | _ => Raise TypeError end.

Definition py_join (sep : string) (xs : list value) : result string :=
  ss <- mapM as_str xs ;; Ok (join_strings sep ss).

(** ** [a / b] and [round(x, 3)] *)

Inductive number : Type :=
  | NInt (n : Z)
  | NFloat (x : spec_float).

Definition as_number (v : value) : result number :=
  match v with
  | VBool b => Ok (NInt (Z_of_bool b))
  | VInt n => Ok (NInt n)
  | VFloat x => Ok (NFloat x)
  | _ => Raise TypeError
  end.

Definition py_truediv (a b : value) : result spec_float :=
  x <- as_number a ;;
  y <- as_number b ;;
  match x, y with
  | NInt m, NInt n => int_true_divide m n
  | NInt m, NFloat y => x <- float_of_int m ;; float_true_divide x y
  | NFloat x, NInt n => y <- float_of_int n ;; float_true_divide x y
  | NFloat x, NFloat y => float_true_divide x y
  end.

(* ===================================================================== *)
(** * The flattener, [enhance_work_data] *)
(* ===================================================================== *)

(** [enhanced[k]] on the local [dict]. *)
Definition item (enhanced : dict) (k : string) : result value :=
  py_getitem (VDict enhanced) k.

(** Iterating [work.get(key, [])]. *)
Definition collection (work : value) (key : string) : result (list value) :=
  c <- py_get_default work key (VList []) ;; py_iter c.

(** One entry of an author's ["institutions"] list. *)
Definition institution_info (inst : value) : result value :=
  institution_id <- py_get inst "id" ;;
  institution_name <- py_get inst "display_name" ;;
  country <- py_get inst "country" ;;
  type <- py_get inst "type" ;;
  Ok (VDict [("institution_id", institution_id);
             ("institution_name", institution_name);
             ("country", country);
             ("type", type)]).

(** The [author_info] literal of one authorship. *)
Definition author_info (auth : value) : result value :=
  a <- py_get_default auth "author" (VDict []) ;;
  author_id <- py_get a "id" ;;
  a <- py_get_default auth "author" (VDict []) ;;
  author_name <- py_get a "display_name" ;;
  a <- py_get_default auth "author" (VDict []) ;;
  orcid <- py_get a "orcid" ;;
  position <- py_get auth "author_position" ;;
  insts <- collection auth "institutions" ;;
  institutions <- mapM institution_info insts ;;
  Ok (VDict [("author_id", author_id);
             ("author_name", author_name);
             ("orcid", orcid);
             ("position", position);
             ("institutions", VList institutions)]).

(** Body of the inner loop: a truthy display name joins [institutions_set]. *)
Definition add_institution (institutions_set : list value) (inst : value)
    : result (list value) :=
  name <- py_get inst "display_name" ;;
  if truthy name
  then name <- py_get inst "display_name" ;; set_add institutions_set name
  else Ok institutions_set.

(** Body of the loop over [work.get("authorships", [])]; the state is
    [(authors_list, institutions_set)]. *)
Definition authorship_step (st : list value * list value) (auth : value)
    : result (list value * list value) :=
  let '(authors_list, institutions_set) := st in
  info <- author_info auth ;;
  insts <- collection auth "institutions" ;;
  institutions_set <- foldM add_institution insts institutions_set ;;
  Ok (authors_list ++ [info], institutions_set).

(** [[topic[key].get("display_name") for topic in work.get("topics", [])
      if topic.get(key)]] *)
Definition topic_names (work : value) (key : string) : result (list value) :=
  topics <- collection work "topics" ;;
  filter_mapM
    (fun topic => f <- py_get topic key ;; Ok (truthy f))
    (fun topic => f <- py_getitem topic key ;; py_get f "display_name")
    topics.

(** [[k.get(key) for k in work.get(coll, [])]] *)
Definition entry_names (work : value) (coll key : string) : result (list value) :=
  ks <- collection work coll ;;
  mapM (fun k => py_get k key) ks.

(** The [keywords] local: concept names, or keyword names when there is no
    concept. *)
Definition keyword_names (work : value) : result (list value) :=
  names <- entry_names work "concepts" "display_name" ;;
  if truthy (VList names) then Ok names
  else entry_names work "keywords" "keyword".

(** [sorted(set(xs))] *)
Definition sorted_set (xs : list value) : result (list value) :=
  s <- py_set xs ;; py_sorted s.

(** [", ".join(enhanced[k])] when [enhanced[k]] is truthy, the empty string
    otherwise. *)
Definition joined_part (enhanced : dict) (k : string) : result value :=
  v <- item enhanced k ;;
  if truthy v
  then v <- item enhanced k ;; l <- py_iter v ;; s <- py_join ", " l ;; Ok (VStr s)
  else Ok (VStr EmptyString).

(** The [# Ratios] block. *)
Definition citation_per_reference_ratio (enhanced : dict) : result value :=
  v <- item enhanced "referenced_works_count" ;;
  let ref_count := py_or v (VInt 1) in
  v <- item enhanced "cited_by_count" ;;
  q <- py_truediv (py_or v (VInt 0)) ref_count ;;
  Ok (VFloat (float_round3 q)).

(** The [# Journal info] block: the value stored under ["journal"], if the
    guard lets one be stored. *)
Definition journal_info (work : value) : result (option value) :=
  loc <- py_get work "primary_location" ;;
  cond <- (if truthy loc
           then loc <- py_getitem work "primary_location" ;; py_get loc "source"
           else Ok loc) ;;
  if truthy cond
  then loc <- py_getitem work "primary_location" ;;
       source <- py_getitem loc "source" ;;
       name <- py_get source "display_name" ;;
       type <- py_get source "type" ;;
       issn <- py_get source "issn" ;;
       is_oa <- py_get source "is_oa" ;;
       Ok (Some (VDict [("name", name); ("type", type);
                        ("issn", issn); ("is_oa", is_oa)]))
  else Ok None.

(** The [# Research topic] block. *)
Definition research_topic (enhanced : dict) : result string :=
  title <- py_get_default (VDict enhanced) "title" (VStr EmptyString) ;;
  fields_part <- joined_part enhanced "fields" ;;
  domains_part <- joined_part enhanced "domains" ;;
  keywords_part <- joined_part enhanced "top_keywords" ;;
  let topic_parts := [title; fields_part; domains_part; keywords_part] in
  py_join " | " (List.filter truthy topic_parts).

Definition enhance_work_data (work : value) : result dict :=
  let enhanced : dict := [] in
  (* Basic info *)
  v <- py_get work "id" ;;
  let enhanced := dict_set "id" v enhanced in
  v <- py_get work "display_name" ;;
  let enhanced := dict_set "title" v enhanced in
  v <- py_get work "publication_year" ;;
  let enhanced := dict_set "publication_year" v enhanced in
  v <- py_get work "cited_by_count" ;;
  let enhanced := dict_set "cited_by_count" v enhanced in
  v <- py_get work "referenced_works_count" ;;
  let enhanced := dict_set "referenced_works_count" v enhanced in
  v <- py_get work "type" ;;
  let enhanced := dict_set "type" v enhanced in
  (* Authors *)
  auths <- collection work "authorships" ;;
  st <- foldM authorship_step auths ([], []) ;;
  let '(authors_list, institutions_set) := st in
  let enhanced := dict_set "authors" (VList authors_list) enhanced in
  let enhanced := dict_set "authors_count" (VInt (Z.of_nat (length authors_list))) enhanced in
  let enhanced :=
    dict_set "institutions_count" (VInt (Z.of_nat (length institutions_set))) enhanced in
  (* Fields & topics *)
  fields <- topic_names work "field" ;;
  domains <- topic_names work "domain" ;;
  keywords <- keyword_names work ;;
  l <- sorted_set fields ;;
  let enhanced := dict_set "fields" (VList l) enhanced in
  l <- sorted_set domains ;;
  let enhanced := dict_set "domains" (VList l) enhanced in
  l <- sorted_set keywords ;;
  let enhanced := dict_set "keywords" (VList l) enhanced in
  v <- item enhanced "fields" ;;
  n <- py_len v ;;
  let enhanced := dict_set "is_multidisciplinary" (VBool (1 <? n)) enhanced in
  v <- item enhanced "keywords" ;;
  l <- py_iter v ;;
  let enhanced := dict_set "top_keywords" (VList (firstn 5 l)) enhanced in
  (* Ratios *)
  ratio <- citation_per_reference_ratio enhanced ;;
  let enhanced := dict_set "citation_per_reference_ratio" ratio enhanced in
  (* Journal info *)
  j <- journal_info work ;;
  let enhanced :=
    match j with
    | Some journal => dict_set "journal" journal enhanced
    | None => enhanced
    end in
  (* Research topic (title + fields + domains + top keywords) *)
  topic <- research_topic enhanced ;;
  let enhanced := dict_set "research_topic" (VStr topic) enhanced in
  Ok enhanced.

(* ===================================================================== *)
(** * Text files *)
(* ===================================================================== *)

Definition LF : ascii := "010"%char.
Definition CR : ascii := "013"%char.

(** [str(n)] and [f"{n}"] for an [int]. *)
Definition str_of_int (n : Z) : string :=
  NilEmpty.string_of_int (Z.to_int n).

(** [sum(1 for _ in f)] on a file opened for reading as text: a line ends at
    ["\n"], ["\r"] or ["\r\n"]; a last line without its end still counts.
    [cr] tells that the previous character was ["\r"], [pending] that the
    current line has characters. *)
Fixpoint count_lines_aux (s : string) (cr pending : bool) : nat :=
  match s with
  | EmptyString => if pending then 1%nat else 0%nat
  | String c s' =>
      if Ascii.eqb c LF then
        if cr then count_lines_aux s' false false
        else S (count_lines_aux s' false false)
      else if Ascii.eqb c CR then S (count_lines_aux s' true false)
      else count_lines_aux s' false true
  end.

Definition count_lines (content : string) : nat :=
  count_lines_aux content false false.

(** [f.read()] in text mode: the three line ends all read as ["\n"]. *)
Fixpoint read_text (content : string) (cr : bool) : string :=
  match content with
  | EmptyString => EmptyString
  | String c s' =>
      if Ascii.eqb c LF then
        if cr then read_text s' false else String LF (read_text s' false)
      else if Ascii.eqb c CR then String LF (read_text s' true)
      else String c (read_text s' false)
  end.

(** [c.isspace()] *)
Definition is_space (c : ascii) : bool :=
  let n := N_of_ascii c in
  ((9 <=? n) && (n <=? 13) || (28 <=? n) && (n <=? 32) || (n =? 133) || (n =? 160))%N.

Fixpoint lstrip (s : string) : string :=
  match s with
  | String c s' => if is_space c then lstrip s' else s
  | EmptyString => EmptyString
  end.

Fixpoint rstrip (s : string) : string :=
  match s with
  | String c s' =>
      match rstrip s' with
      | EmptyString => if is_space c then EmptyString else String c EmptyString
      | r => String c r
      end
  | EmptyString => EmptyString
  end.

(** [s.strip()] *)
Definition strip (s : string) : string := rstrip (lstrip s).

(** No line end inside. *)
Fixpoint one_line (s : string) : bool :=
  match s with
  | EmptyString => true
  | String c s' => negb (Ascii.eqb c LF) && negb (Ascii.eqb c CR) && one_line s'
  end.

(** Empty, or ending in ["\n"]. *)
Fixpoint ends_lines (s : string) : bool :=
  match s with
  | EmptyString => true
  | String c EmptyString => Ascii.eqb c LF
  | String _ s' => ends_lines s'
  end.

(* ===================================================================== *)
(** * The pager, [fetch_and_save_articles] *)
(* ===================================================================== *)

(** The query of one page request. *)
Record params : Type := Params {
  param_filter : string;
  param_per_page : Z;
  param_cursor : string
}.

(** What [requests.get] hands back: the status, and the body as
    [response.json()] decodes it. *)
Record response : Type := Response {
  status_code : Z;
  json : value
}.

(** Everything outside the process: the files by path, the lines printed, the
    requests sent so far, and the seconds slept. *)
Record world : Type := World {
  files : gmap string string;
  stdout : list string;
  sent : list params;
  slept : Z
}.

(** A computation that acts on the world; what it did stays done when it
    raises. *)
Definition io (A : Type) : Type := world -> result A * world.

Definition io_ret {A} (a : A) : io A := fun w => (Ok a, w).

Definition io_bind {A B} (c : io A) (k : A -> io B) : io B :=
  fun w =>
    match c w with
    | (Ok a, w') => k a w'
    | (Raise e, w') => (Raise e, w')
    end.

Notation "x <~ c ;; k" := (io_bind c (fun x => k))
  (at level 100, c at next level, right associativity,
   format "'[v' x  <~  c  ;;  '/' k ']'").
Notation "c ;;; k" := (io_bind c (fun _ => k))
  (at level 100, right associativity,
   format "'[v' c  ;;;  '/' k ']'").

Definition lift {A} (r : result A) : io A := fun w => (r, w).

(** [print(line)] *)
Definition print (line : string) : io unit :=
  fun w => (Ok tt, World (files w) (stdout w ++ [line]) (sent w) (slept w)).

(** [time.sleep(seconds)] *)
Definition sleep (seconds : Z) : io unit :=
  fun w => (Ok tt, World (files w) (stdout w) (sent w) (slept w + seconds)).

(** [os.path.exists(path)] *)
Definition exists_file (path : string) : io bool :=
  fun w => (Ok (bool_decide (is_Some (files w !! path))), w).

(** The bytes of an existing file. *)
Definition file_content (path : string) : io string :=
  fun w => (Ok (default EmptyString (files w !! path)), w).

Inductive mode : Type := ModeW | ModeA.

(** [open(path, mode)]: ["w"] empties the file, ["a"] keeps what is there;
    both create it. *)
Definition open_file (path : string) (m : mode) : io unit :=
  fun w =>
    let content :=
      match m with
      | ModeW => EmptyString
      | ModeA => default EmptyString (files w !! path)
      end in
    (Ok tt, World (<[path := content]> (files w)) (stdout w) (sent w) (slept w)).

(** [f.write(text)] on a file opened with ["w"] or ["a"]: at the end. *)
Definition write (path : string) (text : string) : io unit :=
  fun w =>
    let content := default EmptyString (files w !! path) in
    (Ok tt, World (<[path := content +:+ text]> (files w)) (stdout w) (sent w) (slept w)).

Definition folder_name (year : Z) : string :=
  "articles_" +:+ str_of_int year +:+ "_new".

(** [os.path.join(a, b)] *)
Definition path_join (a b : string) : string := a +:+ "/" +:+ b.

Definition output_file (year : Z) : string :=
  path_join (folder_name year) "all_articles_enhanced.jsonl".

Definition iterations_folder (year : Z) : string :=
  path_join (folder_name year) "iterations".

Definition iteration_file (year page : Z) : string :=
  path_join (iterations_folder year)
    ("articles_page_" +:+ str_of_int page +:+ ".jsonl").

Definition cursor_file (year page : Z) : string :=
  path_join (iterations_folder year)
    ("cursor_after_page_" +:+ str_of_int page +:+ ".txt").

Definition initial_params (year : Z) : params :=
  Params ("publication_year:" +:+ str_of_int year
          +:+ ",institutions.country_code:us,referenced_works_count:>10")
         200 "*".

(** The local variables the loop works on. *)
Record locals : Type := Locals {
  loc_params : params;
  total_downloaded : Z;
  page_count : Z
}.

(** How the [while] loop was left: by [break], or with [has_more_pages]
    false. *)
Inductive loop_exit : Type := ByBreak | NoMorePages.

(** [for i in range(1, resume_from_page)]: add the line counts of the page
    files that exist. *)
Fixpoint count_previous (year : Z) (pages : list Z) (total : Z) : io Z :=
  match pages with
  | [] => io_ret total
  | i :: rest =>
      let prev_file := iteration_file year i in
      present <~ exists_file prev_file ;;
      if (present : bool)
      then content <~ file_content prev_file ;;
           count_previous year rest (total + Z.of_nat (count_lines content))
      else count_previous year rest total
  end.

(** Lines 28 to 48: the starting locals and the mode the output file is
    opened in.  [resume_from_page] is the [int] passed, [None] when there is
    none; the test [if resume_from_page:] passes on any [int] but [0]. *)
Definition resume_setup (year : Z) (resume_from_page : option Z)
    : io (locals * mode) :=
  let params := initial_params year in
  let total_downloaded := 0 in
  let page_count := 0 in
  match resume_from_page with
  | Some r =>
      if truthy (VInt r) then
        let last_page := r - 1 in
        let cursor_file := cursor_file year last_page in
        present <~ exists_file cursor_file ;;
        if (present : bool) then
          content <~ file_content cursor_file ;;
          let params :=
            Params (param_filter params) (param_per_page params) (strip (read_text content false)) in
          total_downloaded <~ count_previous year (seqZ 1 (r - 1)) total_downloaded ;;
          io_ret (Locals params total_downloaded last_page, ModeA)
        else io_ret (Locals params total_downloaded page_count, ModeW)
      else io_ret (Locals params total_downloaded page_count, ModeW)
  | None => io_ret (Locals params total_downloaded page_count, ModeW)
  end.

Section Pager.

(** [json.dumps(record, ensure_ascii=False)] *)
Variable json_dumps : value -> string.

(** The remote source: its answer to a request, given the earlier ones. *)
Variable server : list params -> params -> response.

(** [requests.get(base_url, params=params)] *)
Definition requests_get (p : params) : io response :=
  fun w => (Ok (server (sent w) p),
            World (files w) (stdout w) (sent w ++ [p]) (slept w)).

(** The [for work in results] loop, inside [with open(iteration_file, "w")]. *)
Fixpoint write_works (year page : Z) (works : list value) : io unit :=
  match works with
  | [] => io_ret tt
  | work :: rest =>
      enhanced_work <~ lift (enhance_work_data work) ;;
      let json_line := json_dumps (VDict enhanced_work) +:+ String LF EmptyString in
      write (iteration_file year page) json_line ;;;
      write (output_file year) json_line ;;;
      write_works year page rest
  end.

(** One turn of the [while] loop: the locals to go on with, or how the loop
    is left. *)
Definition fetch_page (year : Z) (l : locals) : io (locals * option loop_exit) :=
  let page_count := page_count l + 1 in
  print ("Fetching page " +:+ str_of_int page_count +:+ " for "
         +:+ str_of_int year +:+ "...") ;;;
  response <~ requests_get (loc_params l) ;;
  if negb (status_code response =? 200) then
    print ("HTTP Error " +:+ str_of_int (status_code response)) ;;;
    io_ret (Locals (loc_params l) (total_downloaded l) page_count, Some ByBreak)
  else
    let data := json response in
    results <~ lift (py_get_default data "results" (VList [])) ;;
    open_file (iteration_file year page_count) ModeW ;;;
    works <~ lift (py_iter results) ;;
    write_works year page_count works ;;;
    n <~ lift (py_len results) ;;
    let total_downloaded := total_downloaded l + n in
    print ("Saved " +:+ str_of_int n +:+ " articles. Total so far: "
           +:+ str_of_int total_downloaded) ;;;
    meta <~ lift (py_getitem data "meta") ;;
    next_cursor <~ lift (py_get meta "next_cursor") ;;
    if truthy next_cursor then
      open_file (cursor_file year page_count) ModeW ;;;
      c <~ lift (as_str next_cursor) ;;
      write (cursor_file year page_count) c ;;;
      sleep 1 ;;;
      io_ret (Locals (Params (param_filter (loc_params l)) (param_per_page (loc_params l)) c)
                     total_downloaded page_count, None)
    else
      sleep 1 ;;;
      io_ret (Locals (loc_params l) total_downloaded page_count, Some NoMorePages)
  .

(** The [while has_more_pages] loop, for at most [fuel] turns; [None] when
    the turns run out first. *)
Fixpoint fetch_pages (fuel : nat) (year : Z) (l : locals)
    : io (option (locals * loop_exit)) :=
  match fuel with
  | O => io_ret None
  | S fuel' =>
      r <~ fetch_page year l ;;
      match r with
      | (l', Some e) => io_ret (Some (l', e))
      | (l', None) => fetch_pages fuel' year l'
      end
  end.

(** The last line printed, once the loop is left. *)
Definition report_done (year : Z) (r : option (locals * loop_exit))
    : io (option (locals * loop_exit)) :=
  match r with
  | Some (l, e) =>
      print ("✅ Done! Downloaded " +:+ str_of_int (total_downloaded l)
             +:+ " articles for " +:+ str_of_int year +:+ ".") ;;;
      io_ret (Some (l, e))
  | None => io_ret None
  end.

Definition fetch_and_save_articles (fuel : nat) (year : Z)
    (resume_from_page : option Z) : io (option (locals * loop_exit)) :=
  s <~ resume_setup year resume_from_page ;;
  let '(l, main_file_mode) := s in
  open_file (output_file year) main_file_mode ;;;
  r <~ fetch_pages fuel year l ;;
  report_done year r.

End Pager.

(* ===================================================================== *)
(** * Vocabulary of the statements *)
(* ===================================================================== *)

(** The record [enhance_work_data] returns, entry by entry, from the raw
    [dict] [d] and the values computed on the way. *)
Definition flat_record (d : dict) (authors institutions fields domains keywords : list value)
    (ratio : value) (journal : option value) (topic : string) : dict :=
  [("id", dict_get d "id" VNone);
   ("title", dict_get d "display_name" VNone);
   ("publication_year", dict_get d "publication_year" VNone);
   ("cited_by_count", dict_get d "cited_by_count" VNone);
   ("referenced_works_count", dict_get d "referenced_works_count" VNone);
   ("type", dict_get d "type" VNone);
   ("authors", VList authors);
   ("authors_count", VInt (Z.of_nat (length authors)));
   ("institutions_count", VInt (Z.of_nat (length institutions)));
   ("fields", VList fields);
   ("domains", VList domains);
   ("keywords", VList keywords);
   ("is_multidisciplinary", VBool (1 <? Z.of_nat (length fields)));
   ("top_keywords", VList (firstn 5 keywords));
   ("citation_per_reference_ratio", ratio)]
  ++ match journal with Some j => [("journal", j)] | None => [] end
  ++ [("research_topic", VStr topic)].

(** [s < t] on strings: the lexicographic order on character codes. *)
Definition str_lt (s t : string) : Prop := String.ltb s t = true.

(** Strictly ascending: every member is below all the later ones. *)
Definition ascending (l : list string) : Prop := StronglySorted str_lt l.

Definition is_str (v : value) : bool :=
  match v with VStr _ => true | _ => false end.

(** [set] and [sorted] on lists of strings only. *)
Definition add_string (s : list string) (x : string) : list string :=
  if existsb (String.eqb x) s then s else s ++ [x].

Definition distinct_strings (xs : list string) : list string :=
  fold_left add_string xs [].

Fixpoint insert_string (x : string) (l : list string) : list string :=
  match l with
  | [] => [x]
  | y :: l' => if String.ltb y x then y :: insert_string x l' else x :: y :: l'
  end.

Fixpoint sort_strings (xs : list string) : list string :=
  match xs with
  | [] => []
  | x :: xs' => insert_string x (sort_strings xs')
  end.

Definition sorted_strings (xs : list string) : list string :=
  sort_strings (distinct_strings xs).

(** The text of a string value; nothing for any other value. *)
Definition text_of (v : value) : string :=
  match v with VStr s => s | _ => EmptyString end.

Definition nonempty (s : string) : bool := negb (String.eqb s EmptyString).

(** The topic line of a title and three lists of names: the four parts in
    this order, each list joined with [", "], the empty parts left out, the
    rest joined with [" | "]. *)
Definition topic_of (title : string) (fields domains top_keywords : list string) : string :=
  join_strings " | "
    (List.filter nonempty
       [title; join_strings ", " fields; join_strings ", " domains;
        join_strings ", " top_keywords]).

(** The ["source"] object under ["primary_location"], when both are
    objects. *)
Definition source_object (work : value) : option dict :=
  match work with
  | VDict d =>
      match dict_lookup "primary_location" d with
      | Some (VDict loc) =>
          match dict_lookup "source" loc with
          | Some (VDict src) => Some src
          | _ => None
          end
      | _ => None
      end
  | _ => None
  end.

(** The same, when the source object has at least one member. *)
Definition primary_source (work : value) : option dict :=
  match source_object work with
  | Some (m :: src) => Some (m :: src)
  | _ => None
  end.

(** The ["journal"] entry made from a source object. *)
Definition journal_of (src : dict) : value :=
  VDict [("name", dict_get src "display_name" VNone);
         ("type", dict_get src "type" VNone);
         ("issn", dict_get src "issn" VNone);
         ("is_oa", dict_get src "is_oa" VNone)].

(** A finite or infinite float of the given sign, zeros included. *)
Definition has_sign (s : bool) (x : spec_float) : Prop :=
  match x with
  | S754_zero s' | S754_infinity s' | S754_finite s' _ _ => s' = s
  | S754_nan => False
  end.

(** A count read from the work: [0] when the member is absent or null, [n]
    when it is the integer [n >= 0]; nothing otherwise. *)
Definition count_member (work : value) (k : string) : option Z :=
  match work with
  | VDict d =>
      match dict_lookup k d with
      | None | Some VNone => Some 0
      | Some (VInt n) => if 0 <=? n then Some n else None
      | Some _ => None
      end
  | _ => None
  end.

(** ** The shape of a work the flattener accepts *)

(** The member [k] is absent, or satisfies [p]. *)
Definition absent_or (p : value -> bool) (d : dict) (k : string) : bool :=
  match dict_lookup k d with
  | None => true
  | Some v => p v
  end.

Definition null_or (p : value -> bool) (v : value) : bool :=
  match v with VNone => true | _ => p v end.

Definition object_with (p : dict -> bool) (v : value) : bool :=
  match v with VDict d => p d | _ => false end.

Definition list_of (p : value -> bool) (v : value) : bool :=
  match v with VList l => forallb p l | _ => false end.

(** The member [k] is present and a string. *)
Definition has_name (k : string) (d : dict) : bool :=
  match dict_lookup k d with Some (VStr _) => true | _ => false end.

Definition any_object : value -> bool := object_with (fun _ => true).

Definition institution_shaped : value -> bool :=
  object_with (fun i => absent_or (null_or is_str) i "display_name").

Definition authorship_shaped : value -> bool :=
  object_with (fun a =>
    absent_or any_object a "author"
    && absent_or (list_of institution_shaped) a "institutions").

Definition topic_shaped : value -> bool :=
  object_with (fun t =>
    absent_or (null_or (object_with (has_name "display_name"))) t "field"
    && absent_or (null_or (object_with (has_name "display_name"))) t "domain").

(** Null, or an integer below the magnitude at which [float] overflows. *)
Definition count_shaped (v : value) : bool :=
  match v with
  | VNone => true
  | VInt n => Z.abs n <? overflow_threshold
  | _ => false
  end.

Definition location_shaped : value -> bool :=
  null_or (object_with (fun l => absent_or (null_or any_object) l "source")).

(** An object whose members, where present, have the types of an OpenAlex
    work: a null or string title, null or integer counts, lists of objects
    for authorships (author an object, institutions a list of objects with a
    null or string name), topics (field and domain null or objects with a
    string name), concepts and keywords (objects with a string name), and a
    null or object primary location with a null or object source. *)
Definition well_shaped : value -> bool :=
  object_with (fun d =>
    absent_or (null_or is_str) d "display_name"
    && absent_or count_shaped d "cited_by_count"
    && absent_or count_shaped d "referenced_works_count"
    && absent_or (list_of authorship_shaped) d "authorships"
    && absent_or (list_of topic_shaped) d "topics"
    && absent_or (list_of (object_with (has_name "display_name"))) d "concepts"
    && absent_or (list_of (object_with (has_name "keyword"))) d "keywords"
    && absent_or location_shaped d "primary_location").

(** ** Counting the lines of the files *)

(** The content of a file, empty when there is no file. *)
Definition content_of (w : world) (path : string) : string :=
  default EmptyString (files w !! path).

(** The number of lines of a file, 0 when there is no file. *)
Definition file_lines (w : world) (path : string) : Z :=
  Z.of_nat (count_lines (content_of w path)).

(** The lines of the page files of the given pages, together. *)
Fixpoint pages_lines (year : Z) (w : world) (pages : list Z) : Z :=
  match pages with
  | [] => 0
  | i :: rest => file_lines w (iteration_file year i) + pages_lines year w rest
  end.

(** The last page written by a run of the loop that started after page [p0]
    and was followed for [fuel] turns: the page it stopped on, the one before
    when it left by [break], or page [p0 + fuel] when it is still going. *)
Definition last_written (fuel : nat) (p0 : Z) (r : option (locals * loop_exit)) : Z :=
  match r with
  | Some (l, NoMorePages) => page_count l
  | Some (l, ByBreak) => page_count l - 1
  | None => p0 + Z.of_nat fuel
  end.

(** The text made of the given lines, each with its ["\n"]. *)
Fixpoint concat_lines (ls : list string) : string :=
  match ls with
  | [] => EmptyString
  | l :: rest => l +:+ String LF (concat_lines rest)
  end.

(* ===================================================================== *)
(** * Sample records *)
(* ===================================================================== *)

(** The record returned on a sample work, [[]] if the flattener raises. *)
Definition flattened (work : value) : dict :=
  match enhance_work_data work with Ok flat => flat | Raise _ => [] end.

(** Repeated and unordered names; keyword names under ["keywords"]. *)
Definition unordered_work : value :=
  VDict [("topics",
          VList [VDict [("field", VDict [("display_name", VStr "Physics")]);
                        ("domain", VDict [("display_name", VStr "Sciences")])];
                 VDict [("field", VDict [("display_name", VStr "Biology")]);
                        ("domain", VDict [("display_name", VStr "Sciences")])];
                 VDict [("field", VDict [("display_name", VStr "Physics")])]]);
         ("concepts", VList []);
         ("keywords", VList [VDict [("keyword", VStr "b")];
                             VDict [("keyword", VStr "a")];
                             VDict [("keyword", VStr "b")]])].

Definition unordered_flat : dict := Eval vm_compute in flattened unordered_work.

(** Seven concept names, out of order. *)
Definition seven_keywords_work : value :=
  VDict [("concepts",
          VList (map (fun s => VDict [("display_name", VStr s)])
                     ["g"; "c"; "a"; "f"; "b"; "e"; "d"]))].

Definition seven_keywords_flat : dict := Eval vm_compute in flattened seven_keywords_work.

(** Title "T", fields "B" and "A", no domain, keywords "x" and "y". *)
Definition titled_work : value :=
  VDict [("display_name", VStr "T");
         ("topics", VList [VDict [("field", VDict [("display_name", VStr "B")])];
                           VDict [("field", VDict [("display_name", VStr "A")])]]);
         ("concepts", VList [VDict [("display_name", VStr "x")];
                             VDict [("display_name", VStr "y")]])].

Definition titled_flat : dict := Eval vm_compute in flattened titled_work.

(** A primary location whose source is the empty object. *)
Definition empty_source_work : value :=
  VDict [("primary_location", VDict [("source", VDict [])])].

Definition empty_source_flat : dict := Eval vm_compute in flattened empty_source_work.

(** A work published in a journal. *)
Definition journal_work : value :=
  VDict [("display_name", VStr "T");
         ("primary_location",
          VDict [("source",
                  VDict [("display_name", VStr "Nature");
                         ("type", VStr "journal");
                         ("issn", VList [VStr "0028-0836"]);
                         ("is_oa", VBool false)])])].

Definition journal_flat : dict := Eval vm_compute in flattened journal_work.

(** One author, whose only institution entry has no display name. *)
Definition unnamed_institution_work : value :=
  VDict [("authorships",
          VList [VDict [("author", VDict [("display_name", VStr "A. Author")]);
                        ("institutions", VList [VDict [("id", VStr "I1")]])]])].

Definition unnamed_institution_flat : dict :=
  Eval vm_compute in flattened unnamed_institution_work.

(** Five citations and a negative reference count. *)
Definition negative_references_work : value :=
  VDict [("cited_by_count", VInt 5); ("referenced_works_count", VInt (-2))].

Definition negative_references_flat : dict :=
  Eval vm_compute in flattened negative_references_work.

(** Seven citations for three references. *)
Definition cited_work : value :=
  VDict [("cited_by_count", VInt 7); ("referenced_works_count", VInt 3)].

Definition cited_flat : dict := Eval vm_compute in flattened cited_work.

(** A citation count given as text. *)
Definition text_count_work : value :=
  VDict [("display_name", VStr "T"); ("cited_by_count", VStr "12")].

(** A concept entry without a name. *)
Definition unnamed_concept_work : value :=
  VDict [("display_name", VStr "T"); ("concepts", VList [VDict []])].

(** A work with most of its nested structure missing. *)
Definition partial_work : value :=
  VDict [("id", VStr "W1");
         ("display_name", VNone);
         ("cited_by_count", VInt 4);
         ("authorships",
          VList [VDict [("author_position", VStr "first")];
                 VDict [("author", VDict [("display_name", VStr "B. Author")]);
                        ("institutions", VList [VDict []])]]);
         ("topics", VList [VDict [("field", VDict [("display_name", VStr "Physics")])];
                           VDict []]);
         ("primary_location", VDict [("source", VNone)])].

(** A world with nothing printed, sent or slept yet, holding the given files. *)
Definition world_with (fs : list (string * string)) : world :=
  World (list_to_map fs) [] [] 0.

(** A checkpoint written "after page -1" and nothing else. *)
Definition odd_checkpoint_world : world :=
  world_with [(cursor_file 2023 (-1), "C")].

(** Page 1 and its checkpoint from a run stopped after one page, with the
    cumulative file that run left. *)
Definition one_page_world : world :=
  world_with [(output_file 2023, "{}" +:+ String LF EmptyString);
              (iteration_file 2023 1, "{}" +:+ String LF EmptyString);
              (cursor_file 2023 1, "C1" +:+ String LF EmptyString)].

(** A complete earlier run of two pages, one record each. *)
Definition two_page_world : world :=
  world_with [(output_file 2023, "{}" +:+ String LF ("{}" +:+ String LF EmptyString));
              (iteration_file 2023 1, "{}" +:+ String LF EmptyString);
              (iteration_file 2023 2, "{}" +:+ String LF EmptyString);
              (cursor_file 2023 1, "C1")].

(** A source of two pages: two works and the cursor "C1", then one work and
    no cursor; any other cursor is not found. *)
Definition two_page_server (earlier : list params) (p : params) : response :=
  if String.eqb (param_cursor p) "*" then
    Response 200
      (VDict [("results", VList [titled_work; journal_work]);
              ("meta", VDict [("next_cursor", VStr "C1")])])
  else if String.eqb (param_cursor p) "C1" then
    Response 200
      (VDict [("results", VList [partial_work]);
              ("meta", VDict [("next_cursor", VNone)])])
  else Response 404 VNone.

(** A stand-in for [json.dumps]: one line, whatever the record. *)
Definition one_line_dumps (v : value) : string := "{}".

(** The run resumed at page 2 after [one_page_world], and after
    [two_page_world]. *)
Definition resumed_run : result (option (locals * loop_exit)) * world :=
  Eval vm_compute in
    fetch_and_save_articles one_line_dumps two_page_server 5 2023 (Some 2) one_page_world.

Definition repeated_run : result (option (locals * loop_exit)) * world :=
  Eval vm_compute in
    fetch_and_save_articles one_line_dumps two_page_server 5 2023 (Some 2) two_page_world.

(** The fresh run on an empty disk. *)
Definition fresh_run : result (option (locals * loop_exit)) * world :=
  Eval vm_compute in
    fetch_and_save_articles one_line_dumps two_page_server 5 2023 None (world_with []).

(* ===================================================================== *)
(** * Vocabulary of the further statements *)
(* ===================================================================== *)

(** The exceptions a work of an unexpected shape can cause. *)
Definition shape_error (e : exn) : bool :=
  match e with
  | AttributeError | TypeError | OverflowError => true
  | KeyError | ZeroDivisionError => false
  end.

(** [c] returns, or raises one of the exceptions [allowed]. *)
Definition raises_only {A} (allowed : exn -> bool) (c : result A) : Prop :=
  forall e, c = Raise e -> allowed e = true.

(** The entry made from one institution object. *)
Definition institution_entry (inst : dict) : value :=
  VDict [("institution_id", dict_get inst "id" VNone);
         ("institution_name", dict_get inst "display_name" VNone);
         ("country", dict_get inst "country" VNone);
         ("type", dict_get inst "type" VNone)].

(** The entry of ["authors"] made from an authorship object, its author
    object and its institution objects. *)
Definition author_entry (auth author : dict) (insts : list dict) : value :=
  VDict [("author_id", dict_get author "id" VNone);
         ("author_name", dict_get author "display_name" VNone);
         ("orcid", dict_get author "orcid" VNone);
         ("position", dict_get auth "author_position" VNone);
         ("institutions", VList (map institution_entry insts))].

(** ** The raw record, read without the flattener

    What the statements on names and institutions say of a work is said
    with these, which look members up in the raw record itself. *)

(** Member [k] of a raw object; null when there is none, or when [v] is not
    an object. *)
Definition raw_member (v : value) (k : string) : value :=
  match v with
  | VDict d => match dict_lookup k d with Some x => x | None => VNone end
  | _ => VNone
  end.

(** The list under member [k] of a raw object, no entry when there is no
    such list. *)
Definition raw_entries (v : value) (k : string) : list value :=
  match v with
  | VDict d => match dict_lookup k d with Some (VList l) => l | _ => [] end
  | _ => []
  end.

(** The [display_name]s of the [key] objects of the topics that have one. *)
Definition raw_topic_names (key : string) (topics : list value) : list value :=
  map (fun topic => raw_member (raw_member topic key) "display_name")
      (List.filter (fun topic => truthy (raw_member topic key)) topics).

(** Member [key] of each entry. *)
Definition raw_entry_names (key : string) (entries : list value) : list value :=
  map (fun entry => raw_member entry key) entries.

(** The keyword names of a raw work: the [display_name]s of its concepts,
    and the [keyword]s of its keywords only when it has no concept. *)
Definition raw_keyword_names (work : value) : list value :=
  match raw_entries work "concepts" with
  | [] => raw_entry_names "keyword" (raw_entries work "keywords")
  | concepts => raw_entry_names "display_name" concepts
  end.

(** The institution objects of a raw work, authorship by authorship. *)
Definition raw_institutions (work : value) : list (list value) :=
  map (fun auth => raw_entries auth "institutions") (raw_entries work "authorships").

(** The truthy display names of the institution objects of a raw work, one
    per object that has one, in order. *)
Definition raw_institution_names (work : value) : list value :=
  List.filter truthy (raw_entry_names "display_name" (concat (raw_institutions work))).

(** No member of [l] is one member of a [set] with an earlier one. *)
Definition no_member_twice (l : list value) : Prop :=
  forall (i j : nat) (a b : value),
    (i < j)%nat -> l !! i = Some a -> l !! j = Some b -> same_member b a = false.

(** The keys every flattened record has before ["journal"], in the order
    they are set. *)
Definition leading_keys : list string :=
  ["id"; "title"; "publication_year"; "cited_by_count"; "referenced_works_count";
   "type"; "authors"; "authors_count"; "institutions_count"; "fields"; "domains";
   "keywords"; "is_multidisciplinary"; "top_keywords"; "citation_per_reference_ratio"].

(** The scalar entries of the record, each with the member of the work it
    is read from. *)
Definition copied_members : list (string * string) :=
  [("id", "id"); ("title", "display_name"); ("publication_year", "publication_year");
   ("cited_by_count", "cited_by_count");
   ("referenced_works_count", "referenced_works_count"); ("type", "type")].

(** ** The pager's effects *)

(** Every run of [c] takes a world to one related to it by [R], whether it
    returns or raises. *)
Definition respects {A} (R : world -> world -> Prop) (c : io A) : Prop :=
  forall w, R w (snd (c w)).

(** No file is deleted. *)
Definition keeps_files (w w' : world) : Prop :=
  forall p, is_Some (files w !! p) -> is_Some (files w' !! p).

(** What is left alone after the request of page [page] is sent: the
    requests sent, and every file but the output file and the page file and
    checkpoint of that page; no file is deleted, no line printed is taken
    back and no time is given back. *)
Definition page_effect (year page : Z) (w w' : world) : Prop :=
  sent w' = sent w /\
  keeps_files w w' /\
  (forall p, p <> output_file year -> p <> iteration_file year page ->
             p <> cursor_file year page -> files w' !! p = files w !! p) /\
  slept w <= slept w' /\
  stdout w `prefix_of` stdout w'.

(** The paths a run may write to once page [p0] is behind it: the output
    file, and the page file and checkpoint of each later page. *)
Definition run_path (year p0 : Z) (p : string) : Prop :=
  p = output_file year \/
  exists i, p0 < i /\ (p = iteration_file year i \/ p = cursor_file year i).

(** What a run leaves alone once page [p0] is behind it: every file but
    those; no file is deleted and no line printed is taken back. *)
Definition run_effect (year p0 : Z) (w w' : world) : Prop :=
  keeps_files w w' /\
  (forall p, ~ run_path year p0 p -> files w' !! p = files w !! p) /\
  stdout w `prefix_of` stdout w'.

(** No white space character, line ends included, anywhere in [s]. *)
Fixpoint no_space (s : string) : bool :=
  match s with
  | EmptyString => true
  | String c s' => negb (is_space c) && no_space s'
  end.

(** The character [c] does not occur in [s]. *)
Fixpoint free_of (c : ascii) (s : string) : bool :=
  match s with
  | EmptyString => true
  | String c' s' => negb (Ascii.eqb c' c) && free_of c s'
  end.

(** [data["meta"].get("next_cursor")], when the body is an object with an
    object under ["meta"]. *)
Definition next_cursor (r : response) : option value :=
  match json r with
  | VDict d =>
      match dict_lookup "meta" d with
      | Some (VDict meta) => Some (dict_get meta "next_cursor" VNone)
      | _ => None
      end
  | _ => None
  end.

(** The works of a page: what iterating [data.get("results", [])] gives,
    when the body is an object. *)
Definition page_works (r : response) : result (list value) :=
  results <- py_get_default (json r) "results" (VList []) ;; py_iter results.

(** The number of pages a run of the loop asked for, having started after
    page [p0] and been followed for [fuel] turns. *)
Definition pages_requested (fuel : nat) (p0 : Z) (r : option (locals * loop_exit)) : Z :=
  match r with
  | Some (l, _) => page_count l - p0
  | None => Z.of_nat fuel
  end.

Section PagerVocabulary.

Variable json_dumps : value -> string.
Variable server : list params -> params -> response.

(** The text written for the given records: one JSON line each. *)
Definition lines_of (flats : list dict) : string :=
  concat_lines (map (fun flat => json_dumps (VDict flat)) flats).

(** Each request of [new] but the last is answered, after the requests
    [earlier] and those before it, with the cursor the next one carries. *)
Fixpoint chained (earlier new : list params) : Prop :=
  match new with
  | [] => True
  | q :: rest =>
      match rest with
      | [] => True
      | q' :: _ => next_cursor (server earlier q) = Some (VStr (param_cursor q'))
      end /\
      chained (earlier ++ [q]) rest
  end.

End PagerVocabulary.

(* ===================================================================== *)
(** * Further sample records *)
(* ===================================================================== *)

(** [titled_work] with its topics in another order, one of them twice. *)
Definition reordered_work : value :=
  VDict [("display_name", VStr "T");
         ("topics", VList [VDict [("field", VDict [("display_name", VStr "A")])];
                           VDict [("field", VDict [("display_name", VStr "B")])];
                           VDict [("field", VDict [("display_name", VStr "A")])]]);
         ("concepts", VList [VDict [("display_name", VStr "y")];
                             VDict [("display_name", VStr "x")]])].

Definition reordered_flat : dict := Eval vm_compute in flattened reordered_work.

(** Concepts and keywords at once, the concept names repeated and out of
    order. *)
Definition concepts_first_work : value :=
  VDict [("concepts", VList [VDict [("display_name", VStr "z")];
                             VDict [("display_name", VStr "y")];
                             VDict [("display_name", VStr "z")]]);
         ("keywords", VList [VDict [("keyword", VStr "k")]])].

Definition concepts_first_flat : dict := Eval vm_compute in flattened concepts_first_work.



(** Two authors and four institution entries: "MIT" under both authors,
    "CERN", and one entry whose display name is the empty string. *)
Definition shared_institution_work : value :=
  VDict [("authorships",
          VList [VDict [("author", VDict [("display_name", VStr "A. Author")]);
                        ("institutions",
                         VList [VDict [("id", VStr "I1"); ("display_name", VStr "MIT")];
                                VDict [("id", VStr "I2"); ("display_name", VStr "CERN")];
                                VDict [("id", VStr "I3");
                                       ("display_name", VStr EmptyString)]])];
                 VDict [("author", VDict [("display_name", VStr "B. Author")]);
                        ("institutions",
                         VList [VDict [("id", VStr "I1");
                                       ("display_name", VStr "MIT")]])]])].

Definition shared_institution_flat : dict :=
  Eval vm_compute in flattened shared_institution_work.

(* ===================================================================== *)
(** * Further sample runs *)
(* ===================================================================== *)

(** The first turn of the loop of a fresh run against [two_page_server]. *)
Definition first_page : result (locals * option loop_exit) * world :=
  Eval vm_compute in
    fetch_page one_line_dumps two_page_server 2023 (Locals (initial_params 2023) 0 0)
      (world_with []).

(** A source whose page has a null among its works, and one whose page has
    no ["meta"] member. *)
Definition null_work_server (earlier : list params) (p : params) : response :=
  Response 200
    (VDict [("results", VList [titled_work; VNone; journal_work]);
            ("meta", VDict [("next_cursor", VNone)])]).

Definition no_meta_server (earlier : list params) (p : params) : response :=
  Response 200 (VDict [("results", VList [titled_work])]).

(** A source that answers every request with a page and a further cursor. *)
Definition endless_server (earlier : list params) (p : params) : response :=
  Response 200
    (VDict [("results", VList [titled_work]);
            ("meta", VDict [("next_cursor", VStr "more")])]).

(** A source that answers with a body that is not an object. *)
Definition list_body_server (earlier : list params) (p : params) : response :=
  Response 200 (VList []).

(** A source whose first page comes with the cursor "C1" and whose later
    requests all fail. *)
Definition failing_server (earlier : list params) (p : params) : response :=
  if String.eqb (param_cursor p) "*" then
    Response 200
      (VDict [("results", VList [titled_work; journal_work]);
              ("meta", VDict [("next_cursor", VStr "C1")])])
  else Response 503 VNone.

(** The fresh run against it, left by [break] at page 2. *)
Definition interrupted_run : result (option (locals * loop_exit)) * world :=
  Eval vm_compute in
    fetch_and_save_articles one_line_dumps failing_server 5 2023 None (world_with []).

(* ===================================================================== *)
(** * Reasoning about computations that may raise *)
(* ===================================================================== *)

Lemma bind_Ok {A B} (c : result A) (k : A -> result B) (b : B) :
  bind c k = Ok b <-> exists a, c = Ok a /\ k a = Ok b.
Proof.
  destruct c as [a|e]; simpl; split.
  - eauto.
  - intros (a' & [= <-] & H). exact H.
  - discriminate.
  - intros (a' & [=] & _).
Qed.

(** Split [H : bind c k = Ok b] into the result of [c] and what follows. *)
Ltac inv_bind H :=
  let a := fresh "v" in
  let E := fresh "E" in
  apply bind_Ok in H; destruct H as (a & E & H).

Ltac inv_Ok H := injection H as H; try subst.

Lemma py_get_default_Ok o k default v :
  py_get_default o k default = Ok v ->
  exists d, o = VDict d /\ v = dict_get d k default.
Proof. destruct o; simpl; intros [=]; eauto. Qed.

Lemma py_get_Ok o k v :
  py_get o k = Ok v -> exists d, o = VDict d /\ v = dict_get d k VNone.
Proof. apply py_get_default_Ok. Qed.

Lemma mapM_Ok {A B} (f : A -> result B) xs ys :
  mapM f xs = Ok ys <-> Forall2 (fun x y => f x = Ok y) xs ys.
Proof.
  revert ys. induction xs as [|x xs IH]; intros ys; simpl.
  - split; [intros [= <-]; constructor | intros H; inversion H; reflexivity].
  - rewrite bind_Ok. split.
    + intros (y & Hy & H). inv_bind H. inv_Ok H.
      constructor; [done | by apply IH].
    + intros H. inversion H as [|? y ? ys' Hy Hys]; subst.
      exists y. split; [done|]. apply IH in Hys. by rewrite Hys.
Qed.

Lemma work_is_dict work flat :
  enhance_work_data work = Ok flat -> exists d, work = VDict d.
Proof.
  unfold enhance_work_data. intros H. inv_bind H.
  apply py_get_Ok in E as (d & -> & _). eauto.
Qed.

(** The record is [flat_record] of the intermediate results. *)
Lemma enhance_work_data_Ok (d : dict) (flat : dict) :
  enhance_work_data (VDict d) = Ok flat <->
  exists auths authors institutions fields domains keywords fs ds ks ratio journal topic,
    collection (VDict d) "authorships" = Ok auths /\
    foldM authorship_step auths ([], []) = Ok (authors, institutions) /\
    topic_names (VDict d) "field" = Ok fields /\
    topic_names (VDict d) "domain" = Ok domains /\
    keyword_names (VDict d) = Ok keywords /\
    sorted_set fields = Ok fs /\
    sorted_set domains = Ok ds /\
    sorted_set keywords = Ok ks /\
    citation_per_reference_ratio
      [("cited_by_count", dict_get d "cited_by_count" VNone);
       ("referenced_works_count", dict_get d "referenced_works_count" VNone)]
      = Ok ratio /\
    journal_info (VDict d) = Ok journal /\
    research_topic
      [("title", dict_get d "display_name" VNone);
       ("fields", VList fs); ("domains", VList ds);
       ("top_keywords", VList (firstn 5 ks))] = Ok topic /\
    flat = flat_record d authors institutions fs ds ks ratio journal topic.
Proof.
  unfold enhance_work_data. simpl. split.
  - intros H.
    apply bind_Ok in H as (auths & E1 & H).
    apply bind_Ok in H as ([authors institutions] & E2 & H).
    apply bind_Ok in H as (fields & E3 & H).
    apply bind_Ok in H as (domains & E4 & H).
    apply bind_Ok in H as (keywords & E5 & H).
    apply bind_Ok in H as (fs & E6 & H).
    apply bind_Ok in H as (ds & E7 & H).
    apply bind_Ok in H as (ks & E8 & H).
    apply bind_Ok in H as (ratio & E9 & H).
    apply bind_Ok in H as (journal & E10 & H).
    apply bind_Ok in H as (topic & E11 & H).
    inv_Ok H.
    exists auths, authors, institutions, fields, domains, keywords, fs, ds, ks,
      ratio, journal, topic.
    repeat split; try done.
    + destruct journal; exact E11.
    + destruct journal; reflexivity.
  - intros (auths & authors & institutions & fields & domains & keywords & fs & ds & ks
            & ratio & journal & topic & H1 & H2 & H3 & H4 & H5 & H6 & H7 & H8 & H9
            & H10 & H11 & ->).
    rewrite H1; simpl. rewrite H2; simpl. rewrite H3; simpl. rewrite H4; simpl.
    rewrite H5; simpl. rewrite H6; simpl. rewrite H7; simpl. rewrite H8; simpl.
    replace (citation_per_reference_ratio _) with (Ok (A:=value) ratio)
      by (rewrite <- H9; reflexivity).
    simpl. rewrite H10; simpl.
    replace (research_topic _) with (Ok (A:=string) topic)
      by (rewrite <- H11; destruct journal; reflexivity).
    simpl. destruct journal; reflexivity.
Qed.

Lemma foldM_Ok_app {A S} (f : S -> A -> result S) xs ys s r :
  foldM f (xs ++ ys) s = Ok r <->
  exists s', foldM f xs s = Ok s' /\ foldM f ys s' = Ok r.
Proof.
  revert s. induction xs as [|x xs IH]; intros s; simpl.
  - split; [eauto | intros (s' & [= <-] & H); exact H].
  - rewrite bind_Ok. split.
    + intros (s1 & H1 & H). apply IH in H as (s' & H2 & H3).
      exists s'. by rewrite H1.
    + intros (s' & H & H3). apply bind_Ok in H as (s1 & H1 & H2).
      exists s1. split; [done|]. apply IH. eauto.
Qed.

(* ===================================================================== *)
(** * The order on strings *)
(* ===================================================================== *)

Lemma string_compare_refl s : String.compare s s = Eq.
Proof.
  induction s as [|c s IH]; simpl; [done|].
  unfold Ascii.compare. by rewrite N.compare_refl.
Qed.

Lemma string_compare_trans a b c :
  String.compare a b = Lt -> String.compare b c = Lt -> String.compare a c = Lt.
Proof.
  revert b c. induction a as [|x a IH]; intros [|y b] [|z c]; simpl; try done.
  unfold Ascii.compare.
  destruct (N.compare_spec (N_of_ascii x) (N_of_ascii y)) as [Hxy|Hxy|Hxy];
    destruct (N.compare_spec (N_of_ascii y) (N_of_ascii z)) as [Hyz|Hyz|Hyz];
    try done; intros H1 H2.
  - rewrite Hxy, Hyz, N.compare_refl. eauto.
  - rewrite Hxy. by apply N.compare_lt_iff in Hyz as ->.
  - rewrite <- Hyz. by apply N.compare_lt_iff in Hxy as ->.
  - assert (N_of_ascii x < N_of_ascii z)%N as Hxz by lia.
    by apply N.compare_lt_iff in Hxz as ->.
Qed.

Lemma str_lt_irrefl s : ~ str_lt s s.
Proof. unfold str_lt, String.ltb. by rewrite string_compare_refl. Qed.

Lemma str_lt_trans a b c : str_lt a b -> str_lt b c -> str_lt a c.
Proof.
  unfold str_lt, String.ltb. intros H1 H2.
  destruct (String.compare a b) eqn:E1; try done.
  destruct (String.compare b c) eqn:E2; try done.
  by rewrite (string_compare_trans a b c).
Qed.

Lemma str_lt_total a b : String.ltb b a = false -> a = b \/ str_lt a b.
Proof.
  unfold str_lt, String.ltb. rewrite (String.compare_antisym b a).
  destruct (String.compare a b) eqn:E; simpl; try done; intros _.
  - left. by apply String.compare_eq_iff.
  - by right.
Qed.

Lemma ascending_NoDup l : ascending l -> NoDup l.
Proof.
  induction 1 as [|x l Hl IH Hx]; constructor; [|done].
  intros Hin. rewrite Forall_forall in Hx.
  by apply (str_lt_irrefl x), Hx.
Qed.

(** ** Sorting strings *)

Lemma elem_of_insert_string x l s :
  s ∈ insert_string x l <-> s = x \/ s ∈ l.
Proof.
  induction l as [|y l IH]; simpl.
  - set_solver.
  - destruct (String.ltb y x); set_solver.
Qed.

Lemma insert_string_ascending x l :
  ascending l -> x ∉ l -> ascending (insert_string x l).
Proof.
  unfold ascending. induction 1 as [|y l Hl IH Hy]; intros Hx; simpl.
  - repeat constructor.
  - destruct (String.ltb y x) eqn:E.
    + apply StronglySorted_cons. split.
      * apply Forall_forall. intros s Hs.
        apply elem_of_insert_string in Hs as [->|Hs]; [done|].
        rewrite Forall_forall in Hy. by apply Hy.
      * apply IH. set_solver.
    + apply str_lt_total in E as [->|E]; [set_solver|].
      apply StronglySorted_cons. split; [|by constructor].
      constructor; [done|].
      eapply Forall_impl; [exact Hy|]. intros s Hs. by eapply str_lt_trans.
Qed.

Lemma elem_of_sort_strings l s : s ∈ sort_strings l <-> s ∈ l.
Proof.
  induction l as [|x l IH]; simpl; [done|].
  rewrite elem_of_insert_string. set_solver.
Qed.

Lemma sort_strings_ascending l : NoDup l -> ascending (sort_strings l).
Proof.
  induction 1 as [|x l Hx Hl IH]; simpl; [constructor|].
  apply insert_string_ascending; [done|]. by rewrite elem_of_sort_strings.
Qed.

Lemma existsb_eqb_elem_of x (s : list string) :
  existsb (String.eqb x) s = true <-> x ∈ s.
Proof.
  rewrite existsb_exists. setoid_rewrite String.eqb_eq.
  setoid_rewrite <- list_elem_of_In. naive_solver.
Qed.

Lemma add_string_spec s x :
  NoDup s -> NoDup (add_string s x) /\ forall y, y ∈ add_string s x <-> y ∈ s \/ y = x.
Proof.
  intros Hs. unfold add_string.
  destruct (existsb (String.eqb x) s) eqn:E.
  - apply existsb_eqb_elem_of in E. set_solver.
  - assert (x ∉ s) as Hx.
    { intros Hx. apply existsb_eqb_elem_of in Hx. congruence. }
    split; [|set_solver].
    apply NoDup_app. repeat split; [done| |apply NoDup_singleton]. set_solver.
Qed.

Lemma fold_add_string_spec xs s :
  NoDup s ->
  NoDup (fold_left add_string xs s) /\
  forall y, y ∈ fold_left add_string xs s <-> y ∈ s \/ y ∈ xs.
Proof.
  revert s. induction xs as [|x xs IH]; intros s Hs; simpl.
  - set_solver.
  - destruct (add_string_spec s x Hs) as [H1 H2].
    destruct (IH _ H1) as [H3 H4]. split; [done|].
    intros y. rewrite H4, H2. set_solver.
Qed.

(** [sorted(set(xs))] on strings: strictly ascending, hence without
    duplicates, with the members of [xs]. *)
Lemma sorted_strings_spec xs :
  ascending (sorted_strings xs) /\
  NoDup (sorted_strings xs) /\
  forall s, s ∈ sorted_strings xs <-> s ∈ xs.
Proof.
  unfold sorted_strings, distinct_strings.
  destruct (fold_add_string_spec xs [] (NoDup_nil_2)) as [H1 H2].
  assert (ascending (sort_strings (fold_left add_string xs []))) as Hs
    by by apply sort_strings_ascending.
  split; [done|]. split; [by apply ascending_NoDup|].
  intros s. rewrite elem_of_sort_strings, H2. set_solver.
Qed.

Lemma insert_string_perm x l : insert_string x l ≡ₚ x :: l.
Proof.
  induction l as [|y l IH]; simpl; [done|].
  destruct (String.ltb y x); [|done]. rewrite IH. apply Permutation_swap.
Qed.

Lemma sort_strings_perm l : sort_strings l ≡ₚ l.
Proof.
  induction l as [|x l IH]; simpl; [done|]. by rewrite insert_string_perm, IH.
Qed.

(** The order in which a set hands its members to [sorted] is irrelevant. *)
Lemma sort_strings_order_irrelevant l1 l2 :
  NoDup l1 -> l1 ≡ₚ l2 -> sort_strings l1 = sort_strings l2.
Proof.
  intros Hnd Hp. apply (StronglySorted_unique_strong str_lt).
  - intros x1 x2 _ _ H1 H2. destruct (str_lt_irrefl x1). by eapply str_lt_trans.
  - by apply sort_strings_ascending.
  - apply sort_strings_ascending. by rewrite <- Hp.
  - by rewrite !sort_strings_perm.
Qed.

(* ===================================================================== *)
(** * [set] and [sorted] on values *)
(* ===================================================================== *)

Lemma is_str_VStr v : is_str v = true -> exists s, v = VStr s.
Proof. destruct v; try done. eauto. Qed.

Lemma Forall_is_str (l : list value) :
  Forall (fun v => is_str v = true) l -> exists ss, l = map VStr ss.
Proof.
  induction 1 as [|v l Hv _ [ss ->]].
  - by exists [].
  - apply is_str_VStr in Hv as [s ->]. by exists (s :: ss).
Qed.

Lemma same_member_is_str a b : same_member a b = true -> is_str a = is_str b.
Proof.
  destruct a as [| | |x| | |], b as [| | |y| | |]; simpl; try done;
    try (by destruct b); try (by destruct x); by destruct b0.
Qed.

Lemma py_lt_is_str a b r : py_lt a b = Ok r -> is_str a = is_str b.
Proof. destruct a, b; simpl; try done; by destruct b0. Qed.

Lemma existsb_same_member_VStr x (s : list string) :
  existsb (same_member (VStr x)) (map VStr s) = existsb (String.eqb x) s.
Proof. induction s as [|y s IH]; simpl; [done|]. by rewrite IH. Qed.

Lemma set_add_strings s x :
  set_add (map VStr s) (VStr x) = Ok (map VStr (add_string s x)).
Proof.
  unfold set_add, add_string; simpl. rewrite existsb_same_member_VStr.
  destruct (existsb _ s); [done|]. by rewrite map_app.
Qed.

Lemma py_set_acc_strings xs s :
  foldM set_add (map VStr xs) (map VStr s) = Ok (map VStr (fold_left add_string xs s)).
Proof.
  revert s. induction xs as [|x xs IH]; intros s; [done|].
  cbn [map foldM]. rewrite set_add_strings. apply IH.
Qed.

Lemma py_set_strings xs :
  py_set (map VStr xs) = Ok (map VStr (distinct_strings xs)).
Proof. apply (py_set_acc_strings xs []). Qed.

Lemma insert_sorted_strings x l :
  insert_sorted (VStr x) (map VStr l) = Ok (map VStr (insert_string x l)).
Proof.
  induction l as [|y l IH]; [done|].
  cbn [map insert_sorted insert_string py_lt bind].
  destruct (String.ltb y x); [|done]. by rewrite IH.
Qed.

Lemma py_sorted_strings xs :
  py_sorted (map VStr xs) = Ok (map VStr (sort_strings xs)).
Proof.
  induction xs as [|x xs IH]; [done|].
  cbn [map py_sorted sort_strings]. rewrite IH. apply insert_sorted_strings.
Qed.

(** On strings [sorted(set(xs))] never raises and is [sorted_strings]. *)
Lemma sorted_set_strings xs :
  sorted_set (map VStr xs) = Ok (map VStr (sorted_strings xs)).
Proof.
  unfold sorted_set. rewrite py_set_strings. simpl. apply py_sorted_strings.
Qed.

(** What [set_add] keeps and what it merges. *)
Lemma set_add_Ok s v s' :
  set_add s v = Ok s' ->
  (forall y, y ∈ s -> y ∈ s') /\
  (exists y, y ∈ s' /\ (y = v \/ same_member v y = true)) /\
  (forall y, y ∈ s' -> y ∈ s \/ y = v).
Proof.
  unfold set_add. destruct (hashable v); [|done].
  destruct (existsb (same_member v) s) eqn:E; intros [= <-].
  - apply existsb_exists in E as (y & Hy & E).
    apply list_elem_of_In in Hy. split; [done|]. split; [|by left]. eauto.
  - split; [set_solver|]. split; [|set_solver]. exists v. set_solver.
Qed.

Lemma py_set_acc_Ok xs s s' :
  foldM set_add xs s = Ok s' ->
  (forall y, y ∈ s -> y ∈ s') /\
  (forall x, x ∈ xs -> exists y, y ∈ s' /\ (y = x \/ same_member x y = true)) /\
  (forall y, y ∈ s' -> y ∈ s \/ y ∈ xs).
Proof.
  revert s. induction xs as [|x xs IH]; intros s; simpl.
  - intros [= <-]. set_solver.
  - intros H. apply bind_Ok in H as (s1 & H1 & H).
    apply set_add_Ok in H1 as (Ha & (y & Hy & Hxy) & Hc).
    apply IH in H as (Hd & He & Hf).
    split; [auto|]. split.
    + intros z Hz. apply elem_of_cons in Hz as [->|Hz]; [|auto].
      exists y. split; [auto|done].
    + intros z Hz. apply Hf in Hz as [Hz|Hz]; [|set_solver].
      apply Hc in Hz. set_solver.
Qed.

Lemma insert_sorted_perm x l l' :
  insert_sorted x l = Ok l' -> l' ≡ₚ x :: l.
Proof.
  revert l'. induction l as [|y l IH]; intros l'; simpl.
  - by intros [= <-].
  - intros H. apply bind_Ok in H as (lt & _ & H). destruct lt.
    + apply bind_Ok in H as (r & Hr & [= <-]).
      rewrite (IH _ Hr). apply Permutation_swap.
    + by injection H as <-.
Qed.

Lemma py_sorted_perm xs ys : py_sorted xs = Ok ys -> ys ≡ₚ xs.
Proof.
  revert ys. induction xs as [|x xs IH]; intros ys; simpl.
  - by intros [= <-].
  - intros H. apply bind_Ok in H as (s & Hs & H).
    apply insert_sorted_perm in H. by rewrite H, (IH _ Hs).
Qed.

(** A list that [sorted] accepts holds strings only or no string at all. *)
Lemma py_sorted_uniform xs ys a b :
  py_sorted xs = Ok ys -> a ∈ xs -> b ∈ xs -> is_str a = is_str b.
Proof.
  revert ys a b. induction xs as [|x xs IH]; intros ys a b; simpl; [set_solver|].
  intros H Ha Hb. apply bind_Ok in H as (s & Hs & H).
  assert (forall y, y ∈ xs -> is_str y = is_str x) as Hx.
  { intros y Hy. destruct s as [|z s].
    - apply py_sorted_perm in Hs. apply Permutation_nil_l in Hs. set_solver.
    - simpl in H. apply bind_Ok in H as (lt & Hlt & _).
      apply py_lt_is_str in Hlt. rewrite <- Hlt.
      apply (IH _ _ _ Hs Hy). apply py_sorted_perm in Hs.
      rewrite <- Hs. set_solver. }
  apply elem_of_cons in Ha as [->|Ha], Hb as [->|Hb]; eauto using eq_sym.
Qed.

(** If [sorted(set(xs))] comes out empty or with a string in it, [xs] was a
    list of strings, and the result is [sorted_strings] of them. *)
Lemma sorted_set_Ok_strings xs ys :
  sorted_set xs = Ok ys ->
  (ys = [] \/ exists y, y ∈ ys /\ is_str y = true) ->
  exists ss, xs = map VStr ss /\ ys = map VStr (sorted_strings ss).
Proof.
  unfold sorted_set. intros H Hys. apply bind_Ok in H as (s & Hs & H).
  assert (exists ss, xs = map VStr ss) as [ss ->].
  { apply Forall_is_str, Forall_forall. intros x Hx.
    pose proof (py_sorted_perm _ _ H) as Hp.
    apply py_set_acc_Ok in Hs as (_ & Hs & _).
    destruct (Hs x Hx) as (y & Hy & Hxy).
    destruct Hys as [->|(e & He & Hstr)].
    - apply Permutation_nil_l in Hp. set_solver.
    - assert (is_str y = true) as Hy'.
      { rewrite <- Hstr. apply (py_sorted_uniform _ _ _ _ H); [done|].
        by rewrite <- Hp. }
      destruct Hxy as [->|Hxy]; [done|].
      apply same_member_is_str in Hxy. congruence. }
  exists ss. split; [done|].
  assert (sorted_set (map VStr ss) = Ok ys) as H'.
  { unfold sorted_set. by rewrite Hs. }
  rewrite sorted_set_strings in H'. by injection H' as <-.
Qed.

(* ===================================================================== *)
(** * [join] and the research topic *)
(* ===================================================================== *)

Lemma mapM_as_str xs ss : mapM as_str xs = Ok ss <-> xs = map VStr ss.
Proof.
  rewrite mapM_Ok. revert ss. induction xs as [|x xs IH]; intros ss; split.
  - intros H. by inversion H.
  - destruct ss; [constructor|done].
  - intros H. inversion H as [|? s ? ss' Hx Hxs]; subst.
    destruct x; try done. injection Hx as ->. simpl. f_equal. by apply IH.
  - destruct ss as [|s ss]; [done|]. intros [= -> ->].
    constructor; [done|]. by apply IH.
Qed.

Lemma map_VStr_inj (a b : list string) : map VStr a = map VStr b -> a = b.
Proof.
  revert b. induction a as [|x a IH]; intros [|y b]; try done.
  intros [= -> H]. f_equal. by apply IH.
Qed.

Lemma py_join_strings sep ss :
  py_join sep (map VStr ss) = Ok (join_strings sep ss).
Proof.
  unfold py_join.
  assert (mapM as_str (map VStr ss) = Ok ss) as -> by by apply mapM_as_str.
  done.
Qed.

Lemma py_join_Ok sep xs r :
  py_join sep xs = Ok r <-> exists ss, xs = map VStr ss /\ r = join_strings sep ss.
Proof.
  unfold py_join. rewrite bind_Ok. split.
  - intros (ss & H & [= <-]). apply mapM_as_str in H. eauto.
  - intros (ss & -> & ->). exists ss. split; [by apply mapM_as_str|done].
Qed.

Lemma filter_truthy_strings ss :
  List.filter truthy (map VStr ss) = map VStr (List.filter nonempty ss).
Proof.
  induction ss as [|s ss IH]; [done|].
  cbn [map List.filter]. rewrite IH. unfold truthy, nonempty.
  by destruct (negb (s =? EmptyString)%string).
Qed.

Lemma joined_part_Ok enhanced k l v :
  dict_lookup k enhanced = Some (VList l) ->
  joined_part enhanced k = Ok v <->
  exists ss, l = map VStr ss /\ v = VStr (join_strings ", " ss).
Proof.
  intros Hk. unfold joined_part, item. simpl. rewrite Hk. simpl.
  destruct l as [|x l]; simpl.
  - split; [intros [= <-]; by exists [] | intros (ss & H & ->)].
    by destruct ss.
  - rewrite bind_Ok. setoid_rewrite py_join_Ok. split.
    + intros (s & (ss & H & ->) & [= <-]). eauto.
    + intros (ss & H & ->). eauto.
Qed.

(** The research topic of a record is [topic_of] its title and lists; a
    title that is neither empty-like nor a string makes the join raise. *)
Lemma research_topic_Ok t fs ds tk topic :
  research_topic
    [("title", t); ("fields", VList fs); ("domains", VList ds);
     ("top_keywords", VList tk)] = Ok topic <->
  exists fields domains top,
    fs = map VStr fields /\ ds = map VStr domains /\ tk = map VStr top /\
    (truthy t = true -> is_str t = true) /\
    topic = topic_of (text_of t) fields domains top.
Proof.
  unfold research_topic.
  change (py_get_default _ "title" _) with (Ok (A:=value) t).
  cbn [bind].
  assert (forall a b c,
    List.filter truthy [t; VStr a; VStr b; VStr c]
    = (if truthy t then [t] else []) ++ map VStr (List.filter nonempty [a; b; c])) as Hfilter.
  { intros a b c. rewrite <- filter_truthy_strings. cbn [List.filter map].
    by destruct (truthy t). }
  assert ((truthy t = true -> is_str t = true) -> forall a b c,
    List.filter nonempty [text_of t; a; b; c]
    = (if truthy t then [text_of t] else []) ++ List.filter nonempty [a; b; c]) as Hfilter'.
  { intros Ht a b c. cbn [List.filter].
    destruct (truthy t) eqn:Et.
    - destruct t; try (by specialize (Ht eq_refl)).
      unfold nonempty. simpl in *. by rewrite Et.
    - assert (nonempty (text_of t) = false) as ->; [|done].
      by destruct t. }
  split.
  - intros H.
    apply bind_Ok in H as (fp & Hf & H).
    apply joined_part_Ok with (l := fs) in Hf as (fields & -> & ->); [|done].
    apply bind_Ok in H as (dp & Hd & H).
    apply joined_part_Ok with (l := ds) in Hd as (domains & -> & ->); [|done].
    apply bind_Ok in H as (kp & Hk & H).
    apply joined_part_Ok with (l := tk) in Hk as (top & -> & ->); [|done].
    exists fields, domains, top.
    rewrite Hfilter in H. apply py_join_Ok in H as (ss & H & ->).
    assert (truthy t = true -> is_str t = true) as Ht.
    { intros Ht. rewrite Ht in H. destruct ss; [done|]. by injection H as -> _. }
    repeat split; try done.
    unfold topic_of. rewrite (Hfilter' Ht).
    destruct (truthy t) eqn:Et.
    + destruct ss as [|s ss]; [done|]. injection H as -> H.
      by apply map_VStr_inj in H as <-.
    + by apply map_VStr_inj in H as <-.
  - intros (fields & domains & top & -> & -> & -> & Ht & ->).
    assert (forall k l, dict_lookup k
              [("title", t); ("fields", VList (map VStr fields));
               ("domains", VList (map VStr domains));
               ("top_keywords", VList (map VStr top))] = Some (VList (map VStr l)) ->
            joined_part
              [("title", t); ("fields", VList (map VStr fields));
               ("domains", VList (map VStr domains));
               ("top_keywords", VList (map VStr top))] k
            = Ok (VStr (join_strings ", " l))) as Hj.
    { intros k l Hk. eapply joined_part_Ok; eauto. }
    rewrite (Hj "fields" fields), (Hj "domains" domains), (Hj "top_keywords" top) by done.
    cbn [bind]. unfold topic_of. rewrite Hfilter, (Hfilter' Ht).
    destruct (truthy t) eqn:Htt.
    + destruct t; try (by specialize (Ht eq_refl)).
      apply (py_join_strings " | " (s :: _)).
    + apply py_join_strings.
Qed.

(* ===================================================================== *)
(** * The name lists of a flattened record *)
(* ===================================================================== *)

Lemma strings_empty_or_str (ss : list string) :
  map VStr ss = [] \/ exists y, y ∈ map VStr ss /\ is_str y = true.
Proof.
  destruct ss as [|s ss]; [by left|]. right. exists (VStr s). set_solver.
Qed.

Lemma prefix_strings_empty_or_str (l : list value) (ss : list string) n :
  (0 < n)%nat -> firstn n l = map VStr ss ->
  l = [] \/ exists y, y ∈ l /\ is_str y = true.
Proof.
  intros Hn H. destruct l as [|x l]; [by left|]. right.
  destruct n; [lia|]. destruct ss as [|s ss]; [done|].
  injection H as -> _. exists (VStr s). set_solver.
Qed.

Lemma firstn_map_VStr n (ss : list string) :
  firstn n (map VStr ss) = map VStr (firstn n ss).
Proof. apply firstn_map. Qed.

(** Whenever the flattener returns, the three name lists it read from the
    work were lists of strings, and the record holds them sorted and without
    duplicates, the first five keywords, and the topic made of them. *)
Lemma enhance_work_data_names d flat :
  enhance_work_data (VDict d) = Ok flat ->
  exists auths authors institutions fields domains keywords ratio journal,
    collection (VDict d) "authorships" = Ok auths /\
    foldM authorship_step auths ([], []) = Ok (authors, institutions) /\
    topic_names (VDict d) "field" = Ok (map VStr fields) /\
    topic_names (VDict d) "domain" = Ok (map VStr domains) /\
    keyword_names (VDict d) = Ok (map VStr keywords) /\
    citation_per_reference_ratio
      [("cited_by_count", dict_get d "cited_by_count" VNone);
       ("referenced_works_count", dict_get d "referenced_works_count" VNone)]
      = Ok ratio /\
    journal_info (VDict d) = Ok journal /\
    (truthy (dict_get d "display_name" VNone) = true ->
     is_str (dict_get d "display_name" VNone) = true) /\
    flat = flat_record d authors institutions
             (map VStr (sorted_strings fields))
             (map VStr (sorted_strings domains))
             (map VStr (sorted_strings keywords))
             ratio journal
             (topic_of (text_of (dict_get d "display_name" VNone))
                (sorted_strings fields) (sorted_strings domains)
                (firstn 5 (sorted_strings keywords))).
Proof.
  intros H.
  apply enhance_work_data_Ok in H
    as (auths & authors & institutions & fields & domains & keywords & fs & ds & ks
        & ratio & journal & topic & H1 & H2 & H3 & H4 & H5 & H6 & H7 & H8 & H9
        & H10 & H11 & ->).
  apply research_topic_Ok in H11 as (F & D & K & -> & -> & HK & Ht & ->).
  apply sorted_set_Ok_strings in H6 as (fields' & -> & HF);
    [|apply strings_empty_or_str].
  apply sorted_set_Ok_strings in H7 as (domains' & -> & HD);
    [|apply strings_empty_or_str].
  apply sorted_set_Ok_strings in H8 as (keywords' & -> & ->);
    [|by apply (prefix_strings_empty_or_str _ K 5); [lia|]].
  apply map_VStr_inj in HF as ->. apply map_VStr_inj in HD as ->.
  rewrite firstn_map_VStr in HK. apply map_VStr_inj in HK as <-.
  by exists auths, authors, institutions, fields', domains', keywords', ratio, journal.
Qed.

Lemma keyword_names_Ok work names :
  keyword_names work = Ok names ->
  exists concepts,
    collection work "concepts" = Ok concepts /\
    (concepts <> [] -> mapM (fun k => py_get k "display_name") concepts = Ok names) /\
    (concepts = [] -> entry_names work "keywords" "keyword" = Ok names).
Proof.
  unfold keyword_names, entry_names at 1. intros H.
  apply bind_Ok in H as (cnames & H1 & H).
  apply bind_Ok in H1 as (concepts & Hc & Hm).
  exists concepts. split; [done|].
  destruct concepts as [|c concepts].
  - injection Hm as <-. simpl in H. done.
  - split; [|done]. intros _.
    pose proof Hm as Hm'. apply mapM_Ok in Hm'.
    inversion Hm' as [|? n ? ns Hn Hns]; subst. simpl in H. by injection H as <-.
Qed.

Lemma flat_record_lookup d authors institutions fields domains keywords ratio journal topic :
  let flat := flat_record d authors institutions fields domains keywords ratio journal topic in
  dict_lookup "title" flat = Some (dict_get d "display_name" VNone) /\
  dict_lookup "cited_by_count" flat = Some (dict_get d "cited_by_count" VNone) /\
  dict_lookup "referenced_works_count" flat
    = Some (dict_get d "referenced_works_count" VNone) /\
  dict_lookup "authors" flat = Some (VList authors) /\
  dict_lookup "authors_count" flat = Some (VInt (Z.of_nat (length authors))) /\
  dict_lookup "institutions_count" flat = Some (VInt (Z.of_nat (length institutions))) /\
  dict_lookup "fields" flat = Some (VList fields) /\
  dict_lookup "domains" flat = Some (VList domains) /\
  dict_lookup "keywords" flat = Some (VList keywords) /\
  dict_lookup "top_keywords" flat = Some (VList (firstn 5 keywords)) /\
  dict_lookup "citation_per_reference_ratio" flat = Some ratio /\
  dict_lookup "journal" flat = journal /\
  dict_lookup "research_topic" flat = Some (VStr topic).
Proof. destruct journal; repeat split; reflexivity. Qed.

(* ===================================================================== *)
(** * The journal entry *)
(* ===================================================================== *)

(** The journal block stores an entry exactly for a source object with a
    member; it raises on a location or source that is truthy without being an
    object. *)
Lemma journal_info_Ok work j :
  journal_info work = Ok j ->
  j = match primary_source work with
      | Some src => Some (journal_of src)
      | None => None
      end.
Proof.
  unfold journal_info. intros H.
  apply bind_Ok in H as (loc & Hloc & H).
  apply py_get_Ok in Hloc as (d & -> & ->).
  apply bind_Ok in H as (cond & Hcond & H).
  unfold primary_source, source_object, dict_get in *. simpl in *.
  destruct (dict_lookup "primary_location" d) as [loc|] eqn:El; simpl in *.
  - destruct (truthy loc) eqn:Et.
    + simpl in Hcond. apply py_get_Ok in Hcond as (l & -> & ->).
      unfold dict_get in *. simpl in *.
      destruct (dict_lookup "source" l) as [src|] eqn:Es; simpl in *.
      * destruct (truthy src) eqn:Ets.
        -- repeat inv_bind H. inv_Ok H.
           apply py_get_Ok in E as (s & -> & ->).
           apply py_get_Ok in E0 as (s' & [= <-] & ->).
           apply py_get_Ok in E1 as (s' & [= <-] & ->).
           apply py_get_Ok in E2 as (s' & [= <-] & ->).
           by destruct s.
        -- injection H as <-. destruct src as [| | | | |?|[|]]; done.
      * by injection H as <-.
    + injection Hcond as <-. rewrite Et in H. injection H as <-.
      destruct loc as [| | | | |?|[|]]; done.
  - injection Hcond as <-. simpl in H. by injection H as <-.
Qed.

(* ===================================================================== *)
(** * Authors and institutions *)
(* ===================================================================== *)

Lemma set_add_length s v s' :
  set_add s v = Ok s' -> (length s <= length s' <= length s + 1)%nat.
Proof.
  unfold set_add. destruct (hashable v); [|done].
  destruct (existsb _ s); intros [= <-]; [lia|]. rewrite length_app. simpl. lia.
Qed.

Lemma py_set_acc_length xs s s' :
  foldM set_add xs s = Ok s' -> (length s <= length s' <= length s + length xs)%nat.
Proof.
  revert s. induction xs as [|x xs IH]; intros s; simpl.
  - intros [= <-]. lia.
  - intros H. apply bind_Ok in H as (s1 & H1 & H).
    apply set_add_length in H1. apply IH in H. lia.
Qed.

(** The inner loop adds the truthy display names of the entries, in order. *)
Lemma add_institutions_Ok insts s s' :
  foldM add_institution insts s = Ok s' ->
  exists names,
    Forall2 (fun inst n => py_get inst "display_name" = Ok n) insts names /\
    foldM set_add (List.filter truthy names) s = Ok s'.
Proof.
  revert s. induction insts as [|inst insts IH]; intros s; simpl.
  - intros [= <-]. exists []. split; [constructor|done].
  - intros H. apply bind_Ok in H as (s1 & H1 & H).
    unfold add_institution in H1. apply bind_Ok in H1 as (n & Hn & H1).
    apply IH in H as (names & Hnames & H).
    exists (n :: names). split; [by constructor|]. simpl.
    destruct (truthy n).
    + rewrite Hn in H1. simpl in *. by rewrite H1.
    + by injection H1 as ->.
Qed.

(** An author's entry lists every institution of the authorship, in order. *)
Lemma author_info_Ok auth info :
  author_info auth = Ok info ->
  exists insts infos,
    collection auth "institutions" = Ok insts /\
    Forall2 (fun inst i => institution_info inst = Ok i) insts infos /\
    py_get info "institutions" = Ok (VList infos).
Proof.
  unfold author_info. intros H. repeat inv_bind H. inv_Ok H.
  exists v6, v7. split; [done|]. split; [by apply mapM_Ok|done].
Qed.

(** The loop over the authorships: one entry per authorship, and the set fed
    with the truthy display names of all institution entries. *)
Lemma authorships_Ok auths authors0 set0 authors institutions :
  foldM authorship_step auths (authors0, set0) = Ok (authors, institutions) ->
  exists infos entries names,
    authors = authors0 ++ infos /\
    Forall3 (fun auth info insts =>
               author_info auth = Ok info /\
               collection auth "institutions" = Ok insts)
            auths infos entries /\
    Forall2 (fun inst n => py_get inst "display_name" = Ok n) (concat entries) names /\
    foldM set_add (List.filter truthy names) set0 = Ok institutions.
Proof.
  revert authors0 set0.
  induction auths as [|auth auths IH]; intros authors0 set0; simpl.
  - intros [= <- <-]. exists [], [], []. rewrite app_nil_r.
    repeat split; constructor.
  - intros H. apply bind_Ok in H as ([authors1 set1] & H1 & H).
    unfold authorship_step in H1.
    apply bind_Ok in H1 as (info & Hinfo & H1).
    apply bind_Ok in H1 as (insts & Hinsts & H1).
    apply bind_Ok in H1 as (s & Hs & [= <- <-]).
    apply add_institutions_Ok in Hs as (names1 & Hn1 & Hs).
    apply IH in H as (infos & entries & names & -> & Hall & Hn & Hset).
    exists (info :: infos), (insts :: entries), (names1 ++ names).
    split; [by rewrite <- app_assoc|].
    split; [by constructor|].
    split; [by apply Forall2_app|].
    rewrite List.filter_app. apply foldM_Ok_app. eauto.
Qed.

(* ===================================================================== *)
(** * Signs of quotients and of their roundings *)
(* ===================================================================== *)

Lemma shr_1_nonneg mrs : 0 <= shr_m mrs -> 0 <= shr_m (shr_1 mrs).
Proof. destruct mrs as [[|[p|p|]|p] r s]; simpl; lia. Qed.

Lemma iter_pos_shr_1_nonneg p mrs :
  0 <= shr_m mrs -> 0 <= shr_m (SpecFloat.iter_pos shr_1 p mrs).
Proof.
  revert mrs. induction p as [p IH|p IH|]; intros mrs H; simpl;
    auto using shr_1_nonneg.
Qed.

Lemma shr_fexp_nonneg m e l :
  0 <= m -> 0 <= shr_m (fst (shr_fexp prec emax m e l)).
Proof.
  intros H. unfold shr_fexp, shr.
  assert (0 <= shr_m (shr_record_of_loc m l)) as H'.
  { by destruct l as [|[]]. }
  destruct (fexp prec emax (Zdigits2 m + e) - e); simpl; [done| |done].
  by apply iter_pos_shr_1_nonneg.
Qed.

Lemma round_nearest_even_nonneg m l : 0 <= m -> 0 <= round_nearest_even m l.
Proof.
  intros H. destruct l as [|[]]; simpl; try lia. destruct (Z.even m); lia.
Qed.

Lemma binary_round_aux_sign s m e l :
  0 <= m -> has_sign s (binary_round_aux prec emax s m e l).
Proof.
  intros H. unfold binary_round_aux.
  pose proof (shr_fexp_nonneg m e l H) as H1.
  destruct (shr_fexp prec emax m e l) as [mrs' e']. simpl in H1.
  pose proof (shr_fexp_nonneg _ e' loc_Exact
                (round_nearest_even_nonneg _ (loc_of_shr_record mrs') H1)) as H2.
  destruct (shr_fexp prec emax (round_nearest_even _ _) e' loc_Exact) as [mrs'' e''].
  simpl in H2. destruct (shr_m mrs''); [done| |lia].
  by destruct (e'' <=? emax - prec).
Qed.

Lemma SFdiv_finite_sign sx mx ex sy my ey :
  has_sign (xorb sx sy)
    (SFdiv prec emax (S754_finite sx mx ex) (S754_finite sy my ey)).
Proof.
  unfold SFdiv, SFdiv_core_binary.
  set (m' := match _ - _ - _ with Z0 => _ | Zpos _ => _ | Zneg _ => _ end).
  assert (0 <= m') as Hm'.
  { unfold m'. destruct (_ - _ - _); [lia| |lia]. by apply Z.shiftl_nonneg. }
  pose proof (Z_div_mod m' (Zpos my) eq_refl) as Hdiv.
  destruct (Z.div_eucl m' (Zpos my)) as [q r].
  apply binary_round_aux_sign. nia.
Qed.

Lemma float_round3_sign s x : has_sign s x -> has_sign s (float_round3 x).
Proof.
  destruct x as [| | |s' m e]; try done. intros H. simpl in H. subst s'.
  unfold float_round3. destruct e; try done.
  destruct (round_thousandths m (Z.neg p)); try done.
  pose proof (SFdiv_finite_sign s p0 0 false 1000 0) as H.
  by rewrite xorb_false_r in H.
Qed.

Lemma has_sign_nonneg x : has_sign false x -> float_nonneg x = true.
Proof. destruct x; simpl; try done; by intros ->. Qed.

(** The quotient of two non-negative integers, and its rounding, are not
    negative. *)
Lemma int_true_divide_nonneg a b q :
  0 <= a -> 0 < b -> int_true_divide a b = Ok q ->
  has_sign false q /\ float_nonneg (float_round3 q) = true.
Proof.
  intros Ha Hb. unfold int_true_divide.
  destruct (b =? 0); [done|]. destruct (_ <=? _); [done|]. intros [= <-].
  assert (has_sign false (SFdiv prec emax (exact_of_Z a) (exact_of_Z b))) as H.
  { destruct a as [|a|a], b as [|b|b]; try lia; [done|].
    apply (SFdiv_finite_sign false a 0 false b 0). }
  split; [done|]. by apply has_sign_nonneg, float_round3_sign.
Qed.

Lemma count_member_cited work c :
  count_member work "cited_by_count" = Some c ->
  exists d, work = VDict d /\ 0 <= c /\
    py_or (dict_get d "cited_by_count" VNone) (VInt 0) = VInt c.
Proof.
  destruct work as [| | | | | |d]; try done. unfold count_member, dict_get.
  intros H. exists d. split; [done|].
  destruct (dict_lookup "cited_by_count" d) as [[]|]; try done.
  - by injection H as <-.
  - destruct (0 <=? n) eqn:E; [|done]. injection H as <-.
    split; [lia|]. unfold py_or. simpl.
    by destruct (n =? 0) eqn:E'; [apply Z.eqb_eq in E' as ->|].
  - by injection H as <-.
Qed.

Lemma count_member_referenced work r :
  count_member work "referenced_works_count" = Some r ->
  exists d, work = VDict d /\ 0 <= r /\
    py_or (dict_get d "referenced_works_count" VNone) (VInt 1) = VInt (Z.max r 1).
Proof.
  destruct work as [| | | | | |d]; try done. unfold count_member, dict_get.
  intros H. exists d. split; [done|].
  destruct (dict_lookup "referenced_works_count" d) as [[]|]; try done.
  - by injection H as <-.
  - destruct (0 <=? n) eqn:E; [|done]. injection H as <-.
    split; [lia|]. unfold py_or. simpl.
    destruct (n =? 0) eqn:E'; simpl; [by apply Z.eqb_eq in E' as ->|].
    f_equal. lia.
  - by injection H as <-.
Qed.

(** The [# Ratios] block on two counts. *)
Lemma citation_per_reference_ratio_counts d c r ratio :
  count_member (VDict d) "cited_by_count" = Some c ->
  count_member (VDict d) "referenced_works_count" = Some r ->
  citation_per_reference_ratio
    [("cited_by_count", dict_get d "cited_by_count" VNone);
     ("referenced_works_count", dict_get d "referenced_works_count" VNone)]
    = Ok ratio ->
  0 <= c /\ 0 <= r /\
  exists q, int_true_divide c (Z.max r 1) = Ok q /\ ratio = VFloat (float_round3 q).
Proof.
  intros Hc Hr H.
  apply count_member_cited in Hc as (d' & [= <-] & Hc0 & Hc).
  apply count_member_referenced in Hr as (d' & [= <-] & Hr0 & Hr).
  unfold citation_per_reference_ratio, item in H.
  cbn [py_getitem dict_lookup String.eqb Ascii.eqb Bool.eqb bind] in H.
  rewrite Hc, Hr in H.
  apply bind_Ok in H as (q & Hq & [= <-]). eauto.
Qed.

(* ===================================================================== *)
(** * Works of the expected shape are flattened *)
(* ===================================================================== *)

Lemma mapM_total {A B} (f : A -> result B) xs :
  Forall (fun x => exists y, f x = Ok y) xs -> exists ys, mapM f xs = Ok ys.
Proof.
  induction 1 as [|x xs [y Hy] _ [ys Hys]]; simpl; [by exists []|].
  exists (y :: ys). by rewrite Hy, Hys.
Qed.

Lemma foldM_total {A S} (f : S -> A -> result S) xs s :
  Forall (fun x => forall s, exists s', f s x = Ok s') xs ->
  exists s', foldM f xs s = Ok s'.
Proof.
  intros H. revert s. induction H as [|x xs Hx _ IH]; intros s; simpl; [by exists s|].
  destruct (Hx s) as [s1 ->]. simpl. apply IH.
Qed.

Lemma forallb_Forall {A} (p : A -> bool) l :
  forallb p l = true -> Forall (fun x => p x = true) l.
Proof.
  rewrite forallb_forall, Forall_forall. intros H x Hx.
  by apply H, list_elem_of_In.
Qed.

Lemma collection_shaped p d k :
  absent_or (list_of p) d k = true ->
  exists l, collection (VDict d) k = Ok l /\ Forall (fun x => p x = true) l.
Proof.
  unfold absent_or, collection. simpl. unfold dict_get.
  destruct (dict_lookup k d) as [[]|]; try done; simpl.
  - intros H. eexists. split; [done|]. by apply forallb_Forall.
  - intros _. by exists [].
Qed.

Lemma object_with_VDict p v : object_with p v = true -> exists d, v = VDict d /\ p d = true.
Proof. destruct v; try done. eauto. Qed.

Lemma institution_info_total inst :
  institution_shaped inst = true -> exists i, institution_info inst = Ok i.
Proof. intros H. apply object_with_VDict in H as (d & -> & _). by eexists. Qed.

Lemma add_institution_total inst s :
  institution_shaped inst = true -> exists s', add_institution s inst = Ok s'.
Proof.
  intros H. apply object_with_VDict in H as (d & -> & H).
  unfold add_institution, absent_or, dict_get in *. simpl. unfold dict_get.
  destruct (dict_lookup "display_name" d) as [[]|]; try done; simpl; eauto.
  destruct (negb (s0 =? EmptyString)%string); eauto.
Qed.

Lemma authorship_step_total auth st :
  authorship_shaped auth = true -> exists st', authorship_step st auth = Ok st'.
Proof.
  intros H. apply object_with_VDict in H as (a & -> & H).
  apply andb_prop in H as [Ha Hi].
  apply collection_shaped in Hi as (insts & Hc & Hinsts).
  destruct st as [authors institutions]. unfold authorship_step, author_info.
  assert (exists ad, py_get_default (VDict a) "author" (VDict []) = Ok (VDict ad)) as [ad Had].
  { unfold absent_or, dict_get in *. simpl. unfold dict_get.
    destruct (dict_lookup "author" a) as [v|]; [|by eexists].
    apply object_with_VDict in Ha as (ad & -> & _). by eexists. }
  rewrite Had, Hc. simpl.
  destruct (mapM_total institution_info insts) as [infos ->].
  { eapply Forall_impl; [exact Hinsts|]. apply institution_info_total. }
  simpl.
  destruct (foldM_total add_institution insts institutions) as [s' ->]; [|by eexists].
  eapply Forall_impl; [exact Hinsts|]. intros inst Hs s. by apply add_institution_total.
Qed.

Lemma topic_names_shaped topics key :
  Forall (fun t => object_with
            (fun t => absent_or (null_or (object_with (has_name "display_name"))) t key)
            t = true) topics ->
  exists names,
    filter_mapM
      (fun topic => f <- py_get topic key ;; Ok (truthy f))
      (fun topic => f <- py_getitem topic key ;; py_get f "display_name")
      topics = Ok (map VStr names).
Proof.
  induction 1 as [|t topics Ht _ [names IH]]; [by exists []|].
  apply object_with_VDict in Ht as (td & -> & Ht).
  cbn [filter_mapM]. rewrite IH. unfold absent_or, dict_get in *. simpl. unfold dict_get.
  destruct (dict_lookup key td) as [f|] eqn:E; simpl; [|by exists names].
  destruct f; try done; simpl; try by exists names.
  destruct d as [|m f]; [by exists names|].
  cbn [truthy bind null_or object_with] in *. unfold has_name in Ht.
  unfold py_get, py_get_default, dict_get.
  destruct (dict_lookup "display_name" (m :: f)) as [[]|]; try done.
  by exists (s :: names).
Qed.

Lemma entry_names_shaped d coll key :
  absent_or (list_of (object_with (has_name key))) d coll = true ->
  exists names, entry_names (VDict d) coll key = Ok (map VStr names).
Proof.
  intros H. apply collection_shaped in H as (l & Hc & Hl).
  unfold entry_names. rewrite Hc. simpl. clear Hc.
  induction Hl as [|k l Hk _ [names IH]]; [by exists []|].
  apply object_with_VDict in Hk as (kd & -> & Hk). simpl. rewrite IH.
  unfold has_name in Hk. unfold dict_get.
  destruct (dict_lookup key kd) as [[]|]; try done. by exists (s :: names).
Qed.

Lemma int_true_divide_total c r :
  Z.abs c < overflow_threshold -> r <> 0 -> exists q, int_true_divide c r = Ok q.
Proof.
  intros Hc Hr. unfold int_true_divide.
  destruct (Z.eqb_spec r 0); [done|].
  destruct (Z.leb_spec (overflow_threshold * Z.abs r) (Z.abs c)); [|by eexists].
  assert (0 < overflow_threshold) by done. nia.
Qed.

Lemma citation_per_reference_ratio_shaped d :
  absent_or count_shaped d "cited_by_count" = true ->
  absent_or count_shaped d "referenced_works_count" = true ->
  exists ratio,
    citation_per_reference_ratio
      [("cited_by_count", dict_get d "cited_by_count" VNone);
       ("referenced_works_count", dict_get d "referenced_works_count" VNone)]
    = Ok ratio.
Proof.
  unfold absent_or, dict_get. intros Hc Hr.
  unfold citation_per_reference_ratio, item.
  cbn [py_getitem dict_lookup String.eqb Ascii.eqb Bool.eqb bind].
  assert (exists c, Z.abs c < overflow_threshold /\
            py_or match dict_lookup "cited_by_count" d with Some v => v | None => VNone end
                  (VInt 0) = VInt c) as (c & Hc' & ->).
  { destruct (dict_lookup "cited_by_count" d) as [[]|]; try done; try by exists 0.
    unfold py_or. simpl. destruct (n =? 0); [by exists 0|].
    exists n. split; [|done]. simpl in Hc. lia. }
  assert (exists r, r <> 0 /\
            py_or match dict_lookup "referenced_works_count" d with Some v => v | None => VNone end
                  (VInt 1) = VInt r) as (r & Hr' & ->).
  { destruct (dict_lookup "referenced_works_count" d) as [[]|]; try done; try by exists 1.
    unfold py_or. simpl. destruct (Z.eqb_spec n 0); [by exists 1|]. by exists n. }
  destruct (int_true_divide_total c r Hc' Hr') as [q Hq].
  exists (VFloat (float_round3 q)). cbn [py_truediv as_number bind]. by rewrite Hq.
Qed.

Lemma journal_info_shaped d :
  absent_or location_shaped d "primary_location" = true ->
  exists j, journal_info (VDict d) = Ok j.
Proof.
  unfold absent_or, journal_info, py_get, py_get_default, py_getitem, dict_get.
  destruct (dict_lookup "primary_location" d) as [loc|] eqn:El;
    cbn [bind truthy]; [|by eexists].
  destruct loc as [| | | | | |ld]; try done; cbn [bind truthy]; [by eexists|].
  intros H. destruct ld as [|m l]; cbn [bind truthy]; [by eexists|].
  cbn [location_shaped null_or object_with] in H. unfold absent_or in H.
  destruct (dict_lookup "source" (m :: l)) as [src|] eqn:Es; cbn [bind truthy];
    [|by eexists].
  destruct src as [| | | | | |sd]; try done; cbn [bind truthy]; [by eexists|].
  destruct sd; cbn [bind]; by eexists.
Qed.

(* ===================================================================== *)
(** * Lines of text *)
(* ===================================================================== *)

Lemma app_empty (b : string) : EmptyString +:+ b = b.
Proof. reflexivity. Qed.

Lemma app_String c (a b : string) : String c a +:+ b = String c (a +:+ b).
Proof. reflexivity. Qed.

Lemma string_app_assoc (a b c : string) : (a +:+ b) +:+ c = a +:+ (b +:+ c).
Proof.
  induction a as [|x a IH]; [done|]. rewrite !app_String. by rewrite IH.
Qed.

Lemma string_app_nil_r (a : string) : a +:+ EmptyString = a.
Proof. induction a as [|x a IH]; [done|]. rewrite app_String. by rewrite IH. Qed.

(** After a text that ends a line, counting starts afresh. *)
Lemma count_lines_aux_app_LF a b cr pending :
  count_lines_aux (a +:+ String LF b) cr pending
  = (count_lines_aux (a +:+ String LF EmptyString) cr pending
     + count_lines_aux b false false)%nat.
Proof.
  revert cr pending. induction a as [|c a IH]; intros cr pending.
  - rewrite !app_empty. simpl. by destruct cr.
  - rewrite !app_String. simpl.
    destruct (Ascii.eqb c LF); [destruct cr|destruct (Ascii.eqb c CR)];
      by rewrite IH.
Qed.

Lemma count_lines_aux_one_line l pending :
  one_line l = true ->
  count_lines_aux (l +:+ String LF EmptyString) false pending = 1%nat.
Proof.
  revert pending. induction l as [|c l IH]; intros pending; [done|].
  rewrite app_String. simpl.
  intros H. apply andb_prop in H as [H Hl]. apply andb_prop in H as [H1 H2].
  destruct (Ascii.eqb c LF); [done|]. destruct (Ascii.eqb c CR); [done|]. by apply IH.
Qed.

Lemma ends_lines_spec s :
  ends_lines s = true <-> s = EmptyString \/ exists a, s = a +:+ String LF EmptyString.
Proof.
  induction s as [|c s IH]; [by split; [left|]|].
  destruct s as [|c' s].
  - simpl. split.
    + intros H. apply Ascii.eqb_eq in H as ->. right. by exists EmptyString.
    + intros [?|[a H]]; [done|]. destruct a as [|x [|y a]]; try done.
      injection H as ->. by apply Ascii.eqb_eq.
  - change (ends_lines (String c (String c' s))) with (ends_lines (String c' s)).
    rewrite IH. split.
    + intros [?|[a ->]]; [done|]. right. by exists (String c a).
    + intros [?|[a H]]; [done|]. right. destruct a as [|x a]; [done|].
      injection H as -> H. by exists a.
Qed.

Lemma ends_lines_app_LF a : ends_lines (a +:+ String LF EmptyString) = true.
Proof. apply ends_lines_spec. right. by exists a. Qed.

Lemma count_lines_app_line s l :
  ends_lines s = true -> one_line l = true ->
  count_lines (s +:+ (l +:+ String LF EmptyString)) = S (count_lines s).
Proof.
  intros Hs Hl. unfold count_lines.
  apply ends_lines_spec in Hs as [->|[a ->]].
  - by apply count_lines_aux_one_line.
  - rewrite string_app_assoc, app_String, app_empty.
    rewrite count_lines_aux_app_LF, (count_lines_aux_one_line l) by done. lia.
Qed.

(** Appending whole lines to a text that ends a line adds their number. *)
Lemma count_lines_concat s ls :
  ends_lines s = true ->
  Forall (fun l => one_line l = true) ls ->
  count_lines (s +:+ concat_lines ls) = (count_lines s + length ls)%nat /\
  ends_lines (s +:+ concat_lines ls) = true.
Proof.
  intros Hs Hls. revert s Hs. induction Hls as [|l ls Hl _ IH]; intros s Hs.
  - simpl. rewrite string_app_nil_r. split; [lia|done].
  - cbn [concat_lines length].
    replace (s +:+ (l +:+ String LF (concat_lines ls)))
      with ((s +:+ (l +:+ String LF EmptyString)) +:+ concat_lines ls).
    2:{ by rewrite !string_app_assoc, app_String, app_empty. }
    destruct (IH (s +:+ (l +:+ String LF EmptyString))) as [H1 H2].
    { rewrite <- string_app_assoc. apply ends_lines_app_LF. }
    rewrite H1, H2, count_lines_app_line by done. split; [lia|done].
Qed.

(* ===================================================================== *)
(** * Paths *)
(* ===================================================================== *)

Lemma str_of_int_inj m n : str_of_int m = str_of_int n -> m = n.
Proof.
  unfold str_of_int. intros H. apply DecimalZ.to_int_inj.
  pose proof (NilEmpty.isi (Z.to_int m)) as Hm. rewrite H, NilEmpty.isi in Hm.
  by injection Hm.
Qed.

Lemma string_app_inj_r (a b s : string) : a +:+ s = b +:+ s -> a = b.
Proof.
  intros H.
  assert (forall x y : string, String.length (x +:+ y) = (String.length x + String.length y)%nat)
    as Hlen.
  { intros x y. induction x as [|c x IH]; [done|]. rewrite app_String. simpl. by rewrite IH. }
  assert (String.length a = String.length b) as Hab.
  { apply (f_equal String.length) in H. rewrite !Hlen in H. lia. }
  clear Hlen. revert b H Hab. induction a as [|c a IH]; intros [|c' b] H Hab; try done.
  rewrite !app_String in H. injection H as -> H. f_equal. apply IH; [done|].
  by injection Hab.
Qed.

Lemma iteration_file_inj year i j :
  iteration_file year i = iteration_file year j -> i = j.
Proof.
  unfold iteration_file, path_join. intros H.
  do 3 apply (inj (String.append _)) in H.
  by apply string_app_inj_r, str_of_int_inj in H.
Qed.

Lemma iteration_file_not_output year i : iteration_file year i <> output_file year.
Proof.
  unfold iteration_file, iterations_folder, output_file, path_join. intros H.
  rewrite !string_app_assoc in H. do 2 apply (inj (String.append _)) in H. done.
Qed.

Lemma cursor_file_not_output year i : cursor_file year i <> output_file year.
Proof.
  unfold cursor_file, iterations_folder, output_file, path_join. intros H.
  rewrite !string_app_assoc in H. do 2 apply (inj (String.append _)) in H. done.
Qed.

Lemma cursor_file_not_iteration year i j : cursor_file year i <> iteration_file year j.
Proof.
  unfold cursor_file, iteration_file, path_join. intros H.
  do 2 apply (inj (String.append _)) in H. done.
Qed.

(* ===================================================================== *)
(** * The pager: set-up and a failed request *)
(* ===================================================================== *)

Lemma count_previous_spec year pages total w :
  count_previous year pages total w = (Ok (total + pages_lines year w pages), w).
Proof.
  revert total. induction pages as [|i pages IH]; intros total; simpl.
  - unfold io_ret. by rewrite Z.add_0_r.
  - unfold io_bind, exists_file, file_content, file_lines, content_of.
    destruct (files w !! iteration_file year i) as [content|] eqn:E; simpl.
    + rewrite E, IH. simpl. by rewrite Z.add_assoc.
    + rewrite IH. simpl. by rewrite Z.add_0_l.
Qed.

(** Lines 31 to 48 for a resume page other than 0. *)
Lemma resume_setup_nonzero year r w :
  r <> 0 ->
  resume_setup year (Some r) w =
  match files w !! cursor_file year (r - 1) with
  | Some content =>
      (Ok (Locals (Params (param_filter (initial_params year)) 200
                          (strip (read_text content false)))
                  (pages_lines year w (seqZ 1 (r - 1))) (r - 1), ModeA), w)
  | None => (Ok (Locals (initial_params year) 0 0, ModeW), w)
  end.
Proof.
  intros Hr. unfold resume_setup. simpl.
  destruct (Z.eqb_spec r 0); [done|]. simpl.
  unfold io_bind, exists_file, file_content.
  destruct (files w !! cursor_file year (r - 1)) as [content|] eqn:E.
  - rewrite bool_decide_eq_true_2 by eauto.
    rewrite count_previous_spec. unfold io_ret. by rewrite E, Z.add_0_l.
  - by rewrite bool_decide_eq_false_2 by (by intros [? ?]).
Qed.

(* ===================================================================== *)
(** * The pager: what a page adds to the files *)
(* ===================================================================== *)

Lemma io_bind_Ok {A B} (c : io A) (k : A -> io B) w b w' :
  io_bind c k w = (Ok b, w') ->
  exists a w1, c w = (Ok a, w1) /\ k a w1 = (Ok b, w').
Proof.
  unfold io_bind. destruct (c w) as [[a|e] w1]; [eauto|done].
Qed.

Lemma lift_Ok {A} (r : result A) w a w' :
  lift r w = (Ok a, w') -> r = Ok a /\ w' = w.
Proof. unfold lift. by intros [= -> ->]. Qed.

Lemma content_of_write p t w q :
  content_of (snd (write p t w)) q
  = if decide (p = q) then content_of w p +:+ t else content_of w q.
Proof.
  unfold content_of, write. simpl. destruct (decide (p = q)) as [->|Hne].
  - by rewrite lookup_insert_eq.
  - by rewrite lookup_insert_ne.
Qed.

Lemma content_of_open_file p m w q :
  content_of (snd (open_file p m w)) q
  = if decide (p = q)
    then match m with ModeW => EmptyString | ModeA => content_of w p end
    else content_of w q.
Proof.
  unfold content_of, open_file. simpl. destruct (decide (p = q)) as [->|Hne].
  - by rewrite lookup_insert_eq.
  - by rewrite lookup_insert_ne.
Qed.

Lemma pages_lines_app year w a b :
  pages_lines year w (a ++ b) = pages_lines year w a + pages_lines year w b.
Proof. induction a as [|i a IH]; simpl; [done|]. rewrite IH. lia. Qed.

Lemma pages_lines_ext year w w' pages :
  (forall j, j ∈ pages ->
     content_of w' (iteration_file year j) = content_of w (iteration_file year j)) ->
  pages_lines year w' pages = pages_lines year w pages.
Proof.
  induction pages as [|i pages IH]; intros H; simpl; [done|].
  unfold file_lines. rewrite H by set_solver. rewrite IH; [done|].
  intros j Hj. apply H. set_solver.
Qed.

Lemma print_Ok line w u w' :
  print line w = (Ok u, w') -> forall p, content_of w' p = content_of w p.
Proof. by intros [= <- <-]. Qed.

Lemma sleep_Ok n w u w' :
  sleep n w = (Ok u, w') -> forall p, content_of w' p = content_of w p.
Proof. by intros [= <- <-]. Qed.

Lemma write_Ok q t w u w' :
  write q t w = (Ok u, w') ->
  forall p, content_of w' p
            = if decide (q = p) then content_of w q +:+ t else content_of w p.
Proof. intros H p. rewrite <- content_of_write. by rewrite H. Qed.

Lemma open_file_Ok q m w u w' :
  open_file q m w = (Ok u, w') ->
  forall p, content_of w' p
            = if decide (q = p)
              then match m with ModeW => EmptyString | ModeA => content_of w q end
              else content_of w p.
Proof. intros H p. rewrite <- content_of_open_file. by rewrite H. Qed.

Section PagerFacts.

Variable json_dumps : value -> string.
Variable server : list params -> params -> response.
Hypothesis json_dumps_one_line : forall v, one_line (json_dumps v) = true.

(** The works of a page go, one line each, to the page file and to the
    output file, and nowhere else. *)
Lemma write_works_Ok year page works w w' :
  write_works json_dumps year page works w = (Ok tt, w') ->
  exists ls,
    Forall (fun l => one_line l = true) ls /\
    content_of w' (output_file year)
      = content_of w (output_file year) +:+ concat_lines ls /\
    content_of w' (iteration_file year page)
      = content_of w (iteration_file year page) +:+ concat_lines ls /\
    forall p, p <> output_file year -> p <> iteration_file year page ->
              content_of w' p = content_of w p.
Proof.
  revert w. induction works as [|work works IH]; intros w; simpl.
  - intros [= <-]. exists []. simpl. by rewrite !string_app_nil_r.
  - intros H. apply io_bind_Ok in H as (flat & w1 & Hflat & H).
    apply lift_Ok in Hflat as [Hflat ->].
    apply io_bind_Ok in H as (? & w2 & Hw2 & H).
    apply io_bind_Ok in H as (? & w3 & Hw3 & H).
    apply IH in H as (ls & Hls & Hout & Hpage & Hother).
    pose proof (write_Ok _ _ _ _ _ Hw2) as H2.
    pose proof (write_Ok _ _ _ _ _ Hw3) as H3.
    pose proof (iteration_file_not_output year page) as Hne.
    exists (json_dumps (VDict flat) :: ls). split; [by constructor|].
    cbn [concat_lines]. split; [|split].
    + rewrite Hout, H3, decide_True, H2, decide_False by done.
      by rewrite !string_app_assoc, app_String, app_empty.
    + rewrite Hpage, H3, decide_False, H2, decide_True by done.
      by rewrite !string_app_assoc, app_String, app_empty.
    + intros p Hp1 Hp2.
      by rewrite Hother, H3, decide_False, H2, decide_False by done.
Qed.

(** A turn of the loop either leaves by [break] with the files untouched, or
    writes the lines of the page to the page file, created anew, and to the
    end of the output file, leaving the other page files alone. *)
Lemma fetch_page_Ok year l w l1 ex w1 :
  fetch_page json_dumps server year l w = (Ok (l1, ex), w1) ->
  page_count l1 = page_count l + 1 /\
  match ex with
  | Some ByBreak => files w1 = files w
  | _ =>
      exists ls,
        Forall (fun l => one_line l = true) ls /\
        content_of w1 (output_file year)
          = content_of w (output_file year) +:+ concat_lines ls /\
        content_of w1 (iteration_file year (page_count l + 1)) = concat_lines ls /\
        forall j, j <> page_count l + 1 ->
          content_of w1 (iteration_file year j) = content_of w (iteration_file year j)
  end.
Proof.
  unfold fetch_page. intros H.
  apply io_bind_Ok in H as (? & wa & Ha & H).
  apply io_bind_Ok in H as (resp & wb & Hb & H).
  assert (files wb = files w) as Hfiles.
  { injection Ha as _ <-. by injection Hb as _ <-. }
  assert (forall p, content_of wb p = content_of w p) as Hwb.
  { intros p. unfold content_of. by rewrite Hfiles. }
  clear Ha Hb.
  destruct (negb (status_code resp =? 200)).
  { apply io_bind_Ok in H as (? & wc & Hc & H). injection Hc as _ <-.
    by injection H as <- <- <-. }
  apply io_bind_Ok in H as (results & wc & Hc & H). apply lift_Ok in Hc as [Hresults ->].
  apply io_bind_Ok in H as (? & wd & Hd & H).
  apply io_bind_Ok in H as (works & we & He & H). apply lift_Ok in He as [Hworks ->].
  apply io_bind_Ok in H as ([] & wf & Hf & H).
  apply write_works_Ok in Hf as (ls & Hls & Hout & Hpage & Hother).
  pose proof (open_file_Ok _ _ _ _ _ Hd) as Hopen.
  pose proof (iteration_file_not_output year (page_count l + 1)) as Hne.
  rewrite Hopen, decide_False, Hwb in Hout by done.
  rewrite Hopen, decide_True, app_empty in Hpage by done.
  assert (forall j, j <> page_count l + 1 ->
            content_of wf (iteration_file year j) = content_of w (iteration_file year j))
    as Hpages.
  { intros j Hj. rewrite Hother, Hopen, decide_False, Hwb; try done.
    - intros Heq. by apply iteration_file_inj in Heq.
    - apply iteration_file_not_output.
    - intros Heq. by apply iteration_file_inj in Heq. }
  clear Hother Hopen Hd Hwb Hfiles.
  apply io_bind_Ok in H as (n & wg & Hg & H). apply lift_Ok in Hg as [Hn ->].
  apply io_bind_Ok in H as (? & wh & Hh & H).
  pose proof (print_Ok _ _ _ _ Hh) as Hprint.
  apply io_bind_Ok in H as (meta & wi & Hi & H). apply lift_Ok in Hi as [Hmeta ->].
  apply io_bind_Ok in H as (next & wj & Hj & H). apply lift_Ok in Hj as [Hnext ->].
  destruct (truthy next).
  - apply io_bind_Ok in H as (? & wk & Hk & H).
    apply io_bind_Ok in H as (c & wl & Hl & H). apply lift_Ok in Hl as [Hc ->].
    apply io_bind_Ok in H as (? & wm & Hm & H).
    apply io_bind_Ok in H as (? & wn & Hsleep & H).
    injection H as <- <- <-.
    assert (forall p, p <> cursor_file year (page_count l + 1) ->
              content_of wn p = content_of wf p) as Hsame.
    { intros p Hp.
      rewrite (sleep_Ok _ _ _ _ Hsleep), (write_Ok _ _ _ _ _ Hm), decide_False,
        (open_file_Ok _ _ _ _ _ Hk), decide_False, Hprint by done. done. }
    split; [done|]. exists ls. split; [done|].
    split; [|split].
    + rewrite Hsame; [done|]. apply not_eq_sym, cursor_file_not_output.
    + rewrite Hsame; [done|]. apply not_eq_sym, cursor_file_not_iteration.
    + intros j Hj. rewrite Hsame; [by apply Hpages|].
      apply not_eq_sym, cursor_file_not_iteration.
  - apply io_bind_Ok in H as (? & wk & Hsleep & H).
    injection H as <- <- <-.
    assert (forall p, content_of wk p = content_of wf p) as Hsame.
    { intros p. by rewrite (sleep_Ok _ _ _ _ Hsleep), Hprint. }
    split; [done|]. exists ls. split; [done|]. rewrite !Hsame.
    split; [done|]. split; [done|].
    intros j Hj. rewrite Hsame. by apply Hpages.
Qed.

(** The line count of a file is that of its content. *)
Lemma file_lines_content w w' p q :
  content_of w' p = content_of w q -> file_lines w' p = file_lines w q.
Proof. unfold file_lines. by intros ->. Qed.

(** Between two turns of the loop the output file ends a line and has as many
    lines as the page files of [pages], and the next page is not in [pages].
    When the loop is left, or after [fuel] turns, the same holds with the
    pages written since. *)
Lemma fetch_pages_lines fuel year l w r w' pages :
  fetch_pages json_dumps server fuel year l w = (Ok r, w') ->
  ends_lines (content_of w (output_file year)) = true ->
  file_lines w (output_file year) = pages_lines year w pages ->
  Forall (fun i => i <= page_count l) pages ->
  let last := last_written fuel (page_count l) r in
  page_count l <= last /\
  file_lines w' (output_file year)
    = pages_lines year w' (pages ++ seqZ (page_count l + 1) (last - page_count l)) /\
  exists added, content_of w' (output_file year)
                = content_of w (output_file year) +:+ added.
Proof.
  revert l w pages. induction fuel as [|fuel IH]; intros l w pages.
  { intros [= <- <-] Hends Hlines Hpages. cbn [last_written Z.of_nat].
    replace (page_count l + 0 - page_count l) with 0 by lia.
    rewrite seqZ_nil, app_nil_r by lia. split; [lia|]. split; [done|].
    exists EmptyString. by rewrite string_app_nil_r. }
  cbn [fetch_pages]. intros H Hends Hlines Hpages.
  apply io_bind_Ok in H as ([l1 ex] & w1 & Hpage & H).
  apply fetch_page_Ok in Hpage as [Hcount Hpage].
  assert (forall ls,
    Forall (fun l => one_line l = true) ls ->
    content_of w1 (output_file year)
      = content_of w (output_file year) +:+ concat_lines ls ->
    content_of w1 (iteration_file year (page_count l + 1)) = concat_lines ls ->
    (forall j, j <> page_count l + 1 ->
       content_of w1 (iteration_file year j) = content_of w (iteration_file year j)) ->
    ends_lines (content_of w1 (output_file year)) = true /\
    file_lines w1 (output_file year)
      = pages_lines year w1 (pages ++ [page_count l + 1]) /\
    Forall (fun i => i <= page_count l1) (pages ++ [page_count l + 1])) as Hstep.
  { intros ls Hls Hout Hfile Hother.
    destruct (count_lines_concat _ ls Hends Hls) as [Hn He].
    destruct (count_lines_concat EmptyString ls eq_refl Hls) as [Hn' _].
    rewrite app_empty in Hn'. change (count_lines EmptyString) with 0%nat in Hn'.
    split; [by rewrite Hout|]. split.
    - rewrite pages_lines_app. cbn [pages_lines].
      rewrite (pages_lines_ext year w w1 pages).
      + unfold file_lines in *. rewrite Hout, Hfile, Hn, Hn'. lia.
      + intros j Hj. apply Hother. rewrite Forall_forall in Hpages.
        specialize (Hpages j Hj). lia.
    - apply Forall_app. split; [|constructor; [lia|constructor]].
      eapply Forall_impl; [exact Hpages|]. simpl. lia. }
  destruct ex as [[]|].
  - injection H as <- <-. cbn [last_written]. rewrite Hcount.
    replace (page_count l + 1 - 1 - page_count l) with 0 by lia.
    rewrite seqZ_nil, app_nil_r by lia.
    split; [lia|]. split.
    + rewrite (pages_lines_ext year w w1 pages).
      * rewrite <- Hlines. apply file_lines_content. unfold content_of. by rewrite Hpage.
      * intros j _. unfold content_of. by rewrite Hpage.
    + exists EmptyString. rewrite string_app_nil_r. unfold content_of. by rewrite Hpage.
  - injection H as <- <-. cbn [last_written]. rewrite Hcount.
    destruct Hpage as (ls & Hls & Hout & Hfile & Hother).
    destruct (Hstep ls Hls Hout Hfile Hother) as (_ & Hlines1 & _).
    replace (page_count l + 1 - page_count l) with 1 by lia.
    split; [lia|]. split; [done|]. by exists (concat_lines ls).
  - destruct Hpage as (ls & Hls & Hout & Hfile & Hother).
    destruct (Hstep ls Hls Hout Hfile Hother) as (Hends1 & Hlines1 & Hpages1).
    destruct (IH _ _ _ H Hends1 Hlines1 Hpages1) as (Hlast & Hfinal & added & Hadded).
    assert (last_written fuel (page_count l1) r = last_written (S fuel) (page_count l) r)
      as Heq.
    { destruct r as [[? []]|]; cbn [last_written]; lia. }
    rewrite Heq in Hlast, Hfinal. rewrite Hcount in Hlast, Hfinal.
    set (last := last_written (S fuel) (page_count l) r) in *.
    split; [lia|]. split.
    + rewrite Hfinal, <- app_assoc. do 2 f_equal.
      rewrite (seqZ_cons (page_count l + 1) (last - page_count l)) by lia.
      simpl. do 2 f_equal; lia.
    + exists (concat_lines ls +:+ added). by rewrite Hadded, Hout, string_app_assoc.
Qed.

(** The set-up leaves the world alone and never raises; it asks to append
    only with the page count of the checkpoint, and to overwrite only with
    page count 0. *)
Lemma resume_setup_Ok year resume w r w1 :
  resume_setup year resume w = (r, w1) ->
  w1 = w /\ exists l m, r = Ok (l, m) /\ (m = ModeW -> page_count l = 0).
Proof.
  destruct resume as [R|]; [|intros [= <- <-]; eauto].
  destruct (decide (R = 0)) as [->|HR]; [intros [= <- <-]; eauto|].
  rewrite resume_setup_nonzero by done.
  destruct (files w !! cursor_file year (R - 1)); intros [= <- <-]; eauto.
  split; [done|]. eexists _, _. split; [done|]. done.
Qed.

End PagerFacts.

(* ===================================================================== *)
(** * Rounding an integer never gives zero *)
(* ===================================================================== *)

Lemma digits2_pos_size p : digits2_pos p = Pos.size p.
Proof. induction p; simpl; congruence. Qed.

Lemma Zdigits2_bounds m :
  0 < m -> 1 <= Zdigits2 m /\ 2 ^ (Zdigits2 m - 1) <= m.
Proof.
  destruct m as [|p|p]; try lia. intros _. simpl.
  rewrite digits2_pos_size. split; [lia|].
  pose proof (Pos.size_le p) as H.
  assert (2 ^ Zpos (Pos.size p) <= 2 * Zpos p) as H'.
  { change 2 with (Zpos 2) at 1. rewrite <- Pos2Z.inj_pow. lia. }
  replace (Zpos (Pos.size p)) with (Z.succ (Zpos (Pos.size p) - 1)) in H' by lia.
  rewrite Z.pow_succ_r in H' by lia. lia.
Qed.

Lemma shr_m_shr_1 mrs : 0 <= shr_m mrs -> shr_m (shr_1 mrs) = Z.div2 (shr_m mrs).
Proof. destruct mrs as [[|[p|p|]|p] r s]; simpl; try done; lia. Qed.

Lemma shr_m_iter_pos p mrs :
  0 <= shr_m mrs ->
  shr_m (SpecFloat.iter_pos shr_1 p mrs) = Z.shiftr (shr_m mrs) (Zpos p).
Proof.
  revert mrs. induction p as [p IH|p IH|]; intros mrs Hm; cbn [SpecFloat.iter_pos].
  - assert (0 <= shr_m (shr_1 mrs)) as H1 by (by apply shr_1_nonneg).
    assert (0 <= shr_m (SpecFloat.iter_pos shr_1 p (shr_1 mrs))) as H2
      by (by apply iter_pos_shr_1_nonneg).
    rewrite IH, IH, shr_m_shr_1, Z.div2_spec, !Z.shiftr_shiftr by lia.
    f_equal. lia.
  - assert (0 <= shr_m (SpecFloat.iter_pos shr_1 p mrs)) as H2
      by (by apply iter_pos_shr_1_nonneg).
    rewrite IH, IH, !Z.shiftr_shiftr by lia. f_equal. lia.
  - by rewrite shr_m_shr_1, Z.div2_spec.
Qed.

Lemma shr_fexp_pos m e l :
  0 < m -> emin prec emax <= e ->
  0 < shr_m (fst (shr_fexp prec emax m e l)) /\
  emin prec emax <= snd (shr_fexp prec emax m e l).
Proof.
  intros Hm He. destruct (Zdigits2_bounds m Hm) as [Hd Hp].
  assert (shr_m (shr_record_of_loc m l) = m) as Hrec by (by destruct l as [|[]]).
  unfold shr_fexp, shr.
  destruct (fexp prec emax (Zdigits2 m + e) - e) as [|n|n] eqn:En; simpl;
    rewrite ?Hrec; try lia.
  rewrite shr_m_iter_pos, Hrec by lia. split; [|lia].
  rewrite Z.shiftr_div_pow2 by lia.
  assert (Zpos n <= Zdigits2 m - 1) as Hn.
  { unfold fexp, emin, prec, emax in *. lia. }
  apply Z.div_str_pos. split; [lia|].
  etrans; [|exact Hp]. apply Z.pow_le_mono_r; lia.
Qed.

Lemma round_nearest_even_pos m l : 0 < m -> 0 < round_nearest_even m l.
Proof. intros Hm. destruct l as [|[]]; simpl; try lia. destruct (Z.even m); lia. Qed.

Lemma binary_round_aux_nonzero s m e l :
  0 < m -> emin prec emax <= e ->
  float_is_zero (binary_round_aux prec emax s m e l) = false.
Proof.
  intros Hm He. unfold binary_round_aux.
  destruct (shr_fexp_pos m e l Hm He) as [H1 H1'].
  destruct (shr_fexp prec emax m e l) as [mrs' e']. simpl in H1, H1'.
  pose proof (round_nearest_even_pos (shr_m mrs') (loc_of_shr_record mrs') H1) as H2.
  destruct (shr_fexp_pos _ e' loc_Exact H2 H1') as [H3 _].
  destruct (shr_fexp prec emax _ e' loc_Exact) as [mrs'' e'']. simpl in H3.
  destruct (shr_m mrs''); try lia.
  by destruct (e'' <=? emax - prec).
Qed.

Lemma float_of_int_nonzero n x :
  n <> 0 -> float_of_int n = Ok x -> float_is_zero x = false.
Proof.
  intros Hn. unfold float_of_int.
  destruct (overflow_threshold <=? Z.abs n); [done|]. intros [= <-].
  assert (forall s p, float_is_zero (binary_round prec emax s p 0) = false) as H.
  { intros s p. unfold binary_round.
    destruct (shl_align p 0 _) as [mz ez] eqn:E.
    apply binary_round_aux_nonzero; [lia|].
    unfold shl_align in E.
    destruct (fexp prec emax (Zpos (digits2_pos p) + 0) - 0) as [|k|k] eqn:Ek;
      injection E as <- <-; unfold fexp, emin, prec, emax in *; lia. }
  destruct n; [done| |]; apply H.
Qed.

(* ===================================================================== *)
(** * Which exceptions the flattener can raise *)
(* ===================================================================== *)

Lemma bind_Raise {A B} (c : result A) (k : A -> result B) e :
  bind c k = Raise e <-> c = Raise e \/ exists a, c = Ok a /\ k a = Raise e.
Proof.
  destruct c as [a|e']; simpl; split.
  - intros H. right. by exists a.
  - intros [H|(a' & H' & H)]; [done|]. by injection H' as <-.
  - intros [= <-]. by left.
  - intros [H|(a' & H & _)]; [|done]. by injection H as <-.
Qed.

Lemma raises_only_Ok {A} P (a : A) : raises_only P (Ok a).
Proof. by intros e. Qed.

Lemma raises_only_bind {A B} P (c : result A) (k : A -> result B) :
  raises_only P c ->
  (forall a, c = Ok a -> raises_only P (k a)) ->
  raises_only P (bind c k).
Proof.
  intros Hc Hk e H. apply bind_Raise in H as [H|(a & Ha & H)].
  - by apply Hc.
  - by apply (Hk a Ha).
Qed.

Lemma raises_only_mapM {A B} P (f : A -> result B) xs :
  (forall x, raises_only P (f x)) -> raises_only P (mapM f xs).
Proof.
  intros Hf. induction xs as [|x xs IH]; [apply raises_only_Ok|].
  cbn [mapM]. apply raises_only_bind; [apply Hf|]. intros y _.
  apply raises_only_bind; [apply IH|]. intros ys _. apply raises_only_Ok.
Qed.

Lemma raises_only_foldM {A S} P (f : S -> A -> result S) xs s :
  (forall s x, raises_only P (f s x)) -> raises_only P (foldM f xs s).
Proof.
  intros Hf. revert s. induction xs as [|x xs IH]; intros s; [apply raises_only_Ok|].
  cbn [foldM]. apply raises_only_bind; [apply Hf|]. intros s' _. apply IH.
Qed.

Lemma raises_only_filter_mapM {A B} P (c : A -> result bool) (f : A -> result B) xs :
  (forall x, raises_only P (c x)) ->
  (forall x, c x = Ok true -> raises_only P (f x)) ->
  raises_only P (filter_mapM c f xs).
Proof.
  intros Hc Hf. induction xs as [|x xs IH]; [apply raises_only_Ok|].
  cbn [filter_mapM]. apply raises_only_bind; [apply Hc|]. intros [] Hb; [|apply IH].
  apply raises_only_bind; [by apply Hf|]. intros y _.
  apply raises_only_bind; [apply IH|]. intros ys _. apply raises_only_Ok.
Qed.

Lemma py_get_default_raises o k default :
  raises_only shape_error (py_get_default o k default).
Proof. intros e. by destruct o; simpl; intros [= <-]. Qed.

Lemma py_get_raises o k : raises_only shape_error (py_get o k).
Proof. apply py_get_default_raises. Qed.

Lemma py_iter_raises o : raises_only shape_error (py_iter o).
Proof. intros e. by destruct o; simpl; intros [= <-]. Qed.

Lemma collection_raises work k : raises_only shape_error (collection work k).
Proof.
  apply raises_only_bind; [apply py_get_default_raises|]. intros c _. apply py_iter_raises.
Qed.

Lemma set_add_raises s v : raises_only shape_error (set_add s v).
Proof. intros e. unfold set_add. by destruct (hashable v); intros [= <-]. Qed.

Lemma py_lt_raises a b : raises_only shape_error (py_lt a b).
Proof.
  intros e. unfold py_lt.
  destruct a, b; try done; destruct (compare_numbers _ _) as [[[]|]|]; by intros [= <-].
Qed.

Lemma sorted_set_raises xs : raises_only shape_error (sorted_set xs).
Proof.
  apply raises_only_bind.
  { apply raises_only_foldM. intros. apply set_add_raises. }
  intros s _. induction s as [|x s IH]; [apply raises_only_Ok|].
  cbn [py_sorted]. apply raises_only_bind; [apply IH|]. intros l _.
  clear. induction l as [|y l IH]; [apply raises_only_Ok|].
  cbn [insert_sorted]. apply raises_only_bind; [apply py_lt_raises|]. intros [] _.
  - apply raises_only_bind; [apply IH|]. intros r _. apply raises_only_Ok.
  - apply raises_only_Ok.
Qed.

Lemma py_join_raises sep xs : raises_only shape_error (py_join sep xs).
Proof.
  apply raises_only_bind; [|intros; apply raises_only_Ok].
  apply raises_only_mapM. intros x e. by destruct x; simpl; intros [= <-].
Qed.

Lemma institution_info_raises inst : raises_only shape_error (institution_info inst).
Proof.
  unfold institution_info.
  repeat (apply raises_only_bind; [apply py_get_raises|]; intros ? _).
  apply raises_only_Ok.
Qed.

Lemma author_info_raises auth : raises_only shape_error (author_info auth).
Proof.
  unfold author_info.
  repeat (apply raises_only_bind;
          [first [apply py_get_raises | apply py_get_default_raises]|]; intros ? _).
  apply raises_only_bind; [apply collection_raises|]. intros insts _.
  apply raises_only_bind; [|intros; apply raises_only_Ok].
  apply raises_only_mapM, institution_info_raises.
Qed.

Lemma authorship_step_raises st auth : raises_only shape_error (authorship_step st auth).
Proof.
  destruct st as [authors_list institutions_set]. unfold authorship_step.
  apply raises_only_bind; [apply author_info_raises|]. intros info _.
  apply raises_only_bind; [apply collection_raises|]. intros insts _.
  apply raises_only_bind; [|intros; apply raises_only_Ok].
  apply raises_only_foldM. intros s inst. unfold add_institution.
  apply raises_only_bind; [apply py_get_raises|]. intros name _.
  destruct (truthy name); [|apply raises_only_Ok].
  apply raises_only_bind; [apply py_get_raises|]. intros name' _. apply set_add_raises.
Qed.

(** [o[k]] after [o.get(k)] gave something truthy. *)
Lemma py_getitem_truthy o k v :
  py_get o k = Ok v -> truthy v = true -> py_getitem o k = Ok v.
Proof.
  intros H Hv. apply py_get_Ok in H as (d & -> & ->). unfold dict_get in *. simpl.
  by destruct (dict_lookup k d).
Qed.

Lemma topic_names_raises work key : raises_only shape_error (topic_names work key).
Proof.
  apply raises_only_bind; [apply collection_raises|]. intros topics _.
  apply raises_only_filter_mapM.
  - intros topic. apply raises_only_bind; [apply py_get_raises|]. intros; apply raises_only_Ok.
  - intros topic H. apply bind_Ok in H as (f & Hf & [= Ht]).
    rewrite (py_getitem_truthy _ _ _ Hf Ht). apply py_get_raises.
Qed.

Lemma entry_names_raises work coll key : raises_only shape_error (entry_names work coll key).
Proof.
  apply raises_only_bind; [apply collection_raises|]. intros ks _.
  apply raises_only_mapM. intros k. apply py_get_raises.
Qed.

Lemma keyword_names_raises work : raises_only shape_error (keyword_names work).
Proof.
  apply raises_only_bind; [apply entry_names_raises|]. intros names _.
  destruct (truthy (VList names)); [apply raises_only_Ok|apply entry_names_raises].
Qed.

Lemma truthy_number b n :
  truthy b = true -> as_number b = Ok n ->
  match n with NInt k => k <> 0 | NFloat y => float_is_zero y = false end.
Proof.
  destruct b as [|[]|k|y| | |]; simpl; try done; intros H [= <-]; try done.
  - by destruct (Z.eqb_spec k 0).
  - by destruct (float_is_zero y).
Qed.

Lemma py_truediv_raises a b :
  truthy b = true -> raises_only shape_error (py_truediv a b).
Proof.
  intros Hb. unfold py_truediv.
  apply raises_only_bind. { intros e. by destruct a; simpl; intros [= <-]. }
  intros x _.
  apply raises_only_bind. { intros e. by destruct b; simpl; intros [= <-]. }
  intros y Hy. pose proof (truthy_number b y Hb Hy) as Hnz.
  assert (forall m, raises_only shape_error (float_of_int m)) as Hconv.
  { intros m e. unfold float_of_int. by destruct (_ <=? _); intros [= <-]. }
  destruct x as [m|x], y as [n|y].
  - intros e. unfold int_true_divide. destruct (Z.eqb_spec n 0); [done|].
    by destruct (_ <=? _); intros [= <-].
  - apply raises_only_bind; [apply Hconv|]. intros x _ e.
    unfold float_true_divide. by rewrite Hnz.
  - apply raises_only_bind; [apply Hconv|]. intros y Hy' e.
    unfold float_true_divide. by rewrite (float_of_int_nonzero n y Hnz Hy').
  - intros e. unfold float_true_divide. by rewrite Hnz.
Qed.

Lemma item_present enhanced k :
  is_Some (dict_lookup k enhanced) -> exists v, item enhanced k = Ok v.
Proof. intros [v H]. exists v. unfold item. simpl. by rewrite H. Qed.

Lemma citation_per_reference_ratio_raises enhanced :
  is_Some (dict_lookup "referenced_works_count" enhanced) ->
  is_Some (dict_lookup "cited_by_count" enhanced) ->
  raises_only shape_error (citation_per_reference_ratio enhanced).
Proof.
  intros Hr Hc. unfold citation_per_reference_ratio.
  destruct (item_present _ _ Hr) as [r ->], (item_present _ _ Hc) as [c ->]. cbn [bind].
  apply raises_only_bind; [|intros; apply raises_only_Ok].
  apply py_truediv_raises. unfold py_or. by destruct (truthy r) eqn:E.
Qed.

Lemma journal_info_raises work : raises_only shape_error (journal_info work).
Proof.
  unfold journal_info.
  apply raises_only_bind; [apply py_get_raises|]. intros loc Hloc.
  destruct (truthy loc) eqn:Eloc.
  - rewrite (py_getitem_truthy _ _ _ Hloc Eloc). cbn [bind].
    apply raises_only_bind; [apply py_get_raises|]. intros cond Hcond.
    destruct (truthy cond) eqn:Econd; [|apply raises_only_Ok].
    rewrite (py_getitem_truthy _ _ _ Hcond Econd). cbn [bind].
    repeat (apply raises_only_bind; [apply py_get_raises|]; intros ? _).
    apply raises_only_Ok.
  - cbn [bind]. rewrite Eloc. apply raises_only_Ok.
Qed.

Lemma joined_part_raises enhanced k :
  is_Some (dict_lookup k enhanced) -> raises_only shape_error (joined_part enhanced k).
Proof.
  intros Hk. unfold joined_part. destruct (item_present _ _ Hk) as [v ->]. cbn [bind].
  destruct (truthy v); [|apply raises_only_Ok].
  apply raises_only_bind; [apply py_iter_raises|]. intros l _.
  apply raises_only_bind; [apply py_join_raises|]. intros; apply raises_only_Ok.
Qed.

Lemma research_topic_raises enhanced :
  is_Some (dict_lookup "fields" enhanced) ->
  is_Some (dict_lookup "domains" enhanced) ->
  is_Some (dict_lookup "top_keywords" enhanced) ->
  raises_only shape_error (research_topic enhanced).
Proof.
  intros Hf Hd Hk. unfold research_topic.
  apply raises_only_bind; [apply py_get_default_raises|]. intros title _.
  apply raises_only_bind; [by apply joined_part_raises|]. intros fp _.
  apply raises_only_bind; [by apply joined_part_raises|]. intros dp _.
  apply raises_only_bind; [by apply joined_part_raises|]. intros kp _.
  apply py_join_raises.
Qed.

Lemma enhance_work_data_raises work : raises_only shape_error (enhance_work_data work).
Proof.
  destruct work as [| | | | | |d]; try (by intros e [= <-]).
  unfold enhance_work_data. simpl.
  apply raises_only_bind; [apply collection_raises|]. intros auths _.
  apply raises_only_bind.
  { apply raises_only_foldM. intros. apply authorship_step_raises. }
  intros [authors institutions] _.
  apply raises_only_bind; [apply topic_names_raises|]. intros fields _.
  apply raises_only_bind; [apply topic_names_raises|]. intros domains _.
  apply raises_only_bind; [apply keyword_names_raises|]. intros keywords _.
  apply raises_only_bind; [apply sorted_set_raises|]. intros fs _.
  apply raises_only_bind; [apply sorted_set_raises|]. intros ds _.
  apply raises_only_bind; [apply sorted_set_raises|]. intros ks _.
  apply raises_only_bind.
  { apply citation_per_reference_ratio_raises; by eexists. }
  intros ratio _.
  apply raises_only_bind; [apply journal_info_raises|]. intros journal _.
  apply raises_only_bind; [|intros; apply raises_only_Ok].
  apply research_topic_raises; destruct journal; by eexists.
Qed.

(* ===================================================================== *)
(** * Author entries *)
(* ===================================================================== *)

Lemma institution_infos_Ok insts infos :
  mapM institution_info insts = Ok infos ->
  exists ds, insts = map VDict ds /\ infos = map institution_entry ds.
Proof.
  revert infos. induction insts as [|inst insts IH]; intros infos; cbn [mapM].
  - intros [= <-]. by exists [].
  - intros H. apply bind_Ok in H as (i & Hi & H). apply bind_Ok in H as (is' & His & [= <-]).
    apply IH in His as (ds & -> & ->).
    unfold institution_info in Hi.
    apply bind_Ok in Hi as (v1 & H1 & Hi). apply py_get_Ok in H1 as (d & -> & ->).
    simpl in Hi. injection Hi as <-. by exists (d :: ds).
Qed.

Lemma author_info_entry auth info :
  author_info auth = Ok info ->
  exists a author insts,
    auth = VDict a /\
    dict_get a "author" (VDict []) = VDict author /\
    collection auth "institutions" = Ok (map VDict insts) /\
    info = author_entry a author insts.
Proof.
  unfold author_info. intros H.
  apply bind_Ok in H as (a1 & Ha & H). apply py_get_default_Ok in Ha as (a & -> & ->).
  apply bind_Ok in H as (v1 & H1 & H). apply py_get_Ok in H1 as (author & Hauthor & ->).
  cbn [py_get_default bind] in H. rewrite Hauthor in H.
  cbn [py_get py_get_default bind] in H.
  apply bind_Ok in H as (insts & Hinsts & H).
  apply bind_Ok in H as (infos & Hinfos & [= <-]).
  apply institution_infos_Ok in Hinfos as (ds & -> & ->).
  by exists a, author, ds.
Qed.

(* ===================================================================== *)
(** * Lists in strict order are determined by their members *)
(* ===================================================================== *)

Lemma ascending_unique l1 l2 :
  ascending l1 -> ascending l2 -> (forall s, s ∈ l1 <-> s ∈ l2) -> l1 = l2.
Proof.
  revert l2. induction l1 as [|x l1 IH]; intros l2 H1 H2 Hm.
  - destruct l2 as [|y l2]; [done|]. exfalso. eapply not_elem_of_nil, Hm. left.
  - destruct l2 as [|y l2]; [exfalso; eapply not_elem_of_nil, Hm; left|].
    apply StronglySorted_inv in H1 as [H1 Hx], H2 as [H2 Hy].
    rewrite Forall_forall in Hx, Hy.
    assert (x = y) as <-.
    { assert (x ∈ y :: l2) as Hxy by (apply Hm; left).
      assert (y ∈ x :: l1) as Hyx by (apply Hm; left).
      apply elem_of_cons in Hxy as [->|Hxy]; [done|].
      apply elem_of_cons in Hyx as [->|Hyx]; [done|].
      exfalso. apply (str_lt_irrefl x).
      eapply str_lt_trans; [apply Hx, Hyx|apply Hy, Hxy]. }
    f_equal. apply IH; try done. intros s. split; intros Hs.
    + assert (s ∈ x :: l2) as Hs' by (apply Hm; by right).
      apply elem_of_cons in Hs' as [->|]; [|done].
      exfalso. eapply str_lt_irrefl, Hx, Hs.
    + assert (s ∈ x :: l1) as Hs' by (apply Hm; by right).
      apply elem_of_cons in Hs' as [->|]; [|done].
      exfalso. eapply str_lt_irrefl, Hy, Hs.
Qed.

Lemma sorted_strings_same_members xs ys :
  (forall s, s ∈ xs <-> s ∈ ys) -> sorted_strings xs = sorted_strings ys.
Proof.
  intros H. destruct (sorted_strings_spec xs) as (Hx & _ & Hxm).
  destruct (sorted_strings_spec ys) as (Hy & _ & Hym).
  apply ascending_unique; try done. intros s. by rewrite Hxm, Hym.
Qed.


Lemma elem_of_map_VStr s (l : list string) : VStr s ∈ map VStr l <-> s ∈ l.
Proof.
  rewrite list_elem_of_fmap. split.
  - by intros (t & [= ->] & Ht).
  - intros Hs. by exists s.
Qed.

Lemma same_members_strings (l1 l2 : list string) :
  (forall v : value, v ∈ map VStr l1 <-> v ∈ map VStr l2) ->
  forall s, s ∈ l1 <-> s ∈ l2.
Proof. intros H s. by rewrite <- !elem_of_map_VStr. Qed.

(* ===================================================================== *)
(** * The pager: what its steps leave alone *)
(* ===================================================================== *)

#[local] Instance keeps_files_preorder : PreOrder keeps_files.
Proof. split; [by intros w p|]. intros w1 w2 w3 H1 H2 p Hp. by apply H2, H1. Qed.

#[local] Instance page_effect_preorder year page : PreOrder (page_effect year page).
Proof.
  split.
  - intros w. repeat split; try done; lia.
  - intros w1 w2 w3 (Hs1 & Hk1 & Hf1 & Ht1 & Ho1) (Hs2 & Hk2 & Hf2 & Ht2 & Ho2).
    split; [congruence|]. split; [by etrans|]. split; [|split; [lia|by etrans]].
    intros p Hp1 Hp2 Hp3. by rewrite Hf2, Hf1.
Qed.

#[local] Instance run_effect_preorder year p0 : PreOrder (run_effect year p0).
Proof.
  split.
  - intros w. by repeat split.
  - intros w1 w2 w3 (Hk1 & Hf1 & Ho1) (Hk2 & Hf2 & Ho2).
    split; [by etrans|]. split; [|by etrans].
    intros p Hp. by rewrite Hf2, Hf1.
Qed.

Lemma respects_bind {A B} R `{!PreOrder R} (c : io A) (k : A -> io B) :
  respects R c -> (forall a, respects R (k a)) -> respects R (io_bind c k).
Proof.
  intros Hc Hk w. unfold io_bind. specialize (Hc w).
  destruct (c w) as [[a|e] w1]; simpl in *; [|done].
  etrans; [exact Hc|apply Hk].
Qed.

Lemma respects_lift {A} R `{!PreOrder R} (r : result A) : respects R (lift r).
Proof. by intros w. Qed.

Lemma respects_ret {A} R `{!PreOrder R} (a : A) : respects R (io_ret a).
Proof. by intros w. Qed.

Lemma is_Some_insert_keeps (m : gmap string string) q v p :
  is_Some (m !! p) -> is_Some (<[q := v]> m !! p).
Proof.
  intros Hp. destruct (decide (q = p)) as [->|Hne].
  - rewrite lookup_insert_eq. by eexists.
  - by rewrite lookup_insert_ne.
Qed.

Lemma print_page_effect year page line : respects (page_effect year page) (print line).
Proof.
  intros w. unfold page_effect, keeps_files. simpl.
  split_and!; try done; try lia. by apply prefix_app_r.
Qed.

Lemma sleep_page_effect year page n :
  0 <= n -> respects (page_effect year page) (sleep n).
Proof.
  intros Hn w. unfold page_effect, keeps_files. simpl. split_and!; try done; lia.
Qed.

Lemma open_file_page_effect year page q m :
  q = output_file year \/ q = iteration_file year page \/ q = cursor_file year page ->
  respects (page_effect year page) (open_file q m).
Proof.
  intros Hq w. unfold page_effect, keeps_files. simpl. split_and!; try done; try lia.
  - intros p. apply is_Some_insert_keeps.
  - intros p H1 H2 H3. rewrite lookup_insert_ne; [done|]. naive_solver.
Qed.

Lemma write_page_effect year page q t :
  q = output_file year \/ q = iteration_file year page \/ q = cursor_file year page ->
  respects (page_effect year page) (write q t).
Proof.
  intros Hq w. unfold page_effect, keeps_files. simpl. split_and!; try done; try lia.
  - intros p. apply is_Some_insert_keeps.
  - intros p H1 H2 H3. rewrite lookup_insert_ne; [done|]. naive_solver.
Qed.

Lemma py_len_iter v works :
  py_iter v = Ok works -> py_len v = Ok (Z.of_nat (length works)).
Proof.
  destruct v; simpl; try done; intros [= <-]; try done.
  - f_equal. f_equal. induction s as [|c s IH]; simpl; congruence.
  - by rewrite length_map.
Qed.

Lemma lookup_content w p s :
  is_Some (files w !! p) -> content_of w p = s -> files w !! p = Some s.
Proof. unfold content_of. by intros [t ->]; simpl; intros ->. Qed.

Lemma io_bind_write {B} q t (k : unit -> io B) w :
  io_bind (write q t) k w = k tt (snd (write q t w)).
Proof. reflexivity. Qed.

Lemma io_bind_open_file {B} q m (k : unit -> io B) w :
  io_bind (open_file q m) k w = k tt (snd (open_file q m w)).
Proof. reflexivity. Qed.

Lemma io_bind_print {B} line (k : unit -> io B) w :
  io_bind (print line) k w = k tt (snd (print line w)).
Proof. reflexivity. Qed.

Lemma io_bind_sleep {B} n (k : unit -> io B) w :
  io_bind (sleep n) k w = k tt (snd (sleep n w)).
Proof. reflexivity. Qed.

Lemma io_bind_lift_Ok {A B} (r : result A) a (k : A -> io B) w :
  r = Ok a -> io_bind (lift r) k w = k a w.
Proof. by intros ->. Qed.

Lemma io_bind_lift_Raise {A B} (r : result A) e (k : A -> io B) w :
  r = Raise e -> io_bind (lift r) k w = (Raise e, w).
Proof. by intros ->. Qed.

Section PagerEffects.

Variable json_dumps : value -> string.
Variable server : list params -> params -> response.

Lemma write_works_page_effect year page works :
  respects (page_effect year page) (write_works json_dumps year page works).
Proof.
  induction works as [|work works IH]; [apply respects_ret; apply _|].
  cbn [write_works].
  apply respects_bind; [apply _|apply respects_lift; apply _|]. intros flat.
  apply respects_bind; [apply _|apply write_page_effect; auto|]. intros _.
  apply respects_bind; [apply _|apply write_page_effect; auto|]. intros _.
  apply IH.
Qed.

(** The works written before the first one the flattener rejects. *)
Lemma write_works_inv year page works w r w' :
  write_works json_dumps year page works w = (r, w') ->
  slept w' = slept w /\
  (forall p, p <> output_file year -> p <> iteration_file year page ->
             files w' !! p = files w !! p) /\
  exists pre flats,
    mapM enhance_work_data pre = Ok flats /\
    content_of w' (output_file year)
      = content_of w (output_file year) +:+ lines_of json_dumps flats /\
    content_of w' (iteration_file year page)
      = content_of w (iteration_file year page) +:+ lines_of json_dumps flats /\
    match r with
    | Ok _ => pre = works
    | Raise e =>
        exists bad post, works = pre ++ bad :: post /\ enhance_work_data bad = Raise e
    end.
Proof.
  revert w. induction works as [|work works IH]; intros w; cbn [write_works].
  - intros [= <- <-]. split; [done|]. split; [done|].
    exists [], []. unfold lines_of. simpl. by rewrite !string_app_nil_r.
  - unfold io_bind at 1, lift. destruct (enhance_work_data work) as [flat|e] eqn:Eflat.
    + rewrite !io_bind_write. intros H.
      apply IH in H as (Hslept & Hframe & pre & flats & Hpre & Hout & Hpage & Hr).
      split; [done|]. split.
      { intros p Hp1 Hp2. rewrite Hframe by done. cbn [snd write files].
        by rewrite !lookup_insert_ne. }
      pose proof (iteration_file_not_output year page) as Hne.
      repeat rewrite content_of_write in Hout. repeat rewrite content_of_write in Hpage.
      destruct (decide (output_file year = iteration_file year page)) as [Heq|_];
        [by destruct Hne|].
      destruct (decide (iteration_file year page = output_file year)) as [?|_]; [done|].
      rewrite decide_True in Hout by done. rewrite decide_True in Hpage by done.
      exists (work :: pre), (flat :: flats). split; [|split; [|split]].
      * cbn [mapM]. by rewrite Eflat, Hpre.
      * rewrite Hout. unfold lines_of. cbn [map concat_lines].
        by rewrite !string_app_assoc, app_String, app_empty.
      * rewrite Hpage. unfold lines_of. cbn [map concat_lines].
        by rewrite !string_app_assoc, app_String, app_empty.
      * destruct r as [u|e]; [by rewrite Hr|].
        destruct Hr as (bad & post & -> & Hbad). by exists bad, post.
    + intros [= <- <-]. split; [done|]. split; [done|].
      exists [], []. unfold lines_of. simpl.
      rewrite !string_app_nil_r. repeat split. by exists work, works.
Qed.

Ltac respects_step :=
  lazymatch goal with
  | |- respects _ (if ?b then _ else _) => destruct b
  | |- respects _ (io_bind _ _) => apply respects_bind; [apply _| |intros ?]
  | |- respects _ (io_ret _) => apply respects_ret; apply _
  | |- respects _ (lift _) => apply respects_lift; apply _
  | |- respects _ (print _) => apply print_page_effect
  | |- respects _ (sleep _) => apply sleep_page_effect; lia
  | |- respects _ (open_file _ _) => apply open_file_page_effect; auto
  | |- respects _ (write _ _) => apply write_page_effect; auto
  | |- respects _ (write_works _ _ _ _) => apply write_works_page_effect
  end.

Lemma fetch_page_effect year l w :
  let w1 := snd (fetch_page json_dumps server year l w) in
  sent w1 = sent w ++ [loc_params l] /\
  keeps_files w w1 /\
  (forall p, p <> output_file year -> p <> iteration_file year (page_count l + 1) ->
             p <> cursor_file year (page_count l + 1) -> files w1 !! p = files w !! p) /\
  slept w <= slept w1 /\
  stdout w `prefix_of` stdout w1.
Proof.
  unfold fetch_page. rewrite io_bind_print. unfold io_bind at 1, requests_get.
  cbn [snd fst files stdout sent slept print].
  match goal with
  | |- context [snd (?k ?w0)] =>
      assert (respects (page_effect year (page_count l + 1)) k) as Hk;
        [|specialize (Hk w0); destruct Hk as (Hs & Hk & Hf & Ht & Ho)]
  end.
  { repeat respects_step. }
  cbn [snd fst files stdout sent slept] in *.
  split; [done|]. split; [done|]. split; [done|]. split; [done|].
  etrans; [|exact Ho]. by apply prefix_app_r.
Qed.

(** What a turn of the loop that raises nothing has done. *)
Lemma fetch_page_inv year l w l1 ex w1 :
  fetch_page json_dumps server year l w = (Ok (l1, ex), w1) ->
  let resp := server (sent w) (loc_params l) in
  let page := page_count l + 1 in
  page_count l1 = page /\
  param_filter (loc_params l1) = param_filter (loc_params l) /\
  param_per_page (loc_params l1) = param_per_page (loc_params l) /\
  match ex with
  | Some ByBreak =>
      status_code resp <> 200 /\
      l1 = Locals (loc_params l) (total_downloaded l) page /\
      files w1 = files w /\ slept w1 = slept w
  | _ =>
      status_code resp = 200 /\ slept w1 = slept w + 1 /\
      exists works flats,
        page_works resp = Ok works /\
        mapM enhance_work_data works = Ok flats /\
        total_downloaded l1 = total_downloaded l + Z.of_nat (length works) /\
        files w1 !! iteration_file year page = Some (lines_of json_dumps flats) /\
        content_of w1 (output_file year)
          = content_of w (output_file year) +:+ lines_of json_dumps flats /\
        match ex with
        | None =>
            exists c, next_cursor resp = Some (VStr c) /\ c <> EmptyString /\
              files w1 !! cursor_file year page = Some c /\
              param_cursor (loc_params l1) = c
        | _ =>
            exists v, next_cursor resp = Some v /\ truthy v = false /\
              files w1 !! cursor_file year page = files w !! cursor_file year page /\
              loc_params l1 = loc_params l
        end
  end.
Proof.
  intros H resp page. unfold fetch_page in H. rewrite io_bind_print in H.
  unfold io_bind at 1, requests_get in H. cbn [snd fst files stdout sent slept print] in H.
  fold resp page in H.
  destruct (Z.eqb_spec (status_code resp) 200) as [Hst|Hst]; cbn [negb] in H.
  2:{ rewrite io_bind_print in H. by injection H as <- <- <-. }
  set (wb := World _ _ _ _) in H.
  assert (forall p, content_of wb p = content_of w p) as Hwb by done.
  apply io_bind_Ok in H as (results & wc & Hc & H). apply lift_Ok in Hc as [Hresults ->].
  rewrite io_bind_open_file in H.
  apply io_bind_Ok in H as (works & we & He & H). apply lift_Ok in He as [Hworks ->].
  apply io_bind_Ok in H as ([] & wf & Hf & H).
  pose proof (write_works_page_effect year page works
                (snd (open_file (iteration_file year page) ModeW wb))) as Heff.
  rewrite Hf in Heff. destruct Heff as (_ & Hkeep & _ & _ & _).
  apply write_works_inv in Hf as (Hslept & Hframe & pre & flats & Hflats & Hout & Hpage & ->).
  pose proof (iteration_file_not_output year page) as Hne.
  rewrite content_of_open_file, decide_False, Hwb in Hout by done.
  rewrite content_of_open_file, decide_True, app_empty in Hpage by done.
  assert (files wf !! iteration_file year page = Some (lines_of json_dumps flats))
    as Hfile.
  { apply lookup_content; [|done]. apply Hkeep. cbn [snd open_file files].
    rewrite lookup_insert_eq. by eexists. }
  change (slept wf = slept w) in Hslept.
  assert (files wf !! cursor_file year page = files w !! cursor_file year page) as Hcur.
  { rewrite Hframe.
    - cbn [snd open_file files]. rewrite lookup_insert_ne; [done|].
      apply not_eq_sym, cursor_file_not_iteration.
    - apply cursor_file_not_output.
    - apply cursor_file_not_iteration. }
  clear Hframe Hkeep.
  assert (page_works resp = Ok works) as Hpw.
  { unfold page_works. by rewrite Hresults. }
  apply io_bind_Ok in H as (n & wg & Hg & H). apply lift_Ok in Hg as [Hn ->].
  rewrite (py_len_iter _ _ Hworks) in Hn. injection Hn as <-.
  rewrite io_bind_print in H.
  apply io_bind_Ok in H as (meta & wi & Hi & H). apply lift_Ok in Hi as [Hmeta ->].
  apply io_bind_Ok in H as (next & wj & Hj & H). apply lift_Ok in Hj as [Hnext ->].
  assert (next_cursor resp = Some next) as Hnc.
  { unfold next_cursor. apply py_get_Ok in Hnext as (m & -> & ->).
    destruct (json resp) as [| | | | | |d]; try done. simpl in Hmeta.
    by destruct (dict_lookup "meta" d) as [v|]; [injection Hmeta as ->|]. }
  destruct (truthy next) eqn:Hnext_truthy.
  - rewrite io_bind_open_file in H.
    apply io_bind_Ok in H as (c & wl & Hl & H). apply lift_Ok in Hl as [Hc ->].
    destruct next; try done. injection Hc as ->.
    rewrite io_bind_write, io_bind_sleep in H. injection H as <- <- <-.
    cbn [page_count loc_params param_filter param_per_page total_downloaded
         param_cursor snd sleep write open_file print slept files].
    split; [done|]. split; [done|]. split; [done|]. split; [done|].
    split; [lia|]. exists works, flats.
    split; [done|]. split; [done|]. split; [done|].
    pose proof (cursor_file_not_iteration year page page) as Hci.
    pose proof (cursor_file_not_output year page) as Hco.
    split; [by rewrite lookup_insert_ne, lookup_insert_ne|].
    split.
    { unfold content_of. cbn [files]. by rewrite lookup_insert_ne, lookup_insert_ne. }
    exists c. split; [done|]. split.
    { intros ->. done. }
    split; [|done]. by rewrite lookup_insert_eq, lookup_insert_eq.
  - rewrite io_bind_sleep in H. injection H as <- <- <-.
    cbn [page_count loc_params param_filter param_per_page total_downloaded
         snd sleep print slept files].
    split; [done|]. split; [done|]. split; [done|]. split; [done|].
    split; [lia|]. exists works, flats.
    split; [done|]. split; [done|]. split; [done|]. split; [done|].
    split; [done|]. by exists next.
Qed.

Lemma run_path_mono year p0 p1 p : p0 <= p1 -> run_path year p1 p -> run_path year p0 p.
Proof.
  intros Hle [->|(i & Hi & H)]; [by left|]. right. exists i. split; [lia|done].
Qed.

Lemma page_run_effect year p0 w w' :
  keeps_files w w' ->
  (forall p, p <> output_file year -> p <> iteration_file year (p0 + 1) ->
             p <> cursor_file year (p0 + 1) -> files w' !! p = files w !! p) ->
  stdout w `prefix_of` stdout w' ->
  run_effect year p0 w w'.
Proof.
  intros Hk Hf Ho. split; [done|]. split; [|done].
  intros p Hp. apply Hf; intros ->; apply Hp.
  - by left.
  - right. exists (p0 + 1). split; [lia|by left].
  - right. exists (p0 + 1). split; [lia|by right].
Qed.

Lemma run_effect_mono year p0 p1 w w' :
  p0 <= p1 -> run_effect year p1 w w' -> run_effect year p0 w w'.
Proof.
  intros Hle (Hk & Hf & Ho). split; [done|]. split; [|done].
  intros p Hp. apply Hf. intros Hp'. by apply Hp, (run_path_mono year p0 p1).
Qed.

(** Whatever becomes of the loop, it deletes no file and writes to none
    but the output file and the files of the pages it asks for. *)
Lemma fetch_pages_effect fuel year l w :
  run_effect year (page_count l) w (snd (fetch_pages json_dumps server fuel year l w)).
Proof.
  revert l w. induction fuel as [|fuel IH]; intros l w; [reflexivity|].
  cbn [fetch_pages]. unfold io_bind.
  pose proof (fetch_page_effect year l w) as (_ & Hk & Hf & Ht & Ho).
  assert (run_effect year (page_count l) w (snd (fetch_page json_dumps server year l w)))
    as Hstep.
  { by apply page_run_effect. }
  destruct (fetch_page json_dumps server year l w) as [[[l1 [e|]]|e] w1] eqn:E;
    cbn [snd] in *; try done.
  etrans; [exact Hstep|].
  apply fetch_page_inv in E as (Hpc & _).
  apply (run_effect_mono year (page_count l) (page_count l1)); [lia|apply IH].
Qed.

(** The requests of the loop, whatever becomes of it: one per turn, each
    with the filter and the page size the loop started with, the first
    with the cursor it started with, each later one with the cursor the
    answer before it gave. *)
Lemma fetch_pages_sent fuel year l w :
  exists new,
    sent (snd (fetch_pages json_dumps server fuel year l w)) = sent w ++ new /\
    Forall (fun q => param_filter q = param_filter (loc_params l) /\
                     param_per_page q = param_per_page (loc_params l)) new /\
    chained server (sent w) new /\
    head new = match fuel with O => None | S _ => Some (loc_params l) end /\
    forall r, fst (fetch_pages json_dumps server fuel year l w) = Ok r ->
              Z.of_nat (length new) = pages_requested fuel (page_count l) r.
Proof.
  revert l w. induction fuel as [|fuel IH]; intros l w.
  { exists []. cbn. rewrite app_nil_r. split_and!; try done. by intros r [= <-]. }
  cbn [fetch_pages]. unfold io_bind.
  pose proof (fetch_page_effect year l w) as (Hsent & _).
  destruct (fetch_page json_dumps server year l w) as [[[l1 [e|]]|e] w1] eqn:E;
    cbn [snd fst] in *.
  - exists [loc_params l]. split_and!; try done; [by repeat constructor|].
    intros r [= <-]. apply fetch_page_inv in E as (Hpc & _). cbn. lia.
  - apply fetch_page_inv in E as (Hpc & Hfilter & Hper & _ & _ & works & flats & _ & _
                                  & _ & _ & _ & c & Hnext & _ & _ & Hc).
    destruct (IH l1 w1) as (new & Hnew & Hall & Hchain & Hhead & Hcount).
    exists (loc_params l :: new). split_and!.
    + by rewrite Hnew, Hsent, <- app_assoc.
    + constructor; [done|]. eapply Forall_impl; [exact Hall|].
      intros q [? ?]. split; congruence.
    + cbn [chained]. rewrite <- Hsent. split; [|done].
      destruct new as [|q' new]; [done|]. destruct fuel; [done|].
      injection Hhead as ->. by rewrite Hc.
    + done.
    + intros r Hr. specialize (Hcount r Hr). cbn [length].
      destruct r as [[l' e']|]; cbn [pages_requested] in *; lia.
  - exists [loc_params l]. split_and!; try done. by repeat constructor.
Qed.

(** Whether the works of a page are all written depends on the flattener
    alone. *)
Lemma write_works_fst year page works w :
  fst (write_works json_dumps year page works w)
  = match mapM enhance_work_data works with Ok _ => Ok tt | Raise e => Raise e end.
Proof.
  revert w. induction works as [|work works IH]; intros w; [done|].
  cbn [write_works mapM]. unfold io_bind at 1, lift.
  destruct (enhance_work_data work) as [flat|e]; [|done].
  rewrite !io_bind_write, IH. cbn [bind]. by destruct (mapM enhance_work_data works).
Qed.

Lemma write_works_stdout year page works w :
  stdout (snd (write_works json_dumps year page works w)) = stdout w /\
  sent (snd (write_works json_dumps year page works w)) = sent w.
Proof.
  revert w. induction works as [|work works IH]; intros w; [done|].
  cbn [write_works]. destruct (enhance_work_data work) as [flat|e] eqn:E.
  - rewrite !(io_bind_lift_Ok _ flat), !io_bind_write by done.
    destruct (IH (snd (write (output_file year)
      (json_dumps (VDict flat) +:+ String LF EmptyString)
      (snd (write (iteration_file year page)
              (json_dumps (VDict flat) +:+ String LF EmptyString) w))))) as [H1 H2].
    split; [by rewrite H1|by rewrite H2].
  - by rewrite !(io_bind_lift_Raise _ e) by done.
Qed.

Lemma mapM_Raise {A B} (f : A -> result B) xs e :
  mapM f xs = Raise e ->
  exists pre bad post ys,
    xs = pre ++ bad :: post /\ mapM f pre = Ok ys /\ f bad = Raise e.
Proof.
  induction xs as [|x xs IH]; [done|]. cbn [mapM]. intros H.
  apply bind_Raise in H as [H|(y & Hy & H)].
  - by exists [], x, xs, [].
  - apply bind_Raise in H as [H|(ys & Hys & H)]; [|done].
    destruct (IH H) as (pre & bad & post & ys & -> & Hpre & Hbad).
    exists (x :: pre), bad, post, (y :: ys). split; [done|]. split; [|done].
    cbn [mapM]. by rewrite Hy, Hpre.
Qed.

Lemma page_works_Ok resp works :
  page_works resp = Ok works ->
  exists d, json resp = VDict d /\ py_iter (dict_get d "results" (VList [])) = Ok works.
Proof.
  unfold page_works. intros H. apply bind_Ok in H as (results & Hr & H).
  apply py_get_default_Ok in Hr as (d & Hd & ->). by exists d.
Qed.

(** The start of a turn whose request is answered with status 200 and a
    body whose works can be iterated: the page file is created empty and the
    works are written. *)
Lemma fetch_page_start year l w works :
  status_code (server (sent w) (loc_params l)) = 200 ->
  page_works (server (sent w) (loc_params l)) = Ok works ->
  exists k,
    fetch_page json_dumps server year l w
    = io_bind (write_works json_dumps year (page_count l + 1) works) k
        (World (<[iteration_file year (page_count l + 1) := EmptyString]> (files w))
               (stdout w ++ ["Fetching page " +:+ str_of_int (page_count l + 1)
                              +:+ " for " +:+ str_of_int year +:+ "..."])
               (sent w ++ [loc_params l]) (slept w)) /\
    forall wf,
      k tt wf
      = (print ("Saved " +:+ str_of_int (Z.of_nat (length works))
                +:+ " articles. Total so far: "
                +:+ str_of_int (total_downloaded l + Z.of_nat (length works))) ;;;
         meta <~ lift (py_getitem (json (server (sent w) (loc_params l))) "meta") ;;
         next_cursor <~ lift (py_get meta "next_cursor") ;;
         if truthy next_cursor then
           open_file (cursor_file year (page_count l + 1)) ModeW ;;;
           c <~ lift (as_str next_cursor) ;;
           write (cursor_file year (page_count l + 1)) c ;;;
           sleep 1 ;;;
           io_ret (Locals (Params (param_filter (loc_params l))
                                  (param_per_page (loc_params l)) c)
                          (total_downloaded l + Z.of_nat (length works))
                          (page_count l + 1), None)
         else
           sleep 1 ;;;
           io_ret (Locals (loc_params l)
                          (total_downloaded l + Z.of_nat (length works))
                          (page_count l + 1), Some NoMorePages)) wf.
Proof.
  intros Hst Hworks. apply page_works_Ok in Hworks as (d & Hd & Hworks).
  unfold fetch_page. rewrite io_bind_print. unfold io_bind at 1, requests_get.
  cbn [snd fst files stdout sent slept print]. rewrite Hst, Hd. cbn [negb Z.eqb Pos.eqb].
  rewrite (io_bind_lift_Ok _ (dict_get d "results" (VList []))) by done.
  rewrite io_bind_open_file. cbn [snd open_file files stdout sent slept].
  rewrite (io_bind_lift_Ok _ works) by done.
  eexists. split; [reflexivity|]. intros wf. cbn beta.
  by rewrite (io_bind_lift_Ok _ (Z.of_nat (length works))) by by apply py_len_iter.
Qed.

(** An exception raised in the first turn ends the run there. *)
Lemma loop_raises fuel year l w e w1 :
  fetch_page json_dumps server year l w = (Raise e, w1) ->
  (r <~ fetch_pages json_dumps server (S fuel) year l ;; report_done year r) w
  = (Raise e, w1).
Proof. intros H. cbn [fetch_pages]. unfold io_bind. by rewrite H. Qed.

(** The files once the works of a page are written, or written up to the
    first one the flattener rejects. *)
Lemma page_files_written year l w works r wf :
  write_works json_dumps year (page_count l + 1) works
    (World (<[iteration_file year (page_count l + 1) := EmptyString]> (files w))
           (stdout w ++ ["Fetching page " +:+ str_of_int (page_count l + 1)
                          +:+ " for " +:+ str_of_int year +:+ "..."])
           (sent w ++ [loc_params l]) (slept w)) = (r, wf) ->
  exists pre flats,
    mapM enhance_work_data pre = Ok flats /\
    match r with
    | Ok _ => pre = works
    | Raise e =>
        exists bad post, works = pre ++ bad :: post /\ enhance_work_data bad = Raise e
    end /\
    files wf !! iteration_file year (page_count l + 1)
      = Some (lines_of json_dumps flats) /\
    content_of wf (output_file year)
      = content_of w (output_file year) +:+ lines_of json_dumps flats /\
    files wf !! cursor_file year (page_count l + 1)
      = files w !! cursor_file year (page_count l + 1) /\
    slept wf = slept w /\
    sent wf = sent w ++ [loc_params l] /\
    stdout wf = stdout w ++ ["Fetching page " +:+ str_of_int (page_count l + 1)
                              +:+ " for " +:+ str_of_int year +:+ "..."].
Proof.
  set (page := page_count l + 1). set (w0 := World _ _ _ _). intros H.
  pose proof (write_works_page_effect year page works w0) as Heff.
  pose proof (write_works_stdout year page works w0) as [Hstdout Hsent].
  rewrite H in Heff, Hstdout, Hsent. destruct Heff as (_ & Hkeep & _).
  apply write_works_inv in H as (Hslept & Hframe & pre & flats & Hpre & Hout & Hpage & Hr).
  pose proof (iteration_file_not_output year page) as Hne.
  exists pre, flats. split; [done|]. split; [done|]. split_and!; try done.
  - apply lookup_content.
    + apply Hkeep. cbn [w0 files]. rewrite lookup_insert_eq. by eexists.
    + rewrite Hpage. unfold content_of. cbn [w0 files].
      by rewrite lookup_insert_eq, app_empty.
  - rewrite Hout. unfold content_of. cbn [w0 files]. by rewrite lookup_insert_ne.
  - rewrite Hframe.
    + cbn [w0 files]. rewrite lookup_insert_ne; [done|].
      apply not_eq_sym, cursor_file_not_iteration.
    + apply cursor_file_not_output.
    + apply cursor_file_not_iteration.
Qed.

(** A turn whose request fails. *)
Lemma fetch_page_break year l w :
  status_code (server (sent w) (loc_params l)) <> 200 ->
  fetch_page json_dumps server year l w
  = (Ok (Locals (loc_params l) (total_downloaded l) (page_count l + 1), Some ByBreak),
     World (files w)
           (stdout w ++ ["Fetching page " +:+ str_of_int (page_count l + 1)
                          +:+ " for " +:+ str_of_int year +:+ "...";
                         "HTTP Error "
                         +:+ str_of_int (status_code (server (sent w) (loc_params l)))])
           (sent w ++ [loc_params l]) (slept w)).
Proof.
  intros Hst. unfold fetch_page. rewrite io_bind_print. unfold io_bind at 1, requests_get.
  cbn [snd fst files stdout sent slept print].
  destruct (Z.eqb_spec (status_code (server (sent w) (loc_params l))) 200); [done|].
  cbn [negb]. rewrite io_bind_print. cbn [snd fst files stdout sent slept print io_ret].
  by rewrite <- app_assoc.
Qed.

(** A turn whose page is written and whose answer has a further cursor goes
    on. *)
Lemma fetch_page_continues year l w works flats c :
  status_code (server (sent w) (loc_params l)) = 200 ->
  page_works (server (sent w) (loc_params l)) = Ok works ->
  mapM enhance_work_data works = Ok flats ->
  next_cursor (server (sent w) (loc_params l)) = Some (VStr c) ->
  c <> EmptyString ->
  exists l1 w1, fetch_page json_dumps server year l w = (Ok (l1, None), w1).
Proof.
  intros Hst Hworks Hflat Hnext Hc.
  destruct (fetch_page_start year l w works Hst Hworks) as (k & Hk & Hk').
  set (w0 := World _ _ _ _) in Hk.
  pose proof (write_works_fst year (page_count l + 1) works w0) as Hfst.
  destruct (write_works json_dumps year (page_count l + 1) works w0) as [r wf] eqn:Ef.
  rewrite Hflat in Hfst. cbn [fst] in Hfst. subst r.
  rewrite Hk. unfold io_bind at 1. rewrite Ef, Hk', io_bind_print.
  unfold next_cursor in Hnext.
  destruct (json (server (sent w) (loc_params l))) as [| | | | | |d]; try done.
  cbn [py_getitem]. destruct (dict_lookup "meta" d) as [[| | | | | |meta]|]; try done.
  injection Hnext as Hnext.
  rewrite (io_bind_lift_Ok _ (VDict meta)) by done.
  rewrite (io_bind_lift_Ok _ (VStr c)) by (cbn; by rewrite Hnext).
  assert (truthy (VStr c) = true) as ->.
  { cbn. destruct (String.eqb_spec c EmptyString); done. }
  rewrite io_bind_open_file, (io_bind_lift_Ok _ c), io_bind_write, io_bind_sleep by done.
  by eexists _, _.
Qed.

(** A loop that raises nothing: the seconds slept, and the checkpoint a
    loop left by [break] leaves behind. *)
Lemma fetch_pages_Ok fuel year l w r w' :
  fetch_pages json_dumps server fuel year l w = (Ok r, w') ->
  let last := last_written fuel (page_count l) r in
  page_count l <= last /\
  slept w' = slept w + (last - page_count l) /\
  match r with
  | Some (l', e) =>
      param_filter (loc_params l') = param_filter (loc_params l) /\
      param_per_page (loc_params l') = param_per_page (loc_params l) /\
      (last = page_count l -> loc_params l' = loc_params l /\ files w' = files w) /\
      (page_count l < last -> e = ByBreak ->
       files w' !! cursor_file year last = Some (param_cursor (loc_params l')))
  | None => True
  end.
Proof.
  revert l w. induction fuel as [|fuel IH]; intros l w.
  { intros [= <- <-]. cbn. split; [lia|]. split; [lia|done]. }
  cbn [fetch_pages]. intros H.
  apply io_bind_Ok in H as ([l1 ex] & w1 & Hpage & H).
  pose proof (fetch_pages_effect fuel year l1 w1) as (_ & Hframe & _).
  apply fetch_page_inv in Hpage as (Hpc & Hfilter & Hper & Hpage).
  destruct ex as [[]|].
  - injection H as <- <-. destruct Hpage as (_ & -> & Hfiles & Hslept).
    cbn [last_written page_count loc_params]. split; [lia|]. split; [lia|].
    split; [done|]. split; [done|]. split; [done|]. lia.
  - injection H as <- <-. destruct Hpage as (_ & Hslept & _).
    cbn [last_written]. split; [lia|]. split; [lia|].
    split; [done|]. split; [done|]. split; [lia|]. done.
  - destruct Hpage as (_ & Hslept & works & flats & _ & _ & _ & _ & _
                       & c & _ & _ & Hcursor & Hc).
    rewrite H in Hframe. cbn [snd] in Hframe.
    apply IH in H as (Hlast & Hslept' & Hr).
    assert (last_written fuel (page_count l1) r = last_written (S fuel) (page_count l) r)
      as Heq.
    { destruct r as [[? []]|]; cbn [last_written]; lia. }
    rewrite Heq in Hlast, Hslept', Hr. cbn zeta.
    set (last := last_written (S fuel) (page_count l) r) in *.
    split; [lia|]. split; [lia|].
    destruct r as [[l' e]|]; [|done].
    destruct Hr as (Hfilter' & Hper' & Hsame & Hcur).
    split; [congruence|]. split; [congruence|]. split; [lia|].
    intros _ He. destruct (decide (last = page_count l1)) as [Hl|Hl].
    + destruct (Hsame Hl) as [-> Hfiles]. by rewrite Hl, Hpc, Hfiles, Hc.
    + apply Hcur; [lia|done].
Qed.

End PagerEffects.

Lemma cursor_file_inj year i j : cursor_file year i = cursor_file year j -> i = j.
Proof.
  unfold cursor_file, path_join. intros H.
  do 3 apply (inj (String.append _)) in H.
  by apply string_app_inj_r, str_of_int_inj in H.
Qed.

Lemma iteration_file_not_run_path year p0 i :
  i <= p0 -> ~ run_path year p0 (iteration_file year i).
Proof.
  intros Hi [H|(j & Hj & [H|H])].
  - by apply iteration_file_not_output in H.
  - apply iteration_file_inj in H. lia.
  - symmetry in H. by apply cursor_file_not_iteration in H.
Qed.

Lemma cursor_file_not_run_path year p0 i :
  i <= p0 -> ~ run_path year p0 (cursor_file year i).
Proof.
  intros Hi [H|(j & Hj & [H|H])].
  - by apply cursor_file_not_output in H.
  - by apply cursor_file_not_iteration in H.
  - apply cursor_file_inj in H. lia.
Qed.

Section PagerTotals.

Variable json_dumps : value -> string.
Variable server : list params -> params -> response.
Hypothesis json_dumps_one_line : forall v, one_line (json_dumps v) = true.

Lemma file_lines_of w p flats :
  content_of w p = lines_of json_dumps flats -> file_lines w p = Z.of_nat (length flats).
Proof.
  intros H. unfold file_lines. rewrite H. unfold lines_of.
  destruct (count_lines_concat EmptyString
              (map (fun flat => json_dumps (VDict flat)) flats) eq_refl) as [Hn _].
  { apply Forall_forall. intros s Hs. apply list_elem_of_fmap in Hs as (f & -> & _).
    apply json_dumps_one_line. }
  rewrite app_empty in Hn. rewrite Hn, length_map. done.
Qed.

(** The total the loop ends with is the one it started with plus the lines
    of the page files it wrote. *)
Lemma fetch_pages_total fuel year l w l' e w' :
  fetch_pages json_dumps server fuel year l w = (Ok (Some (l', e)), w') ->
  let last := last_written fuel (page_count l) (Some (l', e)) in
  total_downloaded l'
  = total_downloaded l + pages_lines year w' (seqZ (page_count l + 1) (last - page_count l)).
Proof.
  revert l w. induction fuel as [|fuel IH]; intros l w; [done|].
  cbn [fetch_pages]. intros H.
  apply io_bind_Ok in H as ([l1 ex] & w1 & Hpage & H).
  pose proof (fetch_pages_effect json_dumps server fuel year l1 w1) as (_ & Hframe & _).
  apply fetch_page_inv in Hpage as (Hpc & _ & _ & Hpage).
  assert (forall works flats w2,
    mapM enhance_work_data works = Ok flats ->
    files w2 !! iteration_file year (page_count l + 1) = Some (lines_of json_dumps flats) ->
    file_lines w2 (iteration_file year (page_count l + 1)) = Z.of_nat (length works))
    as Hlines.
  { intros works flats w2 Hflats Hfile. apply mapM_Ok, Forall2_length in Hflats.
    rewrite Hflats. apply file_lines_of. unfold content_of. by rewrite Hfile. }
  destruct ex as [[]|].
  - injection H as <- <- <-. destruct Hpage as (_ & -> & _).
    cbn [last_written page_count total_downloaded].
    rewrite seqZ_nil by lia. cbn. lia.
  - injection H as <- <- <-.
    destruct Hpage as (_ & _ & works & flats & _ & Hflats & Htotal & Hfile & _).
    cbn [last_written]. rewrite Hpc.
    replace (page_count l + 1 - page_count l) with 1 by lia.
    rewrite seqZ_cons, seqZ_nil by lia. cbn [pages_lines].
    rewrite (Hlines works flats _ Hflats Hfile). lia.
  - destruct Hpage as (_ & _ & works & flats & _ & Hflats & Htotal & Hfile & _).
    rewrite H in Hframe. cbn [snd] in Hframe.
    pose proof (fetch_pages_Ok _ _ _ _ _ _ _ _ H) as (Hlast & _).
    apply IH in H.
    assert (last_written fuel (page_count l1) (Some (l', e))
            = last_written (S fuel) (page_count l) (Some (l', e))) as Heq.
    { destruct e; cbn [last_written]; lia. }
    rewrite Heq in H, Hlast. cbn zeta.
    set (last := last_written (S fuel) (page_count l) (Some (l', e))) in *.
    rewrite (seqZ_cons (page_count l + 1)) by lia. cbn [pages_lines].
    rewrite (Hlines works flats w'), H, Htotal, Hpc; try done.
    + replace (Z.succ (page_count l + 1)) with (page_count l + 1 + 1) by lia.
      replace (Z.pred (last - page_count l)) with (last - (page_count l + 1)) by lia.
      lia.
    + rewrite Hframe; [done|]. apply iteration_file_not_run_path. lia.
Qed.

End PagerTotals.

(* ===================================================================== *)
(** * The pager: a whole run *)
(* ===================================================================== *)

Lemma resume_setup_locals year resume w l0 m w1 :
  resume_setup year resume w = (Ok (l0, m), w1) ->
  param_filter (loc_params l0) = param_filter (initial_params year) /\
  param_per_page (loc_params l0) = 200 /\
  total_downloaded l0 = pages_lines year w (seqZ 1 (page_count l0)) /\
  (m = ModeW -> l0 = Locals (initial_params year) 0 0).
Proof.
  destruct resume as [R|]; [|by intros [= <- <- <-]].
  destruct (decide (R = 0)) as [->|HR]; [by intros [= <- <- <-]|].
  rewrite resume_setup_nonzero by done.
  destruct (files w !! cursor_file year (R - 1)); by intros [= <- <- <-].
Qed.

Lemma report_done_effect year r w :
  fst (report_done year r w) = Ok r /\
  files (snd (report_done year r w)) = files w /\
  sent (snd (report_done year r w)) = sent w /\
  slept (snd (report_done year r w)) = slept w /\
  stdout w `prefix_of` stdout (snd (report_done year r w)).
Proof.
  destruct r as [[l e]|]; cbn; split_and!; try done. by apply prefix_app_r.
Qed.

Section PagerRuns.

Variable json_dumps : value -> string.
Variable server : list params -> params -> response.

(** A run is its set-up, the opening of the output file, the loop and the
    last line. *)
Lemma run_unfold fuel year resume w l0 m :
  resume_setup year resume w = (Ok (l0, m), w) ->
  fetch_and_save_articles json_dumps server fuel year resume w
  = (r <~ fetch_pages json_dumps server fuel year l0 ;; report_done year r)
      (snd (open_file (output_file year) m w)).
Proof. intros H. unfold fetch_and_save_articles, io_bind at 1. by rewrite H. Qed.

(** The result of a run is that of its loop; so is its world, but for the
    last line printed. *)
Lemma run_loop fuel year resume w l0 m r w' :
  resume_setup year resume w = (Ok (l0, m), w) ->
  fetch_and_save_articles json_dumps server fuel year resume w = (r, w') ->
  let w0 := snd (open_file (output_file year) m w) in
  let out := fetch_pages json_dumps server fuel year l0 w0 in
  r = fst out /\ files w' = files (snd out) /\ sent w' = sent (snd out) /\
  slept w' = slept (snd out) /\ stdout (snd out) `prefix_of` stdout w'.
Proof.
  intros Hsetup Hrun. rewrite (run_unfold _ _ _ _ _ _ Hsetup) in Hrun.
  unfold io_bind in Hrun. cbn zeta.
  destruct (fetch_pages _ _ _ _ _ _) as [[r0|e] w1]; cbn [fst snd].
  - pose proof (report_done_effect year r0 w1) as (Hr & Hf & Hs & Ht & Ho).
    rewrite Hrun in Hr, Hf, Hs, Ht, Ho. cbn [fst snd] in *. by split_and!.
  - by injection Hrun as <- <-.
Qed.

End PagerRuns.

(* ===================================================================== *)
(** * Cursors read back, and the paths of different years *)
(* ===================================================================== *)

Lemma read_text_no_space s cr : no_space s = true -> read_text s cr = s.
Proof.
  revert cr. induction s as [|c s IH]; intros cr; [done|]. cbn [no_space read_text].
  intros H. apply andb_true_iff in H as [Hc Hs].
  assert (Ascii.eqb c LF = false) as ->.
  { destruct (Ascii.eqb_spec c LF) as [->|]; done. }
  assert (Ascii.eqb c CR = false) as ->.
  { destruct (Ascii.eqb_spec c CR) as [->|]; done. }
  by rewrite IH.
Qed.

Lemma rstrip_no_space s : no_space s = true -> rstrip s = s.
Proof.
  induction s as [|c s IH]; [done|]. cbn [no_space rstrip].
  intros H. apply andb_true_iff in H as [Hc Hs]. rewrite IH by done.
  destruct s; [|done]. by destruct (is_space c).
Qed.

Lemma strip_read_text_no_space s :
  no_space s = true -> strip (read_text s false) = s.
Proof.
  intros H. rewrite read_text_no_space by done. unfold strip.
  assert (lstrip s = s) as ->.
  { destruct s as [|c s]; [done|]. cbn [no_space lstrip] in *.
    apply andb_true_iff in H as [Hc _]. by destruct (is_space c). }
  by apply rstrip_no_space.
Qed.

Lemma free_of_split c (s t r1 r2 : string) :
  free_of c s = true -> free_of c t = true ->
  s +:+ String c r1 = t +:+ String c r2 -> s = t.
Proof.
  revert t. induction s as [|a s IH]; intros [|b t]; cbn [free_of];
    rewrite ?app_empty, ?app_String.
  - done.
  - intros _ H [= <- _]. by rewrite Ascii.eqb_refl in H.
  - intros H _ [= -> _]. by rewrite Ascii.eqb_refl in H.
  - intros Hs Ht [= -> H]. apply andb_true_iff in Hs as [_ Hs], Ht as [_ Ht].
    f_equal. by apply IH.
Qed.

Lemma str_of_int_free_of_underscore n : free_of "_" (str_of_int n) = true.
Proof.
  unfold str_of_int.
  assert (forall d, free_of "_" (NilEmpty.string_of_uint d) = true) as H.
  { induction d; simpl; done. }
  destruct (Z.to_int n); simpl; apply H.
Qed.

(** Every path of a run starts with the folder of its year. *)
Lemma run_path_prefix year p0 p :
  run_path year p0 p ->
  exists rest, p = "articles_" +:+ (str_of_int year +:+ String "_" rest).
Proof.
  intros [->|(i & _ & [->| ->])];
    unfold output_file, iteration_file, cursor_file, iterations_folder, path_join,
      folder_name;
    rewrite !string_app_assoc; eexists; do 2 f_equal; rewrite app_String; reflexivity.
Qed.

Lemma run_path_other_year year year' p0 p0' p :
  year' <> year -> run_path year' p0' p -> ~ run_path year p0 p.
Proof.
  intros Hne H' H. apply run_path_prefix in H as (r1 & ->), H' as (r2 & H').
  apply (inj (String.append _)) in H'.
  apply free_of_split in H'; try apply str_of_int_free_of_underscore.
  apply str_of_int_inj in H'. congruence.
Qed.

Section PagerRunTotals.

Variable json_dumps : value -> string.
Variable server : list params -> params -> response.
Hypothesis json_dumps_one_line : forall v, one_line (json_dumps v) = true.

(** The total a run ends with counts the lines of the page files 1 to the
    last page written, those of an earlier run included. *)
Lemma run_total fuel year resume w l0 m l' e w' :
  resume_setup year resume w = (Ok (l0, m), w) ->
  fetch_and_save_articles json_dumps server fuel year resume w
  = (Ok (Some (l', e)), w') ->
  0 <= page_count l0 ->
  let last := last_written fuel (page_count l0) (Some (l', e)) in
  page_count l0 <= last /\
  total_downloaded l' = pages_lines year w' (seqZ 1 last).
Proof.
  intros Hsetup Hrun Hp0.
  destruct (resume_setup_locals _ _ _ _ _ _ Hsetup) as (_ & _ & Htotal0 & _).
  destruct (run_loop _ _ _ _ _ _ _ _ _ _ Hsetup Hrun) as (Hr & Hfiles & _).
  set (w0 := snd (open_file (output_file year) m w)) in *.
  pose proof (fetch_pages_effect json_dumps server fuel year l0 w0) as (_ & Hframe & _).
  destruct (fetch_pages json_dumps server fuel year l0 w0) as [r wout] eqn:E.
  cbn [fst snd] in *. subst r.
  pose proof (fetch_pages_total _ _ json_dumps_one_line _ _ _ _ _ _ _ E) as Htotal.
  apply fetch_pages_Ok in E as (Hlast & _).
  cbn zeta in *. set (last := last_written fuel (page_count l0) (Some (l', e))) in *.
  split; [done|]. rewrite Htotal, Htotal0.
  assert (seqZ 1 last
          = seqZ 1 (page_count l0) ++ seqZ (page_count l0 + 1) (last - page_count l0))
    as ->.
  { replace (page_count l0 + 1) with (1 + page_count l0) by lia.
    rewrite <- seqZ_app by lia. f_equal. lia. }
  rewrite pages_lines_app. f_equal.
  - apply pages_lines_ext. intros j Hj. apply elem_of_seqZ in Hj.
    unfold content_of. rewrite Hfiles, Hframe.
    + cbn [w0 snd open_file files]. rewrite lookup_insert_ne; [done|].
      apply not_eq_sym, iteration_file_not_output.
    + apply iteration_file_not_run_path. lia.
  - apply pages_lines_ext. intros j _. unfold content_of. by rewrite Hfiles.
Qed.

End PagerRunTotals.

(* ===================================================================== *)
(** * What the flattener reads is what the raw record holds *)
(* ===================================================================== *)

(** A collection whose members are all objects is the list the raw record
    has under that key: a string or an object iterated over gives strings. *)
Lemma collection_raw_entries v k l :
  collection v k = Ok l ->
  Forall (fun x => exists d, x = VDict d) l ->
  l = raw_entries v k.
Proof.
  unfold collection. intros H Hall.
  apply bind_Ok in H as (c & Hc & Hi).
  apply py_get_default_Ok in Hc as (d & -> & ->).
  unfold dict_get in Hi. cbn [raw_entries].
  destruct (dict_lookup k d) as [[| | | |s|l'|o]|]; simpl in Hi;
    try discriminate; injection Hi as <-; try done.
  - destruct s; [done|]. apply Forall_cons in Hall as [[? [=]] _].
  - destruct o; [done|]. apply Forall_cons in Hall as [[? [=]] _].
Qed.

Lemma mapM_objects {A} (f : value -> result A) xs ys :
  (forall x y, f x = Ok y -> exists d, x = VDict d) ->
  mapM f xs = Ok ys ->
  Forall (fun x => exists d, x = VDict d) xs.
Proof.
  intros Hf H. apply mapM_Ok in H.
  induction H as [|x y xs ys Hx _ IH]; constructor; eauto.
Qed.

Lemma topic_names_of_list key topics names :
  filter_mapM
    (fun topic => f <- py_get topic key ;; Ok (truthy f))
    (fun topic => f <- py_getitem topic key ;; py_get f "display_name")
    topics = Ok names ->
  Forall (fun x => exists d, x = VDict d) topics /\
  names = raw_topic_names key topics.
Proof.
  revert names. induction topics as [|topic topics IH]; intros names; cbn [filter_mapM].
  - intros [= <-]. split; [constructor|done].
  - intros H. apply bind_Ok in H as (b & Hb & H).
    apply bind_Ok in Hb as (f & Hf & [= <-]).
    apply py_get_Ok in Hf as (t & -> & ->).
    unfold raw_topic_names. cbn [List.filter raw_member]. unfold dict_get in *.
    destruct (dict_lookup key t) as [f|] eqn:Ef; cbn [truthy] in *.
    + destruct (truthy f) eqn:Et.
      * apply bind_Ok in H as (n & Hn & H). apply bind_Ok in H as (ns & Hns & [= <-]).
        cbn [py_getitem] in Hn. rewrite Ef in Hn. cbn [bind] in Hn.
        apply py_get_Ok in Hn as (fd & -> & ->).
        apply IH in Hns as [Hall ->]. split; [constructor; eauto|].
        cbn [map raw_member]. by rewrite Ef.
      * apply IH in H as [Hall ->]. split; [constructor; eauto|done].
    + apply IH in H as [Hall ->]. split; [constructor; eauto|done].
Qed.

Lemma topic_names_raw work key names :
  topic_names work key = Ok names ->
  names = raw_topic_names key (raw_entries work "topics").
Proof.
  unfold topic_names. intros H. apply bind_Ok in H as (topics & Hc & H).
  apply topic_names_of_list in H as [Hall ->].
  by rewrite (collection_raw_entries _ _ _ Hc Hall).
Qed.

Lemma entry_names_of_list key entries names :
  mapM (fun k => py_get k key) entries = Ok names ->
  Forall (fun x => exists d, x = VDict d) entries /\
  names = raw_entry_names key entries.
Proof.
  intros H. split.
  - eapply mapM_objects; [|exact H]. intros x y Hx.
    apply py_get_Ok in Hx as (d & -> & _). eauto.
  - apply mapM_Ok in H. induction H as [|x y xs ys Hx _ IH]; [done|].
    apply py_get_Ok in Hx as (d & -> & ->). cbn [raw_entry_names map]. by rewrite IH.
Qed.

Lemma entry_names_raw work coll key names :
  entry_names work coll key = Ok names ->
  names = raw_entry_names key (raw_entries work coll).
Proof.
  unfold entry_names. intros H. apply bind_Ok in H as (ks & Hc & H).
  apply entry_names_of_list in H as [Hall ->].
  by rewrite (collection_raw_entries _ _ _ Hc Hall).
Qed.

(** The keyword names are those of the concepts of the raw record, and
    those of its keywords only when it has no concept. *)
Lemma keyword_names_raw work names :
  keyword_names work = Ok names -> names = raw_keyword_names work.
Proof.
  unfold keyword_names. intros H. apply bind_Ok in H as (cnames & Hc & H).
  apply entry_names_raw in Hc as ->. unfold raw_keyword_names.
  destruct (raw_entries work "concepts") as [|c concepts].
  - simpl in H. by apply entry_names_raw in H.
  - simpl in H. by injection H as <-.
Qed.

(** ** Institutions *)

Lemma display_names_raw insts names :
  Forall2 (fun inst n => py_get inst "display_name" = Ok n) (map VDict insts) names ->
  names = map (fun inst => dict_get inst "display_name" VNone) insts.
Proof.
  revert names. induction insts as [|inst insts IH]; intros names H;
    inversion H as [|? n ? ns Hn Hns]; subst; [done|].
  injection Hn as <-. cbn [map]. by rewrite (IH _ Hns).
Qed.

Lemma raw_entry_names_objects key (ds : list dict) :
  raw_entry_names key (map VDict ds) = map (fun d => dict_get d key VNone) ds.
Proof. unfold raw_entry_names. rewrite map_map. done. Qed.

(** The loop over the authorships, against the raw record: each author's
    entry lists the entries made from the institution objects of the
    authorship, and the set is fed with the truthy display names of all of
    them. *)
Lemma authorships_raw work auths authors institutions :
  collection work "authorships" = Ok auths ->
  foldM authorship_step auths ([], []) = Ok (authors, institutions) ->
  exists objects : list (list dict),
    raw_institutions work = map (map VDict) objects /\
    Forall2 (fun insts info =>
               exists o, info = VDict o /\
                 dict_lookup "institutions" o
                 = Some (VList (map institution_entry insts)))
            objects authors /\
    foldM set_add (raw_institution_names work) [] = Ok institutions.
Proof.
  intros Hc Hloop.
  apply authorships_Ok in Hloop as (infos & entries & names & -> & Hall & Hn & Hset).
  assert (Forall (fun x => exists d, x = VDict d) auths) as Hauths.
  { clear -Hall. induction Hall as [|auth info insts ? ? ? [Hi _] _ IH]; constructor; [|done].
    apply author_info_entry in Hi as (a & _ & _ & -> & _). eauto. }
  apply collection_raw_entries in Hc; [|done]. unfold raw_institution_names, raw_institutions.
  rewrite <- Hc. clear Hc Hauths.
  assert (exists objects : list (list dict),
            entries = map (map VDict) objects /\
            map (fun auth => raw_entries auth "institutions") auths = entries /\
            Forall2 (fun insts info =>
                       exists o, info = VDict o /\
                         dict_lookup "institutions" o
                         = Some (VList (map institution_entry insts)))
                    objects infos) as (objects & -> & Hraw & Hentries).
  { clear -Hall. induction Hall as [|auth info insts ? ? ? [Hi Hc] _ IH].
    - exists []. repeat split; constructor.
    - destruct IH as (objects & -> & Hraw & Hentries).
      apply author_info_entry in Hi as (a & author & ds & -> & _ & Hc' & ->).
      rewrite Hc in Hc'. injection Hc' as ->.
      exists (ds :: objects). split; [done|]. split.
      + cbn [map]. rewrite Hraw. f_equal. symmetry.
        apply (collection_raw_entries _ _ _ Hc).
        apply Forall_forall. intros x Hx. apply list_elem_of_fmap in Hx as (d & -> & _). eauto.
      + constructor; [|done]. eexists. split; reflexivity. }
  exists objects. split; [done|]. split; [done|].
  rewrite Hraw.
  assert (concat (map (map VDict) objects) = map VDict (concat objects)) as Hconcat.
  { clear. induction objects as [|ds objects IH]; [done|].
    cbn [map concat]. by rewrite IH, map_app. }
  rewrite Hconcat in Hn |- *. apply display_names_raw in Hn as ->.
  by rewrite raw_entry_names_objects.
Qed.

(** A set never takes a value that is one member with one it has. *)
Lemma set_add_no_member_twice s v s' :
  set_add s v = Ok s' -> no_member_twice s -> no_member_twice s'.
Proof.
  unfold set_add. destruct (hashable v); [|done].
  destruct (existsb (same_member v) s) eqn:E; intros [= <-] Hs; [done|].
  intros i j a b Hij Ha Hb.
  destruct (decide (j < length s)%nat) as [Hj|Hj].
  - rewrite lookup_app_l in Ha, Hb by lia. eauto.
  - assert (j = length s) as ->.
    { apply lookup_lt_Some in Hb. rewrite length_app in Hb. simpl in Hb. lia. }
    rewrite lookup_app_l in Ha by lia.
    rewrite lookup_app_r, Nat.sub_diag in Hb by lia. injection Hb as <-.
    destruct (same_member v a) eqn:Eva; [|done].
    assert (existsb (same_member v) s = true) as E'; [|congruence].
    apply existsb_exists. exists a. split; [|done].
    apply list_elem_of_In. by eapply list_elem_of_lookup_2.
Qed.

Lemma py_set_acc_no_member_twice xs s s' :
  foldM set_add xs s = Ok s' -> no_member_twice s -> no_member_twice s'.
Proof.
  revert s. induction xs as [|x xs IH]; intros s; simpl.
  - by intros [= <-].
  - intros H Hs. apply bind_Ok in H as (s1 & H1 & H).
    eapply IH; [exact H|]. by eapply set_add_no_member_twice.
Qed.

Lemma filter_length_lt {A} (p : A -> bool) (l : list A) (x : A) :
  x ∈ l -> p x = false -> (length (List.filter p l) < length l)%nat.
Proof.
  induction l as [|y l IH]; intros Hx Hp; [by apply not_elem_of_nil in Hx|].
  cbn [List.filter length]. apply elem_of_cons in Hx as [<-|Hx].
  - rewrite Hp. pose proof (List.filter_length_le p l). lia.
  - specialize (IH Hx Hp). destruct (p y); simpl; lia.
Qed.

(** The set of a list of strings, in words of the list alone. *)
Lemma py_set_strings_distinct (ss : list string) (s : list value) :
  py_set (map VStr ss) = Ok s ->
  exists ds, s = map VStr ds /\ NoDup ds /\ forall x, x ∈ ds <-> x ∈ ss.
Proof.
  rewrite py_set_strings. intros [= <-]. exists (distinct_strings ss).
  split; [done|].
  destruct (fold_add_string_spec ss [] NoDup_nil_2) as [H1 H2].
  split; [done|]. intros x. unfold distinct_strings. rewrite H2. set_solver.
Qed.

(** ** The count against the distinct entries *)

Lemma same_member_refl v : hashable v = true -> same_member v v = true.
Proof.
  destruct v as [|b|n|x|s|l|d]; try done; simpl.
  - unfold py_eq, compare_numbers. simpl. by rewrite Z.compare_refl.
  - unfold py_eq, compare_numbers. simpl. by rewrite Z.compare_refl.
  - intros _. destruct x as [s|s| |s m e]; try done.
    + by destruct s.
    + unfold py_eq, compare_numbers. simpl.
      destruct s; by rewrite Z.compare_refl, Pos.compare_cont_refl.
  - intros _. apply String.eqb_refl.
Qed.

Lemma set_add_hashable s v s' : set_add s v = Ok s' -> hashable v = true.
Proof. unfold set_add. by destruct (hashable v). Qed.

Lemma py_set_acc_hashable xs s s' :
  foldM set_add xs s = Ok s' -> forall x, x ∈ xs -> hashable x = true.
Proof.
  revert s. induction xs as [|y xs IH]; intros s H x Hx;
    [by apply not_elem_of_nil in Hx|].
  simpl in H. apply bind_Ok in H as (s1 & H1 & H).
  apply elem_of_cons in Hx as [->|Hx]; [by eapply set_add_hashable|by eapply IH].
Qed.

(** A set of hashable values holds no value twice. *)
Lemma no_member_twice_NoDup l :
  no_member_twice l -> (forall x, x ∈ l -> hashable x = true) -> NoDup l.
Proof.
  intros Hl Hh. apply NoDup_alt. intros i j x Hi Hj.
  assert (same_member x x = true) as Hx.
  { apply same_member_refl, Hh. by eapply list_elem_of_lookup_2. }
  destruct (Nat.lt_trichotomy i j) as [Hij|[Hij|Hij]]; [|done|].
  - by rewrite (Hl i j x x Hij Hi Hj) in Hx.
  - by rewrite (Hl j i x x Hij Hj Hi) in Hx.
Qed.

(** Distinct names are borne by distinct objects. *)
Lemma names_at_most_named_objects (counted : list value) (objects listed : list dict) :
  NoDup counted ->
  (forall n, n ∈ counted ->
             n ∈ List.filter truthy (map (fun inst => dict_get inst "display_name" VNone)
                                         objects)) ->
  (forall inst, inst ∈ objects -> inst ∈ listed) ->
  (length counted
   <= length (List.filter (fun inst => truthy (dict_get inst "display_name" VNone)) listed))%nat.
Proof.
  intros Hnodup Hnames Hlisted.
  rewrite <- (length_map (fun inst => dict_get inst "display_name" VNone)
                (List.filter _ listed)).
  apply submseteq_length, NoDup_submseteq; [done|].
  intros n Hn. apply Hnames in Hn.
  apply list_elem_of_In, List.filter_In in Hn as [Hn Ht].
  apply list_elem_of_In, list_elem_of_fmap in Hn as (inst & -> & Hinst).
  apply list_elem_of_fmap. exists inst. split; [done|].
  apply list_elem_of_In, List.filter_In. split; [|done].
  apply list_elem_of_In. auto.
Qed.

(* ===================================================================== *)
(** * Sorted name lists, top keywords, research topic *)
(* ===================================================================== *)

(** C6: whenever the flattener returns a record, its ["fields"], ["domains"]
    and ["keywords"] hold the names of the raw work, which are strings, in
    strictly ascending lexicographic order, so without duplicates, whatever
    their order and multiplicity in the work.  The names are read off the raw
    record: the [display_name]s of the [field] and of the [domain] objects of
    its topics, and for the keywords the [display_name]s of its concepts, the
    [keyword]s of its keywords being taken only when it has no concept. *)
Theorem name_lists_sorted_distinct (work : value) (flat : dict) :
  enhance_work_data work = Ok flat ->
  exists fields domains keywords : list string,
    raw_topic_names "field" (raw_entries work "topics") = map VStr fields /\
    raw_topic_names "domain" (raw_entries work "topics") = map VStr domains /\
    raw_keyword_names work = map VStr keywords /\
    (raw_entries work "concepts" <> [] ->
     raw_entry_names "display_name" (raw_entries work "concepts") = map VStr keywords) /\
    (raw_entries work "concepts" = [] ->
     raw_entry_names "keyword" (raw_entries work "keywords") = map VStr keywords) /\
    dict_lookup "fields" flat = Some (VList (map VStr (sorted_strings fields))) /\
    dict_lookup "domains" flat = Some (VList (map VStr (sorted_strings domains))) /\
    dict_lookup "keywords" flat = Some (VList (map VStr (sorted_strings keywords))) /\
    Forall (fun names =>
              ascending (sorted_strings names) /\
              NoDup (sorted_strings names) /\
              forall s, s ∈ sorted_strings names <-> s ∈ names)
           [fields; domains; keywords].
Proof.
  intros H. destruct (work_is_dict _ _ H) as [d ->].
  apply enhance_work_data_names in H
    as (auths & authors & institutions & fields & domains & keywords & ratio & journal
        & _ & _ & Hf & Hd & Hk & _ & _ & _ & ->).
  apply topic_names_raw in Hf, Hd. apply keyword_names_raw in Hk.
  exists fields, domains, keywords.
  split; [done|]. split; [done|]. split; [done|].
  split; [|split].
  { intros Hc. rewrite Hk. unfold raw_keyword_names.
    by destruct (raw_entries (VDict d) "concepts"). }
  { intros Hc. rewrite Hk. unfold raw_keyword_names. by rewrite Hc. }
  repeat split; try apply flat_record_lookup.
  repeat constructor; apply sorted_strings_spec.
Qed.

Lemma name_lists_sorted_distinct_witness :
  (dict_lookup "fields" unordered_flat = Some (VList [VStr "Biology"; VStr "Physics"]) /\
   dict_lookup "domains" unordered_flat = Some (VList [VStr "Sciences"]) /\
   dict_lookup "keywords" unordered_flat = Some (VList [VStr "a"; VStr "b"])) /\
  dict_lookup "keywords" concepts_first_flat = Some (VList [VStr "y"; VStr "z"]).
Proof.
  split.
  - destruct (name_lists_sorted_distinct unordered_work unordered_flat)
      as (fields & domains & keywords & Hf & Hd & Hk & _ & _ & Lf & Ld & Lk & _);
      [reflexivity|].
    apply (map_VStr_inj ["Physics"; "Biology"; "Physics"]) in Hf.
    apply (map_VStr_inj ["Sciences"; "Sciences"]) in Hd.
    apply (map_VStr_inj ["b"; "a"; "b"]) in Hk.
    subst fields domains keywords. repeat split; assumption.
  - destruct (name_lists_sorted_distinct concepts_first_work concepts_first_flat)
      as (fields & domains & keywords & _ & _ & Hk & _ & _ & _ & _ & Lk & _);
      [reflexivity|].
    apply (map_VStr_inj ["z"; "y"; "z"]) in Hk.
    subst keywords. assumption.
Defined.

(** C7: whenever the flattener returns a record, its ["top_keywords"] are
    the first [min(5, len(keywords))] entries of its ["keywords"], which is
    the sorted list without duplicates of the keyword names read from the
    work: a prefix of the sorted list, whatever the order in the work. *)
Theorem top_keywords_first_five (work : value) (flat : dict) :
  enhance_work_data work = Ok flat ->
  exists keywords : list string,
    keyword_names work = Ok (map VStr keywords) /\
    dict_lookup "keywords" flat = Some (VList (map VStr (sorted_strings keywords))) /\
    dict_lookup "top_keywords" flat
      = Some (VList (map VStr (firstn 5 (sorted_strings keywords)))) /\
    length (firstn 5 (sorted_strings keywords))
      = Nat.min 5 (length (sorted_strings keywords)) /\
    firstn 5 (sorted_strings keywords) `prefix_of` sorted_strings keywords /\
    ascending (sorted_strings keywords).
Proof.
  intros H. destruct (work_is_dict _ _ H) as [d ->].
  apply enhance_work_data_names in H
    as (auths & authors & institutions & fields & domains & keywords & ratio & journal
        & _ & _ & _ & _ & Hk & _ & _ & _ & ->).
  exists keywords. split; [done|].
  split; [apply flat_record_lookup|].
  split. { rewrite <- firstn_map_VStr. apply flat_record_lookup. }
  split; [apply length_take|].
  split; [apply prefix_take|]. apply sorted_strings_spec.
Qed.

Lemma top_keywords_first_five_witness :
  exists keywords : list string,
    keyword_names seven_keywords_work = Ok (map VStr keywords) /\
    dict_lookup "top_keywords" seven_keywords_flat
      = Some (VList (map VStr (firstn 5 (sorted_strings keywords)))).
Proof.
  destruct (top_keywords_first_five seven_keywords_work seven_keywords_flat)
    as (keywords & Hk & _ & Ht & _); [reflexivity|].
  exists keywords. split; assumption.
Defined.

(** C8: whenever the flattener returns a record, its ["research_topic"] is
    [topic_of] the title and the record's fields, domains and top keywords:
    the four parts in that order, each list joined with [", "], the empty
    parts skipped, the others joined with [" | "].  In particular the work
    titled "T" with fields "B", "A", no domain and keywords "x", "y" gets
    ["T | A, B | x, y"]. *)
Theorem research_topic_joined_parts :
  (forall (work : value) (flat : dict),
     enhance_work_data work = Ok flat ->
     exists (title : value) (fields domains top_keywords : list string),
       dict_lookup "title" flat = Some title /\
       dict_lookup "fields" flat = Some (VList (map VStr fields)) /\
       dict_lookup "domains" flat = Some (VList (map VStr domains)) /\
       dict_lookup "top_keywords" flat = Some (VList (map VStr top_keywords)) /\
       dict_lookup "research_topic" flat
         = Some (VStr (topic_of (text_of title) fields domains top_keywords))) /\
  (exists flat : dict,
     enhance_work_data titled_work = Ok flat /\
     dict_lookup "title" flat = Some (VStr "T") /\
     dict_lookup "fields" flat = Some (VList [VStr "A"; VStr "B"]) /\
     dict_lookup "domains" flat = Some (VList []) /\
     dict_lookup "keywords" flat = Some (VList [VStr "x"; VStr "y"]) /\
     dict_lookup "research_topic" flat = Some (VStr "T | A, B | x, y")).
Proof.
  split.
  - intros work flat H. destruct (work_is_dict _ _ H) as [d ->].
    apply enhance_work_data_names in H
      as (auths & authors & institutions & fields & domains & keywords & ratio & journal
          & _ & _ & _ & _ & _ & _ & _ & _ & ->).
    exists (dict_get d "display_name" VNone), (sorted_strings fields),
      (sorted_strings domains), (firstn 5 (sorted_strings keywords)).
    rewrite <- firstn_map_VStr. repeat split; apply flat_record_lookup.
  - exists titled_flat. repeat split; reflexivity.
Qed.

Lemma research_topic_joined_parts_witness :
  exists (title : value) (fields domains top_keywords : list string),
    dict_lookup "title" titled_flat = Some title /\
    dict_lookup "fields" titled_flat = Some (VList (map VStr fields)) /\
    dict_lookup "domains" titled_flat = Some (VList (map VStr domains)) /\
    dict_lookup "top_keywords" titled_flat = Some (VList (map VStr top_keywords)) /\
    dict_lookup "research_topic" titled_flat
      = Some (VStr (topic_of (text_of title) fields domains top_keywords)).
Proof.
  apply (proj1 research_topic_joined_parts titled_work titled_flat).
  reflexivity.
Defined.

(* ===================================================================== *)
(** * The journal entry *)
(* ===================================================================== *)

(** C9, as stated, fails: a work whose primary location has a source object
    is flattened without a ["journal"] key when that object is empty. *)
Lemma journal_absent_for_empty_source :
  enhance_work_data empty_source_work = Ok empty_source_flat /\
  source_object empty_source_work = Some [] /\
  dict_lookup "journal" empty_source_flat = None.
Proof. repeat split; reflexivity. Qed.

(** C9, amended: whenever the flattener returns a record, the record has a
    ["journal"] entry, holding the source's display name, type, ISSN and
    open-access flag, if and only if the work's primary location has a source
    object with at least one member; in every other case the ["journal"] key
    is absent, not present with a null. *)
Theorem journal_iff_primary_source (work : value) (flat : dict) :
  enhance_work_data work = Ok flat ->
  match primary_source work with
  | Some src => dict_lookup "journal" flat = Some (journal_of src)
  | None => dict_lookup "journal" flat = None
  end.
Proof.
  intros H. destruct (work_is_dict _ _ H) as [d ->].
  apply enhance_work_data_names in H
    as (auths & authors & institutions & fields & domains & keywords & ratio & journal
        & _ & _ & _ & _ & _ & _ & Hj & _ & ->).
  apply journal_info_Ok in Hj as ->.
  destruct (primary_source (VDict d)); apply flat_record_lookup.
Qed.

Lemma journal_iff_primary_source_witness :
  dict_lookup "journal" journal_flat
  = Some (VDict [("name", VStr "Nature"); ("type", VStr "journal");
                 ("issn", VList [VStr "0028-0836"]); ("is_oa", VBool false)]).
Proof.
  apply (journal_iff_primary_source journal_work journal_flat).
  reflexivity.
Defined.

(* ===================================================================== *)
(** * Authors and institutions *)
(* ===================================================================== *)

(** C10: whenever the flattener returns a record, ["authors"] has one
    entry per authorship of the raw work, whose ["institutions"] list has the
    entry made from each institution object of that authorship, in order,
    named or not.  ["institutions_count"] is the size of a set [counted] of
    the truthy display names of those objects: each of its members is such a
    name, each such name is one member with one of them, and no two of them
    are one member; when the names are strings, [counted] has them without
    duplicates.  So the count is at most the number of entries listed, and
    at most the number of distinct objects among them, and smaller as soon
    as one object has no display name or an empty one.  For the author of
    [unnamed_institution_work] the count is 0 with one entry listed; for the
    authors of [shared_institution_work] it is 2 with four entries listed. *)
Theorem institutions_listed_but_counted_by_name :
  (forall (work : value) (flat : dict),
     enhance_work_data work = Ok flat ->
     exists (objects : list (list dict)) (authors counted : list value),
       raw_institutions work = map (map VDict) objects /\
       dict_lookup "authors" flat = Some (VList authors) /\
       Forall2 (fun insts info =>
                  exists o, info = VDict o /\
                    dict_lookup "institutions" o
                    = Some (VList (map institution_entry insts)))
               objects authors /\
       dict_lookup "institutions_count" flat = Some (VInt (Z.of_nat (length counted))) /\
       (forall n, n ∈ counted -> n ∈ raw_institution_names work) /\
       (forall n, n ∈ raw_institution_names work ->
                  exists c, c ∈ counted /\ (c = n \/ same_member n c = true)) /\
       no_member_twice counted /\
       (forall names : list string,
          raw_institution_names work = map VStr names ->
          exists distinct,
            counted = map VStr distinct /\ NoDup distinct /\
            forall s, s ∈ distinct <-> s ∈ names) /\
       (length counted <= length (raw_institution_names work))%nat /\
       (length (raw_institution_names work) <= length (concat objects))%nat /\
       (forall inst, inst ∈ concat objects ->
                     truthy (dict_get inst "display_name" VNone) = false ->
                     (length counted < length (concat objects))%nat) /\
       (forall listed : list dict,
          NoDup listed ->
          (forall inst, inst ∈ listed <-> inst ∈ concat objects) ->
          (length counted <= length listed)%nat /\
          (forall inst, inst ∈ listed ->
                        truthy (dict_get inst "display_name" VNone) = false ->
                        (length counted < length listed)%nat))) /\
  (enhance_work_data unnamed_institution_work = Ok unnamed_institution_flat /\
   dict_lookup "authors" unnamed_institution_flat
   = Some (VList [author_entry [] [("display_name", VStr "A. Author")]
                               [[("id", VStr "I1")]]]) /\
   dict_lookup "institutions_count" unnamed_institution_flat = Some (VInt 0)) /\
  (enhance_work_data shared_institution_work = Ok shared_institution_flat /\
   dict_lookup "authors" shared_institution_flat
   = Some (VList [author_entry [] [("display_name", VStr "A. Author")]
                               [[("id", VStr "I1"); ("display_name", VStr "MIT")];
                                [("id", VStr "I2"); ("display_name", VStr "CERN")];
                                [("id", VStr "I3"); ("display_name", VStr EmptyString)]];
                  author_entry [] [("display_name", VStr "B. Author")]
                               [[("id", VStr "I1"); ("display_name", VStr "MIT")]]]) /\
   raw_institution_names shared_institution_work = [VStr "MIT"; VStr "CERN"; VStr "MIT"] /\
   dict_lookup "institutions_count" shared_institution_flat = Some (VInt 2)).
Proof.
  split; [|split; repeat split; reflexivity].
  intros work flat H. destruct (work_is_dict _ _ H) as [d ->].
  apply enhance_work_data_names in H
    as (auths & authors & institutions & fields & domains & keywords & ratio & journal
        & Ha & Hloop & _ & _ & _ & _ & _ & _ & ->).
  destruct (authorships_raw _ _ _ _ Ha Hloop) as (objects & Hraw & Hentries & Hset).
  clear Ha Hloop.
  assert (length (raw_institution_names (VDict d)) <= length (concat objects))%nat
    as Hlisted.
  { unfold raw_institution_names. rewrite Hraw.
    etrans; [apply List.filter_length_le|].
    unfold raw_entry_names. rewrite length_map.
    clear. induction objects as [|ds objects IH]; [done|].
    cbn [map concat]. rewrite !length_app, length_map. lia. }
  assert (length institutions <= length (raw_institution_names (VDict d)))%nat
    as Hcounted.
  { apply py_set_acc_length in Hset. simpl in Hset. lia. }
  destruct (py_set_acc_Ok _ _ _ Hset) as (_ & Hcover & Hmember).
  exists objects, authors, institutions.
  split; [done|]. split; [apply flat_record_lookup|]. split; [done|].
  split; [apply flat_record_lookup|].
  split. { intros n Hn. destruct (Hmember n Hn) as [Hn'|Hn']; [|done].
           by apply not_elem_of_nil in Hn'. }
  split; [done|].
  split. { apply (py_set_acc_no_member_twice _ _ _ Hset). intros i j a b _ Hi.
           by rewrite lookup_nil in Hi. }
  split. { intros names Hnames. rewrite Hnames in Hset.
           by apply py_set_strings_distinct. }
  split; [done|]. split; [done|].
  assert (raw_institution_names (VDict d)
          = List.filter truthy (map (fun inst => dict_get inst "display_name" VNone)
                                    (concat objects))) as Hnames.
  { unfold raw_institution_names. rewrite Hraw.
    assert (concat (map (map VDict) objects) = map VDict (concat objects)) as ->.
    { clear. induction objects as [|ds objects IH]; [done|].
      cbn [map concat]. by rewrite IH, map_app. }
    by rewrite raw_entry_names_objects. }
  split.
  - intros inst Hinst Hname.
    assert (length (raw_institution_names (VDict d)) < length (concat objects))%nat; [|lia].
    rewrite Hnames.
    rewrite <- (length_map (fun inst => dict_get inst "display_name" VNone)
                  (concat objects)).
    eapply filter_length_lt; [|exact Hname].
    apply list_elem_of_fmap. eauto.
  - intros listed Hnodup Hsame.
    assert (NoDup institutions) as Hdistinct.
    { apply no_member_twice_NoDup.
      - apply (py_set_acc_no_member_twice _ _ _ Hset). intros i j a b _ Hi.
        by rewrite lookup_nil in Hi.
      - intros x Hx. apply (py_set_acc_hashable _ _ _ Hset).
        destruct (Hmember x Hx) as [Hx'|Hx']; [by apply not_elem_of_nil in Hx'|done]. }
    assert (length institutions
            <= length (List.filter
                         (fun inst => truthy (dict_get inst "display_name" VNone)) listed))%nat
      as Hle.
    { apply (names_at_most_named_objects _ (concat objects)); [done| |apply Hsame].
      intros n Hn. rewrite <- Hnames.
      destruct (Hmember n Hn) as [Hn'|Hn']; [by apply not_elem_of_nil in Hn'|done]. }
    split.
    + etrans; [exact Hle|]. apply List.filter_length_le.
    + intros inst Hinst Hname.
      pose proof (filter_length_lt
                    (fun inst => truthy (dict_get inst "display_name" VNone))
                    listed inst Hinst Hname). lia.
Qed.

Lemma institutions_listed_but_counted_by_name_witness :
  (exists distinct : list string,
     dict_lookup "institutions_count" shared_institution_flat
     = Some (VInt (Z.of_nat (length distinct))) /\
     NoDup distinct /\
     forall s, s ∈ distinct <-> s ∈ ["MIT"; "CERN"; "MIT"]) /\
  dict_lookup "institutions_count" shared_institution_flat = Some (VInt 2) /\
  dict_lookup "institutions_count" unnamed_institution_flat = Some (VInt 0).
Proof.
  split.
  - destruct (proj1 institutions_listed_but_counted_by_name
                shared_institution_work shared_institution_flat)
      as (objects & authors & counted & _ & _ & _ & Hcount & _ & _ & _ & Hstrings & _);
      [reflexivity|].
    destruct (Hstrings ["MIT"; "CERN"; "MIT"]) as (distinct & -> & Hnodup & Hsame);
      [reflexivity|].
    exists distinct. rewrite length_map in Hcount. repeat split; try assumption.
    + apply Hsame.
    + apply Hsame.
  - destruct (proj2 institutions_listed_but_counted_by_name)
      as [(_ & _ & Hzero) (_ & _ & _ & Htwo)].
    split; assumption.
Defined.

(* ===================================================================== *)
(** * The citation ratio *)
(* ===================================================================== *)

(** C3, as stated, fails: with 5 citations and a reference count of -2 the
    ratio is [round(5 / -2, 3) = -2.5], a negative number, and not
    [round(5 / max(-2, 1), 3) = 5.0]. *)
Lemma ratio_negative_for_negative_references :
  enhance_work_data negative_references_work = Ok negative_references_flat /\
  dict_lookup "citation_per_reference_ratio" negative_references_flat
    = Some (VFloat (S754_finite true 5629499534213120 (-51))) /\
  float_nonneg (S754_finite true 5629499534213120 (-51)) = false /\
  (q <- int_true_divide 5 (-2) ;; Ok (float_round3 q))
    = Ok (S754_finite true 5629499534213120 (-51)) /\
  (q <- int_true_divide 5 (Z.max (-2) 1) ;; Ok (float_round3 q))
    = Ok (S754_finite false 5629499534213120 (-50)).
Proof. repeat split; reflexivity. Qed.

(** C3, amended: for a work whose ["cited_by_count"] and
    ["referenced_works_count"] are each absent, null or a non-negative
    integer, whenever the flattener returns a record its
    ["citation_per_reference_ratio"] is a non-negative float, the quotient of
    the citation count by the larger of the reference count and 1, rounded to
    3 decimals: the quotient by the reference count when that is positive, by
    1 when it is 0 or missing; a missing citation count counts as 0. *)
Theorem ratio_of_counts (work : value) (flat : dict) (cited refs : Z) :
  enhance_work_data work = Ok flat ->
  count_member work "cited_by_count" = Some cited ->
  count_member work "referenced_works_count" = Some refs ->
  exists q : spec_float,
    int_true_divide cited (Z.max refs 1) = Ok q /\
    dict_lookup "citation_per_reference_ratio" flat = Some (VFloat (float_round3 q)) /\
    float_nonneg (float_round3 q) = true /\
    (0 < refs -> int_true_divide cited refs = Ok q) /\
    (refs = 0 -> int_true_divide cited 1 = Ok q).
Proof.
  intros H Hc Hr. destruct (work_is_dict _ _ H) as [d ->].
  apply enhance_work_data_names in H
    as (auths & authors & institutions & fields & domains & keywords & ratio & journal
        & _ & _ & _ & _ & _ & Hratio & _ & _ & ->).
  destruct (citation_per_reference_ratio_counts d cited refs ratio Hc Hr Hratio)
    as (Hc0 & Hr0 & q & Hq & ->).
  exists q. split; [done|]. split; [apply flat_record_lookup|].
  split; [by apply (int_true_divide_nonneg cited (Z.max refs 1)); [|lia|]|].
  split.
  - intros Hpos. by replace refs with (Z.max refs 1) by lia.
  - by intros ->.
Qed.

Lemma ratio_of_counts_witness :
  exists q : spec_float,
    int_true_divide 7 3 = Ok q /\
    dict_lookup "citation_per_reference_ratio" cited_flat
      = Some (VFloat (float_round3 q)) /\
    float_nonneg (float_round3 q) = true.
Proof.
  destruct (ratio_of_counts cited_work cited_flat 7 3) as (q & H1 & H2 & H3 & _);
    [reflexivity | reflexivity | reflexivity |].
  exists q. repeat split; assumption.
Defined.

(* ===================================================================== *)
(** * Which works are flattened *)
(* ===================================================================== *)

(** C2, as stated, fails: on a work whose citation count is the text "12"
    the flattener raises [TypeError]. *)
Lemma flattener_raises_on_text_count :
  enhance_work_data text_count_work = Raise TypeError.
Proof. reflexivity. Qed.

(** A concept entry without a display name also makes it raise: the missing
    name becomes [None] in the keyword list, which [", ".join] rejects. *)
Lemma flattener_raises_on_unnamed_concept :
  enhance_work_data unnamed_concept_work = Raise TypeError.
Proof. reflexivity. Qed.

(** C2, amended: on every work that is an object whose members, where
    present, have the expected types ([well_shaped]), the flattener returns a
    record and raises nothing; members that are absent only leave null or
    empty pieces, down to the empty object, whose record has null scalars,
    empty lists, zero counts, a zero ratio, an empty topic and no journal. *)
Theorem well_shaped_work_flattened :
  (forall work : value,
     well_shaped work = true -> exists flat : dict, enhance_work_data work = Ok flat) /\
  enhance_work_data (VDict [])
    = Ok (flat_record [] [] [] [] [] [] (VFloat float_zero) None EmptyString).
Proof.
  split; [|reflexivity].
  intros work H. apply object_with_VDict in H as (d & -> & H).
  apply andb_prop in H as [H Hlocation]. apply andb_prop in H as [H Hkeywords].
  apply andb_prop in H as [H Hconcepts]. apply andb_prop in H as [H Htopics'].
  apply andb_prop in H as [H Hauthorships]. apply andb_prop in H as [H Hrefs].
  apply andb_prop in H as [Htitle Hcited].
  destruct (collection_shaped _ _ _ Hauthorships) as (auths & Hauths & Hshape).
  destruct (foldM_total authorship_step auths ([], [])) as [[authors institutions] Hloop].
  { eapply Forall_impl; [exact Hshape|]. intros auth Ha st.
    by apply authorship_step_total. }
  destruct (collection_shaped _ _ _ Htopics') as (topics & Htopics & Htshape).
  destruct (topic_names_shaped topics "field") as [fields Hf].
  { eapply Forall_impl; [exact Htshape|]. intros t Ht.
    apply object_with_VDict in Ht as (td & -> & Ht). by apply andb_prop in Ht as [Ht _]. }
  destruct (topic_names_shaped topics "domain") as [domains Hd].
  { eapply Forall_impl; [exact Htshape|]. intros t Ht.
    apply object_with_VDict in Ht as (td & -> & Ht). by apply andb_prop in Ht as [_ Ht]. }
  destruct (entry_names_shaped _ _ _ Hconcepts) as [cnames Hc].
  destruct (entry_names_shaped _ _ _ Hkeywords) as [knames Hk].
  assert (exists keywords, keyword_names (VDict d) = Ok (map VStr keywords))
    as [keywords Hkw].
  { unfold keyword_names. rewrite Hc. simpl.
    destruct cnames; [by exists knames | by eexists]. }
  destruct (citation_per_reference_ratio_shaped d) as [ratio Hratio]; [done..|].
  destruct (journal_info_shaped d) as [journal Hj]; [done|].
  eexists. apply enhance_work_data_Ok.
  exists auths, authors, institutions, (map VStr fields), (map VStr domains),
    (map VStr keywords).
  eexists _, _, _, ratio, journal, _.
  split; [done|]. split; [done|].
  split. { unfold topic_names. by rewrite Htopics. }
  split. { unfold topic_names. by rewrite Htopics. }
  split; [done|].
  split; [apply sorted_set_strings|].
  split; [apply sorted_set_strings|].
  split; [apply sorted_set_strings|].
  split; [done|]. split; [done|].
  split; [|reflexivity].
  apply research_topic_Ok. eexists _, _, _.
  split; [done|]. split; [done|]. split; [apply firstn_map_VStr|].
  split; [|reflexivity].
  unfold absent_or, dict_get in *.
  destruct (dict_lookup "display_name" d) as [[]|]; done.
Qed.

Lemma well_shaped_work_flattened_witness :
  exists flat : dict, enhance_work_data partial_work = Ok flat.
Proof.
  apply (proj1 well_shaped_work_flattened partial_work).
  reflexivity.
Defined.

(* ===================================================================== *)
(** * The pager *)
(* ===================================================================== *)

Section PagerClaims.

Variable json_dumps : value -> string.
Variable server : list params -> params -> response.

(** A call with [resume_from_page = 0], which is no page number, is a fresh
    run whatever files there are: [if resume_from_page:] takes 0 for no page
    given. *)
Lemma resume_from_page_zero_starts_afresh :
  cursor_file 2023 (0 - 1) = "articles_2023_new/iterations/cursor_after_page_-1.txt" /\
  files odd_checkpoint_world !! cursor_file 2023 (0 - 1) = Some "C" /\
  resume_setup 2023 (Some 0) odd_checkpoint_world
  = (Ok (Locals (initial_params 2023) 0 0, ModeW), odd_checkpoint_world).
Proof. repeat split; vm_compute; reflexivity. Qed.


(** C5: in whatever state the loop is, when the response to the page
    request has a status other than 200 the loop is left at once, by [break]:
    the status has been printed after the line announcing the page, one
    request has been sent and no other follows, every file is as it was, and
    nothing is raised; the function then prints its last line and returns
    normally. *)
Theorem http_failure_halts (fuel : nat) (year : Z) (l : locals) (w : world) :
  status_code (server (sent w) (loc_params l)) <> 200 ->
  let status := status_code (server (sent w) (loc_params l)) in
  let l' := Locals (loc_params l) (total_downloaded l) (page_count l + 1) in
  let w' := World (files w)
                  (stdout w ++ ["Fetching page " +:+ str_of_int (page_count l + 1)
                                 +:+ " for " +:+ str_of_int year +:+ "...";
                                "HTTP Error " +:+ str_of_int status])
                  (sent w ++ [loc_params l])
                  (slept w) in
  fetch_pages json_dumps server (S fuel) year l w = (Ok (Some (l', ByBreak)), w') /\
  (r <~ fetch_pages json_dumps server (S fuel) year l ;; report_done year r) w
  = (Ok (Some (l', ByBreak)),
     World (files w)
           (stdout w' ++ ["✅ Done! Downloaded " +:+ str_of_int (total_downloaded l)
                          +:+ " articles for " +:+ str_of_int year +:+ "."])
           (sent w') (slept w)).
Proof.
  intros Hstatus status l' w'.
  assert (fetch_pages json_dumps server (S fuel) year l w = (Ok (Some (l', ByBreak)), w'))
    as Hloop.
  { subst status l' w'. cbn [fetch_pages].
    unfold fetch_page, io_bind, print, requests_get. cbn [sent].
    destruct (Z.eqb_spec (status_code (server (sent w) (loc_params l))) 200) as [E|_];
      [done|].
    cbn [negb]. unfold io_ret. cbn [files stdout sent slept].
    by rewrite <- app_assoc. }
  split; [exact Hloop|]. unfold io_bind at 1. rewrite Hloop. reflexivity.
Qed.

Hypothesis json_dumps_one_line : forall v, one_line (json_dumps v) = true.

(** C1, amended: follow a run until it ends normally or by an HTTP failure,
    or for [fuel] pages.  If it is a fresh run (the output file opened to
    overwrite), then the output file has as many lines as the page files
    written by the run, together.  If it is a resumed run (the output file
    opened to append) and, when it starts, the output file ends with a line
    end, or is empty or missing, and has as many lines as the existing page
    files 1 to [R-1] together, then the output file has as many lines as
    those page files and the page files written by the run, together; and its
    old content is still there, with the new lines after it. *)
Theorem cumulative_lines_match_pages (fuel : nat) (year : Z) (resume : option Z)
    (w : world) (l0 : locals) (m : mode) (r : option (locals * loop_exit)) (w' : world) :
  resume_setup year resume w = (Ok (l0, m), w) ->
  fetch_and_save_articles json_dumps server fuel year resume w = (Ok r, w') ->
  (m = ModeA ->
   ends_lines (content_of w (output_file year)) = true /\
   file_lines w (output_file year) = pages_lines year w (seqZ 1 (page_count l0))) ->
  let last := last_written fuel (page_count l0) r in
  file_lines w' (output_file year)
    = pages_lines year w'
        (seqZ 1 (page_count l0) ++ seqZ (page_count l0 + 1) (last - page_count l0)) /\
  (m = ModeW -> page_count l0 = 0) /\
  (m = ModeA ->
   exists added,
     content_of w' (output_file year) = content_of w (output_file year) +:+ added).
Proof.
  intros Hsetup Hrun Hstart. unfold fetch_and_save_articles in Hrun.
  apply io_bind_Ok in Hrun as ([l0' m'] & w0 & Hsetup' & Hrun).
  rewrite Hsetup in Hsetup'. injection Hsetup' as <- <- <-.
  apply io_bind_Ok in Hrun as (? & w1 & Hopen & Hrun).
  apply io_bind_Ok in Hrun as (r2 & w2 & Hloop & Hrun).
  assert (r2 = r /\ forall p, content_of w' p = content_of w2 p) as [-> Hw3].
  { destruct r2 as [[l2 e2]|]; unfold report_done in Hrun.
    - apply io_bind_Ok in Hrun as (? & w3 & Hprint & Hrun). injection Hrun as <- <-.
      split; [done|]. by apply (print_Ok _ _ _ _ Hprint).
    - by injection Hrun as <- <-. }
  pose proof (open_file_Ok _ _ _ _ _ Hopen) as Hw1.
  destruct (resume_setup_Ok _ _ _ _ _ Hsetup) as (_ & l & m' & [= <- <-] & Hzero).
  assert (forall pages, pages_lines year w1 pages = pages_lines year w pages) as Hpages.
  { intros pages. apply pages_lines_ext. intros j _.
    rewrite Hw1, decide_False; [done|]. apply not_eq_sym, iteration_file_not_output. }
  assert (ends_lines (content_of w1 (output_file year)) = true /\
          file_lines w1 (output_file year)
            = pages_lines year w1 (seqZ 1 (page_count l0)) /\
          (m = ModeA -> content_of w1 (output_file year) = content_of w (output_file year)))
    as (Hends & Hlines & Hkept).
  { rewrite Hpages. unfold file_lines. rewrite Hw1, decide_True by done.
    destruct m.
    - rewrite Hzero by done. rewrite seqZ_nil by lia. done.
    - destruct Hstart as [Hends Hlines]; [done|]. done. }
  assert (Forall (fun i => i <= page_count l0) (seqZ 1 (page_count l0))) as Hle.
  { apply Forall_seqZ. lia. }
  destruct (fetch_pages_lines json_dumps server json_dumps_one_line _ _ _ _ _ _ _
              Hloop Hends Hlines Hle) as (_ & Hfinal & added & Hadded).
  split; [|split; [done|]].
  - unfold file_lines. rewrite Hw3. fold (file_lines w2 (output_file year)).
    rewrite Hfinal. symmetry. apply pages_lines_ext. intros j _. apply Hw3.
  - intros Hm. exists added. by rewrite Hw3, Hadded, Hkept.
Qed.

End PagerClaims.


Lemma http_failure_halts_witness :
  fetch_pages (fun _ => "{}") (fun _ _ => Response 503 VNone) 1 2023
    (Locals (initial_params 2023) 0 0) one_page_world
  = (Ok (Some (Locals (initial_params 2023) 0 1, ByBreak)),
     World (files one_page_world)
           ["Fetching page 1 for 2023..."; "HTTP Error 503"]
           [initial_params 2023] 0).
Proof.
  apply (http_failure_halts (fun _ => "{}") (fun _ _ => Response 503 VNone) 0 2023
           (Locals (initial_params 2023) 0 0) one_page_world).
  discriminate.
Defined.

(** C1, as stated, fails: resuming at page 2 when pages 1 and 2 are already in
    the output file appends page 2 once more; the output file then has 3
    lines and the page files 2. *)
Lemma resumed_run_repeats_lines :
  repeated_run
  = fetch_and_save_articles one_line_dumps two_page_server 5 2023 (Some 2) two_page_world /\
  fst repeated_run
  = Ok (Some (Locals (Params (param_filter (initial_params 2023)) 200 "C1") 2 2,
              NoMorePages)) /\
  file_lines (snd repeated_run) (output_file 2023) = 3 /\
  pages_lines 2023 (snd repeated_run) [1; 2] = 2.
Proof. repeat split; vm_compute; reflexivity. Qed.

Lemma cumulative_lines_match_pages_witness :
  file_lines (snd resumed_run) (output_file 2023)
  = pages_lines 2023 (snd resumed_run) [1; 2].
Proof.
  apply (cumulative_lines_match_pages one_line_dumps two_page_server
           (fun _ => eq_refl) 5 2023 (Some 2) one_page_world
           (Locals (Params (param_filter (initial_params 2023)) 200 "C1") 1 1) ModeA
           (Some (Locals (Params (param_filter (initial_params 2023)) 200 "C1") 2 2,
                  NoMorePages))
           (snd resumed_run)).
  - vm_compute. reflexivity.
  - vm_compute. reflexivity.
  - intros _. split; vm_compute; reflexivity.
Defined.

(** The two-page source on an empty disk: three lines in the output file,
    two and one in the page files, one checkpoint holding "C1". *)
Example fresh_run_two_pages :
  fst fresh_run
  = Ok (Some (Locals (Params (param_filter (initial_params 2023)) 200 "C1") 3 2,
              NoMorePages)) /\
  file_lines (snd fresh_run) (output_file 2023) = 3 /\
  file_lines (snd fresh_run) (iteration_file 2023 1) = 2 /\
  file_lines (snd fresh_run) (iteration_file 2023 2) = 1 /\
  files (snd fresh_run) !! cursor_file 2023 1 = Some "C1" /\
  files (snd fresh_run) !! cursor_file 2023 2 = None /\
  slept (snd fresh_run) = 2.
Proof. repeat split; vm_compute; reflexivity. Qed.

(* ===================================================================== *)
(** * The flattener: what it raises, and on what *)
(* ===================================================================== *)

(** X1: whatever the work, the only exceptions [enhance_work_data] can raise
    are [AttributeError], [TypeError] and [OverflowError].  It never raises
    [KeyError], every subscript being guarded by a truthy [get] of the same
    key or reading a key the function has set itself, and never
    [ZeroDivisionError], the divisor being [referenced_works_count or 1]. *)
Theorem flattener_raises_only_shape_errors (work : value) (e : exn) :
  enhance_work_data work = Raise e ->
  e = AttributeError \/ e = TypeError \/ e = OverflowError.
Proof.
  intros H. apply enhance_work_data_raises in H. destruct e; auto; discriminate.
Qed.

Lemma flattener_raises_only_shape_errors_witness :
  enhance_work_data text_count_work = Raise TypeError /\
  (TypeError = AttributeError \/ TypeError = TypeError \/ TypeError = OverflowError).
Proof.
  split; [reflexivity|].
  apply (flattener_raises_only_shape_errors text_count_work TypeError). reflexivity.
Defined.

(** X2: the default of [work.get(k, [])] stands in for a missing member
    only.  A work whose ["authorships"], ["topics"] or ["concepts"] member is
    present and null is not flattened: the loop over [None] raises, a
    [TypeError] in the case of ["authorships"]. *)
Theorem null_collection_raises (d : dict) (k : string) :
  k ∈ ["authorships"; "topics"; "concepts"] ->
  dict_lookup k d = Some VNone ->
  exists e : exn,
    enhance_work_data (VDict d) = Raise e /\
    (k = "authorships" -> e = TypeError).
Proof.
  intros Hk Hd.
  assert (collection (VDict d) k = Raise TypeError) as Hc.
  { unfold collection, dict_get. simpl. unfold dict_get. by rewrite Hd. }
  destruct (enhance_work_data (VDict d)) as [flat|e] eqn:E.
  - exfalso. apply enhance_work_data_Ok in E
      as (auths & authors & institutions & fields & domains & keywords & fs & ds & ks
          & ratio & journal & topic & Ha & _ & Hf & _ & Hkw & _).
    apply elem_of_cons in Hk as [->|Hk]; [congruence|].
    apply elem_of_cons in Hk as [->|Hk].
    { unfold topic_names in Hf. by rewrite Hc in Hf. }
    apply list_elem_of_singleton in Hk as ->.
    unfold keyword_names, entry_names in Hkw. by rewrite Hc in Hkw.
  - exists e. split; [done|]. intros ->.
    unfold enhance_work_data in E. simpl in E. rewrite Hc in E. simpl in E. congruence.
Qed.

Lemma null_collection_raises_witness :
  exists e : exn, enhance_work_data (VDict [("topics", VNone)]) = Raise e.
Proof.
  destruct (null_collection_raises [("topics", VNone)] "topics") as (e & He & _).
  - right. left.
  - reflexivity.
  - exists e. exact He.
Defined.

(* ===================================================================== *)
(** * The flattener: authors *)
(* ===================================================================== *)

(** X3: a work without an ["authorships"] member, or with an empty one, is
    flattened (when it is) with an empty ["authors"] list and both counts
    0. *)
Theorem no_authorships_no_authors (d flat : dict) :
  dict_lookup "authorships" d = None \/ dict_lookup "authorships" d = Some (VList []) ->
  enhance_work_data (VDict d) = Ok flat ->
  dict_lookup "authors" flat = Some (VList []) /\
  dict_lookup "authors_count" flat = Some (VInt 0) /\
  dict_lookup "institutions_count" flat = Some (VInt 0).
Proof.
  intros Hd H.
  apply enhance_work_data_Ok in H
    as (auths & authors & institutions & fields & domains & keywords & fs & ds & ks
        & ratio & journal & topic & Ha & Hloop & _ & _ & _ & _ & _ & _ & _ & _ & _ & ->).
  assert (auths = []) as ->.
  { unfold collection, dict_get in Ha. simpl in Ha. unfold dict_get in Ha.
    destruct Hd as [Hd|Hd]; rewrite Hd in Ha; by injection Ha as <-. }
  injection Hloop as <- <-. repeat split.
Qed.

Lemma no_authorships_no_authors_witness :
  dict_lookup "authors" titled_flat = Some (VList []) /\
  dict_lookup "authors_count" titled_flat = Some (VInt 0) /\
  dict_lookup "institutions_count" titled_flat = Some (VInt 0).
Proof.
  apply (no_authorships_no_authors
           [("display_name", VStr "T");
            ("topics", VList [VDict [("field", VDict [("display_name", VStr "B")])];
                              VDict [("field", VDict [("display_name", VStr "A")])]]);
            ("concepts", VList [VDict [("display_name", VStr "x")];
                                VDict [("display_name", VStr "y")]])]
           titled_flat).
  - left. reflexivity.
  - reflexivity.
Defined.



(* ===================================================================== *)
(** * The flattener: names, keys and copied members *)
(* ===================================================================== *)



(** X6: whenever the flattener returns a record, its keys are, in this
    order, the fifteen [leading_keys], then ["journal"] when the work has a
    non-empty primary source and not otherwise, then ["research_topic"]; no
    key comes twice. *)
Theorem flat_record_keys (work : value) (flat : dict) :
  enhance_work_data work = Ok flat ->
  map fst flat
  = leading_keys
    ++ match primary_source work with Some _ => ["journal"] | None => [] end
    ++ ["research_topic"] /\
  NoDup (map fst flat).
Proof.
  intros H. destruct (work_is_dict _ _ H) as [d ->].
  apply enhance_work_data_Ok in H
    as (auths & authors & institutions & fields & domains & keywords & fs & ds & ks
        & ratio & journal & topic & _ & _ & _ & _ & _ & _ & _ & _ & _ & Hj & _ & ->).
  apply journal_info_Ok in Hj.
  assert (map fst (flat_record d authors institutions fs ds ks ratio journal topic)
          = leading_keys
            ++ match primary_source (VDict d) with Some _ => ["journal"] | None => [] end
            ++ ["research_topic"]) as Hkeys.
  { rewrite Hj. by destruct (primary_source (VDict d)). }
  split; [done|]. rewrite Hkeys.
  destruct (primary_source (VDict d)); apply (bool_decide_unpack _); by vm_compute.
Qed.

Lemma flat_record_keys_witness :
  map fst journal_flat = leading_keys ++ ["journal"; "research_topic"] /\
  NoDup (map fst journal_flat).
Proof. apply (flat_record_keys journal_work journal_flat). reflexivity. Defined.

(** X7: whenever the flattener returns a record, its ["id"], ["title"],
    ["publication_year"], ["cited_by_count"], ["referenced_works_count"] and
    ["type"] are the work's members ["id"], ["display_name"], ... as they
    are, of whatever type, and null for a missing member. *)
Theorem scalars_copied (d flat : dict) :
  enhance_work_data (VDict d) = Ok flat ->
  Forall (fun '(out, member) => dict_lookup out flat = Some (dict_get d member VNone))
         copied_members.
Proof.
  intros H.
  apply enhance_work_data_Ok in H
    as (auths & authors & institutions & fields & domains & keywords & fs & ds & ks
        & ratio & journal & topic & _ & _ & _ & _ & _ & _ & _ & _ & _ & _ & _ & ->).
  repeat constructor.
Qed.

Lemma scalars_copied_witness :
  Forall (fun '(out, member) =>
            dict_lookup out (flattened (VDict [("id", VStr "W1"); ("type", VStr "article")]))
            = Some (dict_get [("id", VStr "W1"); ("type", VStr "article")] member VNone))
         copied_members.
Proof.
  apply (scalars_copied [("id", VStr "W1"); ("type", VStr "article")]
           (flattened (VDict [("id", VStr "W1"); ("type", VStr "article")]))).
  reflexivity.
Defined.

(** X8: the name lists of the record depend on which names the work gives,
    not on their order or on how often each is given.  Two works that are
    both flattened and give the same set of field names get the same
    ["fields"] (and so the same ["is_multidisciplinary"]); the same holds of
    ["domains"], and of ["keywords"] together with ["top_keywords"]: any
    ranking of the source is lost. *)
Theorem name_lists_ignore_order (work1 work2 : value) (flat1 flat2 : dict) :
  enhance_work_data work1 = Ok flat1 ->
  enhance_work_data work2 = Ok flat2 ->
  (forall n1 n2 : list value,
     topic_names work1 "field" = Ok n1 -> topic_names work2 "field" = Ok n2 ->
     (forall v, v ∈ n1 <-> v ∈ n2) ->
     dict_lookup "fields" flat1 = dict_lookup "fields" flat2 /\
     dict_lookup "is_multidisciplinary" flat1 = dict_lookup "is_multidisciplinary" flat2) /\
  (forall n1 n2 : list value,
     topic_names work1 "domain" = Ok n1 -> topic_names work2 "domain" = Ok n2 ->
     (forall v, v ∈ n1 <-> v ∈ n2) ->
     dict_lookup "domains" flat1 = dict_lookup "domains" flat2) /\
  (forall n1 n2 : list value,
     keyword_names work1 = Ok n1 -> keyword_names work2 = Ok n2 ->
     (forall v, v ∈ n1 <-> v ∈ n2) ->
     dict_lookup "keywords" flat1 = dict_lookup "keywords" flat2 /\
     dict_lookup "top_keywords" flat1 = dict_lookup "top_keywords" flat2).
Proof.
  intros H1 H2.
  destruct (work_is_dict _ _ H1) as [d1 ->], (work_is_dict _ _ H2) as [d2 ->].
  apply enhance_work_data_names in H1
    as (auths1 & authors1 & institutions1 & fields1 & domains1 & keywords1 & ratio1
        & journal1 & _ & _ & Hf1 & Hd1 & Hk1 & _ & _ & _ & ->).
  apply enhance_work_data_names in H2
    as (auths2 & authors2 & institutions2 & fields2 & domains2 & keywords2 & ratio2
        & journal2 & _ & _ & Hf2 & Hd2 & Hk2 & _ & _ & _ & ->).
  split; [|split]; intros n1 n2 E1 E2 Hm.
  - rewrite Hf1 in E1. rewrite Hf2 in E2. injection E1 as <-. injection E2 as <-.
    pose proof (sorted_strings_same_members _ _ (same_members_strings _ _ Hm)) as Hs.
    cbn. by rewrite Hs.
  - rewrite Hd1 in E1. rewrite Hd2 in E2. injection E1 as <-. injection E2 as <-.
    pose proof (sorted_strings_same_members _ _ (same_members_strings _ _ Hm)) as Hs.
    cbn. by rewrite Hs.
  - rewrite Hk1 in E1. rewrite Hk2 in E2. injection E1 as <-. injection E2 as <-.
    pose proof (sorted_strings_same_members _ _ (same_members_strings _ _ Hm)) as Hs.
    cbn. by rewrite Hs.
Qed.

Lemma name_lists_ignore_order_witness :
  dict_lookup "fields" titled_flat = dict_lookup "fields" reordered_flat /\
  dict_lookup "top_keywords" titled_flat = dict_lookup "top_keywords" reordered_flat.
Proof.
  destruct (name_lists_ignore_order titled_work reordered_work titled_flat reordered_flat)
    as (Hf & _ & Hk); [reflexivity|reflexivity|].
  split.
  - apply (Hf [VStr "B"; VStr "A"] [VStr "A"; VStr "B"; VStr "A"]);
      [reflexivity|reflexivity|].
    intros v. rewrite !elem_of_cons, !elem_of_nil. tauto.
  - apply (Hk [VStr "x"; VStr "y"] [VStr "y"; VStr "x"]);
      [reflexivity|reflexivity|].
    intros v. rewrite !elem_of_cons, !elem_of_nil. tauto.
Defined.

(* ===================================================================== *)
(** * The pager: files, requests and pauses of a run *)
(* ===================================================================== *)

Section PagerExtras.

Variable json_dumps : value -> string.
Variable server : list params -> params -> response.

(** X9: whatever becomes of a run, whether it returns or raises, it
    deletes no file, and it leaves every file as it was but the output file
    and the page files and checkpoints of the pages after the one it starts
    from.  In particular a resumed run leaves the page files and checkpoints
    of the pages before [resume_from_page] alone. *)
Theorem run_leaves_other_files (fuel : nat) (year : Z) (resume : option Z) (w : world)
    (l0 : locals) (m : mode) (r : result (option (locals * loop_exit))) (w' : world) :
  resume_setup year resume w = (Ok (l0, m), w) ->
  fetch_and_save_articles json_dumps server fuel year resume w = (r, w') ->
  keeps_files w w' /\
  (forall p, ~ run_path year (page_count l0) p -> files w' !! p = files w !! p) /\
  (forall i, i <= page_count l0 ->
     files w' !! iteration_file year i = files w !! iteration_file year i /\
     files w' !! cursor_file year i = files w !! cursor_file year i).
Proof.
  intros Hsetup Hrun.
  destruct (run_loop _ _ _ _ _ _ _ _ _ _ Hsetup Hrun) as (_ & Hfiles & _).
  pose proof (fetch_pages_effect json_dumps server fuel year l0
                (snd (open_file (output_file year) m w))) as (Hkeep & Hframe & _).
  assert (forall p, ~ run_path year (page_count l0) p -> files w' !! p = files w !! p)
    as Hothers.
  { intros p Hp. rewrite Hfiles, Hframe by done. cbn [snd open_file files].
    rewrite lookup_insert_ne; [done|]. intros <-. apply Hp. by left. }
  split; [|split; [done|]].
  - intros p Hp. rewrite Hfiles. apply Hkeep. cbn [snd open_file files].
    by apply is_Some_insert_keeps.
  - intros i Hi. split; apply Hothers.
    + by apply iteration_file_not_run_path.
    + by apply cursor_file_not_run_path.
Qed.

(** X10: a run that raises nothing has sent one request for each page it
    asked for, and has paused for one second after each page it wrote: as
    many seconds as requests, less one when the loop was left on a failed
    request. *)
Theorem one_request_per_page (fuel : nat) (year : Z) (resume : option Z) (w : world)
    (l0 : locals) (m : mode) (r : option (locals * loop_exit)) (w' : world) :
  resume_setup year resume w = (Ok (l0, m), w) ->
  fetch_and_save_articles json_dumps server fuel year resume w = (Ok r, w') ->
  Z.of_nat (length (sent w'))
  = Z.of_nat (length (sent w)) + pages_requested fuel (page_count l0) r /\
  slept w' = slept w + (last_written fuel (page_count l0) r - page_count l0) /\
  pages_requested fuel (page_count l0) r
  = last_written fuel (page_count l0) r - page_count l0
    + match r with Some (_, ByBreak) => 1 | _ => 0 end.
Proof.
  intros Hsetup Hrun.
  destruct (run_loop _ _ _ _ _ _ _ _ _ _ Hsetup Hrun) as (Hr & _ & Hsent & Hslept & _).
  destruct (fetch_pages_sent json_dumps server fuel year l0
              (snd (open_file (output_file year) m w)))
    as (new & Hnew & _ & _ & _ & Hcount).
  specialize (Hcount r (eq_sym Hr)).
  destruct (fetch_pages json_dumps server fuel year l0
              (snd (open_file (output_file year) m w))) as [r0 w1] eqn:E.
  cbn [fst snd] in *. subst r0.
  apply fetch_pages_Ok in E as (_ & Hslept' & _).
  split; [|split].
  - rewrite Hsent, Hnew, length_app. cbn [snd open_file sent]. lia.
  - rewrite Hslept, Hslept'. done.
  - destruct r as [[l' []]|]; cbn [pages_requested last_written]; lia.
Qed.

(** X11: every request a run sends, whether the run returns or raises,
    carries the filter of the year and the page size 200; the first one
    carries the cursor the run starts from, ["*"] in a fresh run. *)
Theorem requests_carry_the_filter (fuel : nat) (year : Z) (resume : option Z) (w : world)
    (l0 : locals) (m : mode) (r : result (option (locals * loop_exit))) (w' : world) :
  resume_setup year resume w = (Ok (l0, m), w) ->
  fetch_and_save_articles json_dumps server fuel year resume w = (r, w') ->
  exists new : list params,
    sent w' = sent w ++ new /\
    Forall (fun q => param_filter q = param_filter (initial_params year) /\
                     param_per_page q = 200) new /\
    (forall q, head new = Some q -> q = loc_params l0) /\
    (m = ModeW -> forall q, head new = Some q -> param_cursor q = "*").
Proof.
  intros Hsetup Hrun.
  destruct (run_loop _ _ _ _ _ _ _ _ _ _ Hsetup Hrun) as (_ & _ & Hsent & _).
  destruct (resume_setup_locals _ _ _ _ _ _ Hsetup) as (Hfilter & Hper & _ & Hfresh).
  destruct (fetch_pages_sent json_dumps server fuel year l0
              (snd (open_file (output_file year) m w)))
    as (new & Hnew & Hall & _ & Hhead & _).
  assert (forall q, head new = Some q -> q = loc_params l0) as Hfirst.
  { intros q Hq. rewrite Hq in Hhead. destruct fuel; congruence. }
  exists new. split; [by rewrite Hsent, Hnew|]. split; [|split; [done|]].
  - eapply Forall_impl; [exact Hall|]. intros q [? ?]. split; congruence.
  - intros Hm q Hq. rewrite (Hfirst q Hq), (Hfresh Hm). done.
Qed.

(** X12: the requests of a run follow the cursors of the source: each
    request after the first carries the [next_cursor] of the answer to the
    request before it, whether the run returns or raises. *)
Theorem requests_follow_the_cursors (fuel : nat) (year : Z) (resume : option Z)
    (w : world) (l0 : locals) (m : mode) (r : result (option (locals * loop_exit)))
    (w' : world) :
  resume_setup year resume w = (Ok (l0, m), w) ->
  fetch_and_save_articles json_dumps server fuel year resume w = (r, w') ->
  exists new : list params,
    sent w' = sent w ++ new /\ chained server (sent w) new.
Proof.
  intros Hsetup Hrun.
  destruct (run_loop _ _ _ _ _ _ _ _ _ _ Hsetup Hrun) as (_ & _ & Hsent & _).
  destruct (fetch_pages_sent json_dumps server fuel year l0
              (snd (open_file (output_file year) m w)))
    as (new & Hnew & _ & Hchain & _).
  exists new. split; [by rewrite Hsent, Hnew|done].
Qed.


(* ===================================================================== *)
(** * The pager: one page *)
(* ===================================================================== *)

(** X13: a turn of the loop that is not left by [break] has got an answer
    with status 200 whose works the flattener all accepts; the page file
    then holds exactly one JSON line per work, in order, whatever it held
    before, the same lines have been added to the end of the output file,
    and the total has grown by the number of works. *)
Theorem page_written_as_flattened (year : Z) (l l1 : locals) (ex : option loop_exit)
    (w w1 : world) :
  fetch_page json_dumps server year l w = (Ok (l1, ex), w1) ->
  ex <> Some ByBreak ->
  exists (works : list value) (flats : list dict),
    status_code (server (sent w) (loc_params l)) = 200 /\
    page_works (server (sent w) (loc_params l)) = Ok works /\
    mapM enhance_work_data works = Ok flats /\
    files w1 !! iteration_file year (page_count l + 1)
      = Some (lines_of json_dumps flats) /\
    content_of w1 (output_file year)
      = content_of w (output_file year) +:+ lines_of json_dumps flats /\
    total_downloaded l1 = total_downloaded l + Z.of_nat (length works) /\
    page_count l1 = page_count l + 1.
Proof.
  intros H Hex. apply fetch_page_inv in H as (Hpc & _ & _ & H).
  destruct ex as [[]|]; [done| |];
    destruct H as (Hst & _ & works & flats & Hw & Hf & Ht & Hfile & Hout & _);
    by exists works, flats.
Qed.

(** X14: a checkpoint is written exactly when the answer carries a truthy
    [next_cursor].  A turn that goes on has got a non-empty string as next
    cursor, has written it, and nothing else, to the checkpoint of its page,
    and hands it to the next request.  A turn that ends the loop, or is left
    by [break], leaves the checkpoint of its page as it was, missing if it
    was missing, and the query unchanged; the loop ends on a [next_cursor]
    that is falsy: absent, null, or empty. *)
Theorem checkpoint_only_with_next_cursor (year : Z) (l l1 : locals)
    (ex : option loop_exit) (w w1 : world) :
  fetch_page json_dumps server year l w = (Ok (l1, ex), w1) ->
  match ex with
  | None =>
      exists c : string,
        next_cursor (server (sent w) (loc_params l)) = Some (VStr c) /\
        c <> EmptyString /\
        files w1 !! cursor_file year (page_count l + 1) = Some c /\
        loc_params l1
        = Params (param_filter (loc_params l)) (param_per_page (loc_params l)) c
  | Some e =>
      files w1 !! cursor_file year (page_count l + 1)
      = files w !! cursor_file year (page_count l + 1) /\
      loc_params l1 = loc_params l /\
      (e = NoMorePages ->
       exists v : value,
         next_cursor (server (sent w) (loc_params l)) = Some v /\ truthy v = false)
  end.
Proof.
  intros H. apply fetch_page_inv in H as (Hpc & Hfilter & Hper & H).
  destruct ex as [[]|].
  - destruct H as (_ & -> & -> & _). done.
  - destruct H as (_ & _ & works & flats & _ & _ & _ & _ & _ & v & Hv & Ht & Hc & Hp).
    split; [done|]. split; [done|]. intros _. by exists v.
  - destruct H as (_ & _ & works & flats & _ & _ & _ & _ & _ & c & Hn & Hne & Hc & Hp).
    exists c. split; [done|]. split; [done|]. split; [done|].
    destruct (loc_params l1). simpl in *. congruence.
Qed.

(* ===================================================================== *)
(** * The pager: what makes a run raise *)
(* ===================================================================== *)

(** X15: nothing catches what the flattener raises.  When a page is
    answered with status 200 and the flattener rejects one of its works, the
    run raises the exception of the first such work: the lines of the works
    before it are in the page file and at the end of the output file, with
    no rollback; no checkpoint is written, no pause is made and no last line
    is printed. *)
Theorem flattener_failure_stops_the_run (fuel : nat) (year : Z) (l : locals) (w : world)
    (works : list value) (e : exn) :
  status_code (server (sent w) (loc_params l)) = 200 ->
  page_works (server (sent w) (loc_params l)) = Ok works ->
  mapM enhance_work_data works = Raise e ->
  exists (w1 : world) (pre : list value) (bad : value) (post : list value)
         (flats : list dict),
    (r <~ fetch_pages json_dumps server (S fuel) year l ;; report_done year r) w
    = (Raise e, w1) /\
    works = pre ++ bad :: post /\
    mapM enhance_work_data pre = Ok flats /\
    enhance_work_data bad = Raise e /\
    files w1 !! iteration_file year (page_count l + 1)
      = Some (lines_of json_dumps flats) /\
    content_of w1 (output_file year)
      = content_of w (output_file year) +:+ lines_of json_dumps flats /\
    files w1 !! cursor_file year (page_count l + 1)
      = files w !! cursor_file year (page_count l + 1) /\
    slept w1 = slept w /\
    stdout w1 = stdout w ++ ["Fetching page " +:+ str_of_int (page_count l + 1)
                              +:+ " for " +:+ str_of_int year +:+ "..."].
Proof.
  intros Hst Hworks Hflat.
  destruct (fetch_page_start json_dumps server year l w works Hst Hworks) as (k & Hk & _).
  set (w0 := World _ _ _ _) in Hk.
  pose proof (write_works_fst json_dumps year (page_count l + 1) works w0) as Hfst.
  destruct (write_works json_dumps year (page_count l + 1) works w0) as [r wf] eqn:Ef.
  rewrite Hflat in Hfst. cbn [fst] in Hfst. subst r.
  destruct (page_files_written _ _ _ _ _ _ _ Ef)
    as (pre & flats & Hpre & (bad & post & Hsplit & Hbad) & Hfile & Hout & Hcur & Hslept
        & _ & Hstdout).
  exists wf, pre, bad, post, flats. split_and!; try done.
  apply loop_raises. rewrite Hk. unfold io_bind. by rewrite Ef.
Qed.

(** X16: a page answered with status 200 and a body that is not an object
    (a list, a string, null) makes the run raise [AttributeError] before any
    file is touched: the request is sent, and the page file is not even
    created. *)
Theorem page_body_not_object_raises (fuel : nat) (year : Z) (l : locals) (w : world) :
  status_code (server (sent w) (loc_params l)) = 200 ->
  (forall d : dict, json (server (sent w) (loc_params l)) <> VDict d) ->
  (r <~ fetch_pages json_dumps server (S fuel) year l ;; report_done year r) w
  = (Raise AttributeError,
     World (files w)
           (stdout w ++ ["Fetching page " +:+ str_of_int (page_count l + 1)
                          +:+ " for " +:+ str_of_int year +:+ "..."])
           (sent w ++ [loc_params l]) (slept w)).
Proof.
  intros Hst Hbody. apply loop_raises.
  unfold fetch_page. rewrite io_bind_print. unfold io_bind at 1, requests_get.
  cbn [snd fst files stdout sent slept print]. rewrite Hst. cbn [negb Z.eqb Pos.eqb].
  rewrite (io_bind_lift_Raise _ AttributeError); [done|].
  destruct (json (server (sent w) (loc_params l))); try done. by destruct (Hbody d).
Qed.

(** X17: the answer must have an object under ["meta"].  When a page is
    answered with status 200 and works the flattener all accepts, but
    without a usable ["meta"], the run raises once the page is written:
    [KeyError] when the member is missing, [AttributeError] when it is not an
    object.  The page file and the output file have the lines of the page,
    the line reporting them is printed, no checkpoint is written and no pause
    is made. *)
Theorem page_without_meta_raises (fuel : nat) (year : Z) (l : locals) (w : world)
    (works : list value) (flats : list dict) :
  status_code (server (sent w) (loc_params l)) = 200 ->
  page_works (server (sent w) (loc_params l)) = Ok works ->
  mapM enhance_work_data works = Ok flats ->
  next_cursor (server (sent w) (loc_params l)) = None ->
  exists (d : dict) (w1 : world),
    json (server (sent w) (loc_params l)) = VDict d /\
    (r <~ fetch_pages json_dumps server (S fuel) year l ;; report_done year r) w
    = (Raise match dict_lookup "meta" d with
             | None => KeyError
             | Some _ => AttributeError
             end, w1) /\
    files w1 !! iteration_file year (page_count l + 1)
      = Some (lines_of json_dumps flats) /\
    content_of w1 (output_file year)
      = content_of w (output_file year) +:+ lines_of json_dumps flats /\
    files w1 !! cursor_file year (page_count l + 1)
      = files w !! cursor_file year (page_count l + 1) /\
    slept w1 = slept w /\
    last (stdout w1)
    = Some ("Saved " +:+ str_of_int (Z.of_nat (length works))
            +:+ " articles. Total so far: "
            +:+ str_of_int (total_downloaded l + Z.of_nat (length works))).
Proof.
  intros Hst Hworks Hflat Hnext.
  destruct (fetch_page_start json_dumps server year l w works Hst Hworks)
    as (k & Hk & Hk').
  set (w0 := World _ _ _ _) in Hk.
  pose proof (write_works_fst json_dumps year (page_count l + 1) works w0) as Hfst.
  destruct (write_works json_dumps year (page_count l + 1) works w0) as [r wf] eqn:Ef.
  rewrite Hflat in Hfst. cbn [fst] in Hfst. subst r.
  destruct (page_files_written _ _ _ _ _ _ _ Ef)
    as (pre & flats' & Hpre & -> & Hfile & Hout & Hcur & Hslept & _ & Hstdout).
  rewrite Hflat in Hpre. injection Hpre as <-.
  destruct (page_works_Ok _ _ Hworks) as (d & Hd & _).
  exists d. eexists. split; [done|]. split.
  { apply loop_raises. rewrite Hk. unfold io_bind at 1. rewrite Ef, Hk', io_bind_print.
    unfold next_cursor in Hnext. rewrite Hd in Hnext |- *. cbn [py_getitem].
    destruct (dict_lookup "meta" d) as [meta|].
    - rewrite (io_bind_lift_Ok _ meta) by done.
      rewrite (io_bind_lift_Raise _ AttributeError); [done|]. by destruct meta.
    - by rewrite (io_bind_lift_Raise _ KeyError). }
  cbn [snd print files slept stdout]. split_and!; try done.
  by rewrite last_snoc.
Qed.

(* ===================================================================== *)
(** * The pager: how a run ends, and resuming it *)
(* ===================================================================== *)

(** X18: the loop has no page limit of its own.  Against a source that
    answers every request with status 200, works the flattener accepts and a
    non-empty next cursor, it is still going after any number of turns,
    having sent one request in each. *)
Theorem no_page_limit (fuel : nat) (year : Z) (l : locals) (w : world) :
  (forall earlier q,
     status_code (server earlier q) = 200 /\
     (exists works flats,
        page_works (server earlier q) = Ok works /\
        mapM enhance_work_data works = Ok flats) /\
     (exists c, next_cursor (server earlier q) = Some (VStr c) /\ c <> EmptyString)) ->
  exists w' : world,
    fetch_pages json_dumps server fuel year l w = (Ok None, w') /\
    length (sent w') = (length (sent w) + fuel)%nat.
Proof.
  intros Hserver. revert l w. induction fuel as [|fuel IH]; intros l w.
  { exists w. split; [done|]. lia. }
  destruct (Hserver (sent w) (loc_params l))
    as (Hst & (works & flats & Hworks & Hflat) & c & Hnext & Hc).
  destruct (fetch_page_continues json_dumps server year l w works flats c)
    as (l1 & w1 & Hpage); try done.
  destruct (IH l1 w1) as (w' & Hrun & Hlen).
  exists w'. cbn [fetch_pages]. unfold io_bind. rewrite Hpage. split; [done|].
  pose proof (fetch_page_effect json_dumps server year l w) as (Hsent & _).
  rewrite Hpage in Hsent. cbn [snd] in Hsent.
  rewrite Hlen, Hsent, length_app. cbn. lia.
Qed.

(** X19: a run that starts afresh empties the output file before its first
    request.  If that request fails, the run returns normally and leaves the
    output file empty, whatever it held, all other files being as they
    were. *)
Theorem failed_first_request_empties_output (fuel : nat) (year : Z) (resume : option Z)
    (w : world) :
  resume_setup year resume w = (Ok (Locals (initial_params year) 0 0, ModeW), w) ->
  status_code (server (sent w) (initial_params year)) <> 200 ->
  exists w' : world,
    fetch_and_save_articles json_dumps server (S fuel) year resume w
    = (Ok (Some (Locals (initial_params year) 0 1, ByBreak)), w') /\
    files w' = <[output_file year := EmptyString]> (files w) /\
    sent w' = sent w ++ [initial_params year].
Proof.
  intros Hsetup Hst. rewrite (run_unfold _ _ _ _ _ _ _ _ Hsetup).
  cbn [fetch_pages]. unfold io_bind at 1 2.
  rewrite fetch_page_break by done.
  eexists. split; [reflexivity|]. done.
Qed.

(** X20: runs for different years do not meet: whatever becomes of a run
    for one year, it leaves the output file, the page files and the
    checkpoints of every other year as they were. *)
Theorem other_years_untouched (fuel : nat) (year year' : Z) (resume : option Z)
    (w : world) (r : result (option (locals * loop_exit))) (w' : world) :
  year' <> year ->
  fetch_and_save_articles json_dumps server fuel year resume w = (r, w') ->
  files w' !! output_file year' = files w !! output_file year' /\
  forall i : Z,
    files w' !! iteration_file year' i = files w !! iteration_file year' i /\
    files w' !! cursor_file year' i = files w !! cursor_file year' i.
Proof.
  intros Hne Hrun.
  destruct (resume_setup year resume w) as [s w0] eqn:Hsetup.
  destruct (resume_setup_Ok _ _ _ _ _ Hsetup) as (-> & l0 & m & -> & _).
  destruct (run_loop _ _ _ _ _ _ _ _ _ _ Hsetup Hrun) as (_ & Hfiles & _).
  pose proof (fetch_pages_effect json_dumps server fuel year l0
                (snd (open_file (output_file year) m w))) as (_ & Hframe & _).
  assert (forall p0' p, run_path year' p0' p -> files w' !! p = files w !! p) as Hother.
  { intros p0' p Hp.
    pose proof (run_path_other_year year year' (page_count l0) p0' p Hne Hp) as Hp'.
    rewrite Hfiles, Hframe by done. cbn [snd open_file files].
    rewrite lookup_insert_ne; [done|]. intros <-. apply Hp'. by left. }
  split; [apply (Hother 0); by left|].
  intros i. split; apply (Hother (i - 1)); right; exists i; (split; [lia|auto]).
Qed.

Hypothesis json_dumps_one_line : forall v, one_line (json_dumps v) = true.

(** X21: the total a run reports is the number of lines of its output
    file, when the run starts afresh and each record is dumped as one line:
    the last line printed is the "Done" line with that number. *)
Theorem reported_total_is_the_line_count (fuel : nat) (year : Z) (resume : option Z)
    (w : world) (l0 l' : locals) (e : loop_exit) (w' : world) :
  resume_setup year resume w = (Ok (l0, ModeW), w) ->
  fetch_and_save_articles json_dumps server fuel year resume w
  = (Ok (Some (l', e)), w') ->
  total_downloaded l' = file_lines w' (output_file year) /\
  last (stdout w')
  = Some ("✅ Done! Downloaded " +:+ str_of_int (total_downloaded l')
          +:+ " articles for " +:+ str_of_int year +:+ ".").
Proof.
  intros Hsetup Hrun.
  destruct (resume_setup_locals _ _ _ _ _ _ Hsetup) as (_ & _ & _ & Hl0).
  specialize (Hl0 eq_refl). subst l0.
  rewrite (run_unfold _ _ _ _ _ _ _ _ Hsetup) in Hrun. unfold io_bind in Hrun.
  set (w0 := snd (open_file (output_file year) ModeW w)) in *.
  destruct (fetch_pages json_dumps server fuel year _ w0) as [[[[l2 e2]|]|e0] wout] eqn:E;
    try done.
  cbn in Hrun. injection Hrun as <- <- <-. cbn [stdout]. split; [|by rewrite last_snoc].
  pose proof (fetch_pages_total _ _ json_dumps_one_line _ _ _ _ _ _ _ E) as Htotal.
  assert (content_of w0 (output_file year) = EmptyString) as Hempty.
  { unfold w0, content_of. cbn [snd open_file files]. by rewrite lookup_insert_eq. }
  apply (fetch_pages_lines _ _ json_dumps_one_line _ _ _ _ _ _ []) in E
    as (_ & Hlines & _);
    [|by rewrite Hempty|unfold file_lines; by rewrite Hempty|done].
  cbn [total_downloaded page_count app] in *.
  rewrite Htotal. unfold file_lines, content_of in *. cbn [files]. lia.
Qed.

(** X22: resuming restores the state a failed request interrupted.  When a
    run that has written at least one page is left by [break] at page
    [k + 1], with [total_downloaded = T] and the cursor [c], and every record
    is dumped as one line, then resuming at page [k + 1] finds the
    checkpoint of page [k] and starts with page count [k], total [T], the
    year's filter and page size, the output file opened to append, and the
    cursor [c] as it is read back, line ends unified and surrounding white
    space stripped: the very state the run was in when [c] has no white
    space. *)
Theorem resume_restores_the_state (fuel : nat) (year : Z) (resume : option Z) (w : world)
    (l0 : locals) (m : mode) (l' : locals) (w' : world) :
  resume_setup year resume w = (Ok (l0, m), w) ->
  fetch_and_save_articles json_dumps server fuel year resume w
  = (Ok (Some (l', ByBreak)), w') ->
  0 <= page_count l0 < page_count l' - 1 ->
  let c := param_cursor (loc_params l') in
  resume_setup year (Some (page_count l')) w'
  = (Ok (Locals (Params (param_filter (loc_params l')) (param_per_page (loc_params l'))
                        (strip (read_text c false)))
                (total_downloaded l') (page_count l' - 1), ModeA), w') /\
  (no_space c = true ->
   resume_setup year (Some (page_count l')) w'
   = (Ok (Locals (loc_params l') (total_downloaded l') (page_count l' - 1), ModeA), w')).
Proof.
  intros Hsetup Hrun Hpages c.
  destruct (resume_setup_locals _ _ _ _ _ _ Hsetup) as (Hfilter & Hper & _ & _).
  destruct (run_total _ _ json_dumps_one_line _ _ _ _ _ _ _ _ _ Hsetup Hrun)
    as (_ & Htotal); [lia|].
  destruct (run_loop _ _ _ _ _ _ _ _ _ _ Hsetup Hrun) as (Hr & Hfiles & _).
  destruct (fetch_pages json_dumps server fuel year l0
              (snd (open_file (output_file year) m w))) as [r wout] eqn:E.
  cbn [fst snd last_written] in *. subst r.
  apply fetch_pages_Ok in E as (_ & _ & Hfilter' & Hper' & _ & Hcursor).
  cbn [last_written] in *. specialize (Hcursor ltac:(lia) eq_refl).
  assert (resume_setup year (Some (page_count l')) w'
          = (Ok (Locals (Params (param_filter (loc_params l'))
                                (param_per_page (loc_params l'))
                                (strip (read_text c false)))
                        (total_downloaded l') (page_count l' - 1), ModeA), w'))
    as Hresume.
  { rewrite resume_setup_nonzero by lia. rewrite Hfiles, Hcursor.
    by rewrite Hfilter', Hper', Hfilter, Hper, Htotal. }
  split; [done|]. intros Hc.
  rewrite Hresume, (strip_read_text_no_space c Hc). by destruct (loc_params l').
Qed.

(** X23: the total a run ends with is the number of lines of the page files
    1 to the last page it wrote, whether the run started afresh or resumed
    after page [R - 1 >= 0]: the lines counted at the set-up and the works of
    the pages written since are the lines of those files, each record being
    dumped as one line. *)
Theorem total_counts_the_page_files (fuel : nat) (year : Z) (resume : option Z)
    (w : world) (l0 : locals) (m : mode) (l' : locals) (e : loop_exit) (w' : world) :
  resume_setup year resume w = (Ok (l0, m), w) ->
  fetch_and_save_articles json_dumps server fuel year resume w
  = (Ok (Some (l', e)), w') ->
  0 <= page_count l0 ->
  let last := last_written fuel (page_count l0) (Some (l', e)) in
  page_count l0 <= last /\
  total_downloaded l' = pages_lines year w' (seqZ 1 last).
Proof. apply run_total, json_dumps_one_line. Qed.

End PagerExtras.

Lemma run_leaves_other_files_witness :
  files (snd resumed_run) !! iteration_file 2023 1
  = files one_page_world !! iteration_file 2023 1 /\
  files (snd resumed_run) !! cursor_file 2023 1
  = files one_page_world !! cursor_file 2023 1.
Proof.
  destruct (run_leaves_other_files one_line_dumps two_page_server 5 2023 (Some 2)
              one_page_world
              (Locals (Params (param_filter (initial_params 2023)) 200 "C1") 1 1) ModeA
              (fst resumed_run) (snd resumed_run)) as (_ & _ & H).
  - reflexivity.
  - reflexivity.
  - apply (H 1). discriminate.
Defined.

Lemma one_request_per_page_witness :
  Z.of_nat (length (sent (snd fresh_run))) = 0 + 2 /\
  slept (snd fresh_run) = 0 + (2 - 0).
Proof.
  destruct (one_request_per_page one_line_dumps two_page_server 5 2023 None
              (world_with []) (Locals (initial_params 2023) 0 0) ModeW
              (Some (Locals (Params (param_filter (initial_params 2023)) 200 "C1") 3 2,
                     NoMorePages))
              (snd fresh_run)) as (H1 & H2 & _).
  - reflexivity.
  - reflexivity.
  - split; assumption.
Defined.

Lemma requests_carry_the_filter_witness :
  exists new : list params,
    sent (snd fresh_run) = [] ++ new /\
    Forall (fun q => param_filter q = param_filter (initial_params 2023) /\
                     param_per_page q = 200) new.
Proof.
  destruct (requests_carry_the_filter one_line_dumps two_page_server 5 2023 None
              (world_with []) (Locals (initial_params 2023) 0 0) ModeW
              (fst fresh_run) (snd fresh_run)) as (new & H1 & H2 & _).
  - reflexivity.
  - reflexivity.
  - exists new. split; assumption.
Defined.

Lemma requests_follow_the_cursors_witness :
  exists new : list params,
    sent (snd fresh_run) = [] ++ new /\ chained two_page_server [] new.
Proof.
  apply (requests_follow_the_cursors one_line_dumps two_page_server 5 2023 None
           (world_with []) (Locals (initial_params 2023) 0 0) ModeW
           (fst fresh_run) (snd fresh_run)).
  - reflexivity.
  - reflexivity.
Defined.

Lemma page_written_as_flattened_witness :
  exists (works : list value) (flats : list dict),
    page_works (two_page_server [] (initial_params 2023)) = Ok works /\
    mapM enhance_work_data works = Ok flats /\
    files (snd first_page) !! iteration_file 2023 1 = Some (lines_of one_line_dumps flats).
Proof.
  destruct (page_written_as_flattened one_line_dumps two_page_server 2023
              (Locals (initial_params 2023) 0 0)
              (Locals (Params (param_filter (initial_params 2023)) 200 "C1") 2 1)
              None (world_with []) (snd first_page))
    as (works & flats & _ & H1 & H2 & H3 & _).
  - reflexivity.
  - discriminate.
  - exists works, flats. repeat split; assumption.
Defined.

Lemma checkpoint_only_with_next_cursor_witness :
  exists c : string,
    next_cursor (two_page_server [] (initial_params 2023)) = Some (VStr c) /\
    files (snd first_page) !! cursor_file 2023 1 = Some c.
Proof.
  destruct (checkpoint_only_with_next_cursor one_line_dumps two_page_server 2023
              (Locals (initial_params 2023) 0 0)
              (Locals (Params (param_filter (initial_params 2023)) 200 "C1") 2 1)
              None (world_with []) (snd first_page))
    as (c & H1 & _ & H2 & _).
  - reflexivity.
  - exists c. split; assumption.
Defined.

Lemma flattener_failure_stops_the_run_witness :
  exists w1 : world,
    (r <~ fetch_pages one_line_dumps null_work_server 1 2023
            (Locals (initial_params 2023) 0 0) ;;
     report_done 2023 r) (world_with [])
    = (Raise AttributeError, w1) /\
    slept w1 = 0.
Proof.
  destruct (flattener_failure_stops_the_run one_line_dumps null_work_server 0 2023
              (Locals (initial_params 2023) 0 0) (world_with [])
              [titled_work; VNone; journal_work] AttributeError)
    as (w1 & pre & bad & post & flats & H1 & _ & _ & _ & _ & _ & _ & H2 & _).
  - reflexivity.
  - reflexivity.
  - reflexivity.
  - exists w1. split; [exact H1|exact H2].
Defined.

Lemma page_body_not_object_raises_witness :
  (r <~ fetch_pages one_line_dumps list_body_server 1 2023
          (Locals (initial_params 2023) 0 0) ;;
   report_done 2023 r) (world_with [])
  = (Raise AttributeError,
     World ∅ ["Fetching page 1 for 2023..."] [initial_params 2023] 0).
Proof.
  apply (page_body_not_object_raises one_line_dumps list_body_server 0 2023
           (Locals (initial_params 2023) 0 0) (world_with [])).
  - reflexivity.
  - intros d. discriminate.
Defined.

Lemma page_without_meta_raises_witness :
  exists w1 : world,
    (r <~ fetch_pages one_line_dumps no_meta_server 1 2023
            (Locals (initial_params 2023) 0 0) ;;
     report_done 2023 r) (world_with [])
    = (Raise KeyError, w1).
Proof.
  destruct (page_without_meta_raises one_line_dumps no_meta_server 0 2023
              (Locals (initial_params 2023) 0 0) (world_with [])
              [titled_work] [titled_flat])
    as (d & w1 & Hd & H & _).
  - reflexivity.
  - reflexivity.
  - reflexivity.
  - reflexivity.
  - exists w1. injection Hd as <-. exact H.
Defined.

Lemma no_page_limit_witness :
  exists w' : world,
    fetch_pages one_line_dumps endless_server 7 2023 (Locals (initial_params 2023) 0 0)
      (world_with [])
    = (Ok None, w') /\
    length (sent w') = 7%nat.
Proof.
  apply (no_page_limit one_line_dumps endless_server 7 2023
           (Locals (initial_params 2023) 0 0) (world_with [])).
  intros earlier q. split; [reflexivity|]. split.
  - exists [titled_work], [titled_flat]. split; reflexivity.
  - exists "more". split; [reflexivity|discriminate].
Defined.

Lemma failed_first_request_empties_output_witness :
  exists w' : world,
    fetch_and_save_articles one_line_dumps (fun _ _ => Response 503 VNone) 1 2023 None
      two_page_world
    = (Ok (Some (Locals (initial_params 2023) 0 1, ByBreak)), w') /\
    files w' = <[output_file 2023 := EmptyString]> (files two_page_world) /\
    sent w' = [] ++ [initial_params 2023].
Proof.
  apply (failed_first_request_empties_output one_line_dumps
           (fun _ _ => Response 503 VNone) 0 2023 None two_page_world).
  - reflexivity.
  - discriminate.
Defined.

Lemma reported_total_is_the_line_count_witness :
  3 = file_lines (snd fresh_run) (output_file 2023) /\
  last (stdout (snd fresh_run)) = Some "✅ Done! Downloaded 3 articles for 2023.".
Proof.
  apply (reported_total_is_the_line_count one_line_dumps two_page_server
           (fun _ => eq_refl) 5 2023 None (world_with [])
           (Locals (initial_params 2023) 0 0)
           (Locals (Params (param_filter (initial_params 2023)) 200 "C1") 3 2)
           NoMorePages (snd fresh_run)).
  - reflexivity.
  - reflexivity.
Defined.

Lemma resume_restores_the_state_witness :
  resume_setup 2023 (Some 2) (snd interrupted_run)
  = (Ok (Locals (Params (param_filter (initial_params 2023)) 200 "C1") 2 1, ModeA),
     snd interrupted_run).
Proof.
  apply (resume_restores_the_state one_line_dumps failing_server
           (fun _ => eq_refl) 5 2023 None (world_with [])
           (Locals (initial_params 2023) 0 0) ModeW
           (Locals (Params (param_filter (initial_params 2023)) 200 "C1") 2 2)
           (snd interrupted_run)).
  - reflexivity.
  - reflexivity.
  - cbn. lia.
  - reflexivity.
Defined.

Lemma other_years_untouched_witness :
  files (snd fresh_run) !! output_file 2022 = files (world_with []) !! output_file 2022.
Proof.
  destruct (other_years_untouched one_line_dumps two_page_server 5 2023 2022 None
              (world_with []) (fst fresh_run) (snd fresh_run)) as [H _].
  - discriminate.
  - reflexivity.
  - exact H.
Defined.

Lemma total_counts_the_page_files_witness :
  1 <= 2 /\ 2 = pages_lines 2023 (snd resumed_run) (seqZ 1 2).
Proof.
  apply (total_counts_the_page_files one_line_dumps two_page_server
           (fun _ => eq_refl) 5 2023 (Some 2) one_page_world
           (Locals (Params (param_filter (initial_params 2023)) 200 "C1") 1 1) ModeA
           (Locals (Params (param_filter (initial_params 2023)) 200 "C1") 2 2)
           NoMorePages (snd resumed_run)).
  - reflexivity.
  - reflexivity.
  - discriminate.
Defined.
